(** * Basket: newsletter subscription reconciliation

    A shallow embedding of the subscription code of the basket service:
    - [Py]: the few Python string and truthiness operations the code uses;
    - [Models]: the local [Subscriber] table and its queries;
    - [Views]: [src/news/views.py] ([language_code_is_valid],
      [look_for_user], [get_user_data], [lookup_subscriber],
      [update_user_task]);
    - [Tasks]: [src/apps/news/tasks.py] ([parse_newsletters],
      [update_user]);
    - [Demo]: a small catalog and a scripted remote service, used to run
      the code on concrete requests;
    - [Endpoints]: the views of [src/news/views.py] built on them
      ([logged_in], [get_user], [confirm], [subscribe], [subscribe_sms],
      [unsubscribe], [user], [send_recovery_message], [debug_user],
      [lookup_user]);
    - [Site]: a concrete site, used to run the views;
    - [Reconcile]: the field-set builder and the welcome selector of the
      six-argument [update_user] that [update_user_task] queues, whose
      module [news/tasks.py] is not among the sources;
    - [Platform]: the three partitions of the remote platform as data.

    Dictionaries are [gmap string _], Python sets are [gset string],
    exceptions are an explicit [outcome], and code that talks to the local
    table, the task queue or the remote service threads an explicit world. *)

From Stdlib Require Import String Ascii ZArith List Bool Lia.
From stdpp Require Import base option list strings gmap.

Local Open Scope string_scope.
Local Open Scope list_scope.

(** ** Python strings and truthiness *)

Module Py.

(** [str.lower] / [str.upper] on byte strings: only ASCII letters move.
    On a unicode string, which is what request data is, Python maps other
    letters too; the two agree on strings of ASCII characters
    ([is_ascii]). *)
Definition lower_char (c : ascii) : ascii :=
  let n := nat_of_ascii c in
  if (65 <=? n)%nat && (n <=? 90)%nat then ascii_of_nat (n + 32) else c.

Definition upper_char (c : ascii) : ascii :=
  let n := nat_of_ascii c in
  if (97 <=? n)%nat && (n <=? 122)%nat then ascii_of_nat (n - 32) else c.

Fixpoint lower (s : string) : string :=
  match s with
  | EmptyString => EmptyString
  | String c s' => String (lower_char c) (lower s')
  end.

Fixpoint upper (s : string) : string :=
  match s with
  | EmptyString => EmptyString
  | String c s' => String (upper_char c) (upper s')
  end.

(** The strings of ASCII characters. *)
Definition is_ascii (s : string) : bool :=
  forallb (λ c, (nat_of_ascii c <? 128)%nat) (list_ascii_of_string s).

(** [len(s)] *)
Definition len (s : string) : nat := String.length s.

(** [s[:n]] *)
Fixpoint slice_to (n : nat) (s : string) : string :=
  match n, s with
  | S n', String c s' => String c (slice_to n' s')
  | _, _ => EmptyString
  end.

(** [s.split(sep)] for a one-character separator: never returns the
    empty list, and [''.split(',')] is [['']]. *)
Fixpoint split (sep : ascii) (s : string) : list string :=
  match s with
  | EmptyString => [EmptyString]
  | String c s' =>
      if Ascii.eqb c sep then EmptyString :: split sep s'
      else match split sep s' with
           | w :: ws => String c w :: ws
           | [] => [String c EmptyString]
           end
  end.

(** The characters [str.strip()] removes: space, tab, newline, carriage
    return, vertical tab and form feed. *)
Definition is_space (c : ascii) : bool :=
  let n := nat_of_ascii c in
  (n =? 32)%nat || ((9 <=? n)%nat && (n <=? 13)%nat).

Fixpoint lstrip (s : string) : string :=
  match s with
  | EmptyString => EmptyString
  | String c s' => if is_space c then lstrip s' else s
  end.

Fixpoint rstrip (s : string) : string :=
  match s with
  | EmptyString => EmptyString
  | String c s' =>
      match rstrip s' with
      | EmptyString => if is_space c then EmptyString else String c EmptyString
      | r => String c r
      end
  end.

Definition strip (s : string) : string := rstrip (lstrip s).

(** [s.find(sub)]: the first index of [sub] in [s], or [-1]. *)
Definition find (s sub : string) : Z :=
  match String.index 0 sub s with
  | Some n => Z.of_nat n
  | None => (-1)%Z
  end.

(** Truthiness of a string: only [''] is false. *)
Definition truthy (s : string) : bool :=
  match s with EmptyString => false | _ => true end.

(** Truthiness of a value that may be [None]. *)
Definition truthy_opt (o : option string) : bool :=
  match o with Some s => truthy s | None => false end.

(** [x in l] for a list of strings. *)
Definition mem (x : string) (l : list string) : bool :=
  bool_decide (x ∈ l).

(** The values a caller can pass where the code expects a string. *)
Inductive value : Type :=
| VStr (s : string)
| VNone
| VBool (b : bool)
| VInt (z : Z)
| VList (l : list string).

Inductive exn : Type :=
| TypeError (msg : string)
| KeyError (key : string)
| AttributeError (msg : string)
| GenericException (msg : string)
| DoesNotExist
| MultipleObjectsReturned
| NewsletterException (msg : string)
| UnauthorizedException (msg : string)
| URLError (msg : string).

(** What a call produces: a value, or a raised exception. *)
Inductive outcome (A : Type) : Type :=
| Return (a : A)
| Raise (e : exn).
Arguments Return {A} a.
Arguments Raise {A} e.

End Py.

(** ** The local [Subscriber] table *)

Module Models.
Import Py.

(** A row: the e-mail address and the token that stands for it. *)
Record Subscriber : Type := mkSubscriber { sub_email : string; sub_token : string }.

(** The rows matching the keyword arguments that were given. *)
Definition matches (token email : option string) (s : Subscriber) : bool :=
  match token with Some t => String.eqb (sub_token s) t | None => true end &&
  match email with Some e => String.eqb (sub_email s) e | None => true end.

(** [Subscriber.objects.get] with the keyword arguments given. *)
Definition objects_get (token email : option string) (db : list Subscriber)
  : outcome Subscriber :=
  match List.filter (matches token email) db with
  | [] => Raise DoesNotExist
  | [s] => Return s
  | _ => Raise MultipleObjectsReturned
  end.

(** [Subscriber.objects.get_or_create(email=email)]; a created row
    receives [token]. *)
Definition objects_get_or_create (token : string) (email : string)
           (db : list Subscriber)
  : outcome (Subscriber * bool) * list Subscriber :=
  match List.filter (matches None (Some email)) db with
  | [] => let s := mkSubscriber email token in
          (Return (s, true), db ++ [s])
  | [s] => (Return (s, false), db)
  | _ => (Raise MultipleObjectsReturned, db)
  end.

(** [sub.token = token; sub.save()] *)
Definition save_token (email token : string) (db : list Subscriber)
  : list Subscriber :=
  map (λ s, if String.eqb (sub_email s) email
            then mkSubscriber email token else s) db.

End Models.

(** ** [src/news/views.py] *)

Module Views.
Import Py Models.

(** Error codes of [basket.errors] that the modelled functions return. *)
Inductive error_code : Type :=
| BASKET_NETWORK_FAILURE
| BASKET_EMAIL_PROVIDER_AUTH_FAILURE
| BASKET_USAGE_ERROR
| BASKET_INVALID_NEWSLETTER
| BASKET_INVALID_LANGUAGE.

(** The three remote data extensions named in [settings]. *)
Inductive database : Type :=
| EXACTTARGET_DATA
| EXACTTARGET_OPTIN_STAGE
| EXACTTARGET_CONFIRMATION.

Global Instance database_eq_dec : EqDecision database.
Proof. solve_decision. Defined.

(** Modelled from the spec: the row [ExactTargetDataExt.get_record]
    returns ([news/backends/exacttarget.py] is not among the sources);
    section 6 gives [get_record(partition, key_value, field_list,
    key_field_name) -> field_map | NoResultsError].  The field map holds
    the six requested columns (format, country and language may be
    [None]) and the newsletter flags. *)
Record et_user : Type := mkEtUser {
  EMAIL_ADDRESS_ : string;
  EMAIL_FORMAT_ : option string;
  COUNTRY_ : option string;
  LANGUAGE_ISO2 : option string;
  TOKEN : string;
  CREATED_DATE_ : string;
  et_flags : gmap string string
}.

Inductive get_result : Type :=
| Found (user : et_user)
| NoResults                      (* NewsletterNoResultsException *)
| Failed (e : exn).

(** The dictionary [look_for_user] builds. *)
Record user_fields : Type := mkUserFields {
  uf_status : string;
  uf_email : string;
  uf_format : string;
  uf_country : string;
  uf_lang : string;
  uf_token : string;
  uf_created_date : string;
  uf_newsletters : list string
}.

(** What [look_for_user] returns: [None], [True], or the dictionary. *)
Inductive look : Type :=
| LNone
| LTrue
| LUser (u : user_fields).

(** The dictionary [get_user_data] returns for a known user: the fields
    plus the three keys it stores at the end. *)
Record user_data : Type := mkUserData {
  ud_fields : user_fields;
  confirmed : bool;
  pending : bool;
  master : bool
}.

Inductive user_dict : Type :=
| UserData (d : user_data)
| ErrorData (status_code : Z) (desc : string) (code : error_code).

(** [d['status']] *)
Definition dict_status (d : user_dict) : string :=
  match d with
  | UserData d => uf_status (ud_fields d)
  | ErrorData _ _ _ => "error"
  end.

(** [update_user.delay(data, email, token, created, type, optin)] *)
Record task_call : Type := mkTaskCall {
  t_data : gmap string string;
  t_email : string;
  t_token : string;
  t_created : bool;
  t_type : Z;
  t_optin : bool
}.

(** The local table and the task queue. *)
Record world : Type := mkWorld {
  subscribers : list Subscriber;
  queue : list task_call
}.

Record request : Type := mkRequest {
  req_subscriber : option Subscriber;
  POST : gmap string string
}.

(** The JSON body of a response. *)
Inductive json : Type :=
| JError (desc : string) (code : error_code)
| JOk (token : string) (created : bool).

Record HttpResponseJSON : Type := mkResponse { content : json; status_code : Z }.

(** The exceptions [get_user_data] turns into an error dictionary. *)
Definition handled (e : exn) : bool :=
  match e with
  | NewsletterException _ | UnauthorizedException _ => true
  | _ => false
  end.

(** [x or d] for a value that may be [None] or empty. *)
Definition or_default (x : option string) (d : string) : string :=
  match x with
  | Some s => if truthy s then s else d
  | None => d
  end.

(** [email or token] *)
Definition or_else (x y : option string) : option string :=
  if truthy_opt x then x else y.

Section Views.
(** The catalog functions of [news/newsletters.py] and the constants of
    [news/tasks.py], which are not among the sources. *)
Variable newsletter_slugs : list string.
Variable newsletter_fields : list string.
Variable newsletter_languages : list string.
Variable slug_to_vendor_id : string → string.
Variable MSG_EMAIL_OR_TOKEN_REQUIRED : string.
(** The remote service as the request sees it. *)
Variable get_record : database → option string → list string → string → get_result.
(** The token a freshly created local row receives. *)
Variable new_token : list Subscriber → string.

(** *** [language_code_is_valid] *)
Definition language_code_is_valid (code : value) : outcome bool :=
  match code with
  | VStr code =>
      let langs := "" :: map lower newsletter_languages in
      let code := lower code in
      if mem code langs then Return true
      else if bool_decide (len code ∈ [2; 5]%nat) then
        let code2 := slice_to 2 code in
        if existsb (λ lang, String.eqb code2 (slice_to 2 lang)) langs
        then Return true
        else Return false
      else Return false
  | _ => Raise (TypeError "Language code must be a string")
  end.

(** *** The local table *)

(** Modelled from the spec: [Subscriber.objects.get_and_sync]
    ([news/models.py] is not among the sources); section 6:
    [sync(email, remote_token)] reconciles a locally-missing or
    token-mismatched record against a remote truth. *)
Definition objects_get_and_sync (email token : string) (db : list Subscriber)
  : list Subscriber :=
  match List.filter (matches None (Some email)) db with
  | [] => db ++ [mkSubscriber email token]
  | _ => save_token email token db
  end.

(** *** [look_for_user] *)
Definition look_for_user (db : database) (email token : option string)
           (fields : list string) : outcome look :=
  match get_record db (or_else email token) fields
                   (if truthy_opt email then "EMAIL_ADDRESS_" else "TOKEN") with
  | NoResults => Return LNone
  | Failed e => Raise e
  | Found user =>
      if decide (db = EXACTTARGET_CONFIRMATION) then Return LTrue
      else
        let newsletters :=
          List.filter
            (λ slug, let vendor_id := slug_to_vendor_id slug in
                     let flag := vendor_id +:+ "_FLG" in
                     String.eqb (default "N" (et_flags user !! flag)) "Y")
            newsletter_slugs in
        Return (LUser {|
          uf_status := "ok";
          uf_email := EMAIL_ADDRESS_ user;
          uf_format := or_default (EMAIL_FORMAT_ user) "H";
          uf_country := or_default (COUNTRY_ user) "";
          uf_lang := or_default (LANGUAGE_ISO2 user) "";
          uf_token := TOKEN user;
          uf_created_date := CREATED_DATE_ user;
          uf_newsletters := newsletters |})
  end.

(** *** [get_user_data] *)

(** The body of the [try] block: [Return None] is the early
    [return None]; an exception is whatever a lookup raised. *)
Definition get_user_data_try (email token : option string) (fields : list string)
  : outcome (option user_data) :=
  let confirmed := true in
  let pending := false in
  let master := true in
  match look_for_user EXACTTARGET_DATA email token fields with
  | Raise e => Raise e
  | Return LTrue => Raise (TypeError "'bool' object does not support item assignment")
  | Return (LUser u) => Return (Some (mkUserData u confirmed pending master))
  | Return LNone =>
      let master := false in
      let confirmed := false in
      match look_for_user EXACTTARGET_OPTIN_STAGE email token fields with
      | Raise e => Raise e
      | Return LNone => Return None
      | Return LTrue => Raise (TypeError "'bool' object does not support item assignment")
      | Return (LUser u) =>
          match look_for_user EXACTTARGET_CONFIRMATION email token ["Token"] with
          | Raise e => Raise e
          | Return LNone => Return (Some (mkUserData u confirmed pending master))
          | Return _ =>
              let confirmed := true in
              Return (Some (mkUserData u confirmed pending master))
          end
      end
  end.

Definition get_user_data (token email : option string) (sync_data : bool)
           (db : list Subscriber)
  : outcome (option user_dict) * list Subscriber :=
  let newsletters := newsletter_fields in
  let fields :=
    ["EMAIL_ADDRESS_"; "EMAIL_FORMAT_"; "COUNTRY_"; "LANGUAGE_ISO2"; "TOKEN";
     "CREATED_DATE_"] ++ map (λ nl, nl +:+ "_FLG") newsletters in
  match get_user_data_try email token fields with
  | Raise (NewsletterException m) =>
      (Return (Some (ErrorData 400 m BASKET_NETWORK_FAILURE)), db)
  | Raise (UnauthorizedException _) =>
      (Return (Some (ErrorData 500 "Email service provider auth failure"
                               BASKET_EMAIL_PROVIDER_AUTH_FAILURE)), db)
  | Raise e => (Raise e, db)
  | Return None => (Return None, db)
  | Return (Some user_data) =>
      let db :=
        if sync_data
        then objects_get_and_sync (uf_email (ud_fields user_data))
                                  (uf_token (ud_fields user_data)) db
        else db in
      (Return (Some (UserData user_data)), db)
  end.

(** *** [lookup_subscriber] *)

(** Returns [(subscriber, user_data, created)]. *)
Definition lookup_subscriber (token email : option string) (db : list Subscriber)
  : outcome (option Subscriber * option user_dict * bool) * list Subscriber :=
  if negb (truthy_opt token || truthy_opt email)
  then (Raise (GenericException MSG_EMAIL_OR_TOKEN_REQUIRED), db)
  else
    let kw_token := if truthy_opt token then token else None in
    let kw_email := if truthy_opt email then email else None in
    match objects_get kw_token kw_email db with
    | Return subscriber => (Return (Some subscriber, None, false), db)
    | Raise DoesNotExist =>
        match get_user_data kw_token kw_email true db with
        | (Raise e, db) => (Raise e, db)
        | (Return user_data, db) =>
            if match user_data with
               | Some d => String.eqb (dict_status d) "ok"
               | None => false
               end
            then
              (* found remotely, and the local table was synced *)
              match objects_get kw_token kw_email db with
              | Return subscriber => (Return (Some subscriber, user_data, true), db)
              | Raise e => (Raise e, db)
              end
            else
                match kw_email with
                | Some email =>
                    match objects_get_or_create (new_token db) email db with
                    | (Return (subscriber, created), db) =>
                        (Return (Some subscriber, user_data, created), db)
                    | (Raise e, db) => (Raise e, db)
                    end
                | None => (Return (None, user_data, true), db)
                end
        end
    | Raise e => (Raise e, db)
    end.

(** *** [update_user_task] *)
Definition error_response (desc : string) (code : error_code) : HttpResponseJSON :=
  mkResponse (JError desc code) 400.

Definition update_user_task (req : request) (type : Z)
           (data : option (gmap string string)) (optin : bool) (w : world)
  : outcome HttpResponseJSON * world :=
  let sub := req_subscriber req in
  let data := match data with
              | Some d => if decide (d = ∅) then POST req else d
              | None => POST req
              end in
  let newsletters := data !! "newsletters" in
  if truthy_opt newsletters &&
     negb (forallb (λ nl, mem nl newsletter_slugs)
                   (map strip (split "," (default "" newsletters))))
  then (Return (error_response "invalid newsletter" BASKET_INVALID_NEWSLETTER), w)
  else
    match (match data !! "lang" with
           | Some l => language_code_is_valid (VStr l)
           | None => Return true
           end) with
    | Raise e => (Raise e, w)
    | Return false =>
        (Return (error_response "invalid language" BASKET_INVALID_LANGUAGE), w)
    | Return true =>
        let email := data !! "email" in
        if negb (truthy_opt email || bool_decide (is_Some sub))
        then (Return (error_response MSG_EMAIL_OR_TOKEN_REQUIRED BASKET_USAGE_ERROR), w)
        else
          let found :=
            match sub with
            | Some s => (Return (Some s, false), subscribers w)
            | None =>
                match lookup_subscriber None email (subscribers w) with
                | (Return (s, _, created), db) => (Return (s, created), db)
                | (Raise e, db) => (Raise e, db)
                end
            end in
          match found with
          | (Raise e, db) => (Raise e, mkWorld db (queue w))
          | (Return (None, _), db) =>
              (Raise (AttributeError "'NoneType' object has no attribute 'email'"),
               mkWorld db (queue w))
          | (Return (Some sub, created), db) =>
              let call := mkTaskCall data (sub_email sub) (sub_token sub)
                                     created type optin in
              (Return (mkResponse (JOk (sub_token sub) created) 200),
               mkWorld db (queue w ++ [call]))
          end
    end.

End Views.
End Views.

(** ** [src/apps/news/tasks.py] *)

Module Tasks.
Import Py Models.

(** The type of action to take on a user with a list of newsletters. *)
Definition SUBSCRIBE : Z := 1.
Definition UNSUBSCRIBE : Z := 2.
Definition SET : Z := 3.

(** Double opt-in languages. *)
Definition CONFIRM_SENDS : gmap string string :=
  list_to_map
    [("es", "es_confirmation_email");
     ("es-ES", "es_confirmation_email");
     ("de", "de_confirmation_email");
     ("fr", "fr_confirmation_email");
     ("pt", "pt_br_confirmation_email");
     ("pt-BR", "pt_br_confirmation_email")].

Definition extra_fields : list (string * string) :=
  [("country", "COUNTRY_"); ("lang", "LANGUAGE_ISO2"); ("source_url", "SOURCE_URL")].

(** What the task does to the outside: the log line and the two remote
    calls, in the order they are issued. *)
Inductive event : Type :=
| LogError (msg : string)
| AddRecord (target : string) (record : gmap string string)
| TriggerSend (send email token format : string).

Definition is_add_record (ev : event) : bool :=
  match ev with AddRecord _ _ => true | _ => false end.

Definition is_trigger_send (ev : event) : bool :=
  match ev with TriggerSend _ _ _ _ => true | _ => false end.

(** [except (NewsletterException, UnauthorizedException), e] *)
Definition caught (e : exn) : bool :=
  match e with
  | NewsletterException _ | UnauthorizedException _ => true
  | _ => false
  end.

(** [e.message] *)
Definition message (e : exn) : string :=
  match e with
  | TypeError m | KeyError m | AttributeError m | GenericException m
  | NewsletterException m | UnauthorizedException m | URLError m => m
  | DoesNotExist | MultipleObjectsReturned => ""
  end.

Section Tasks.
(** The catalog of [newsletters.py], which is not among the sources:
    [newsletter_field] gives the remote column of a newsletter name
    ([None] stands for any false result), [newsletter_names] lists the
    known names. *)
Variable newsletter_field : string → option string.
Variable newsletter_names : list string.
(** [settings.EXACTTARGET_DATA] and [settings.EXACTTARGET_OPTIN_STAGE] *)
Variable EXACTTARGET_DATA : string.
Variable EXACTTARGET_OPTIN_STAGE : string.
(** The remote service: its state and its two operations, each
    answering [None] on success or the exception it raises. *)
Variable ET : Type.
Variable add_record : ET → string → gmap string string → ET * option exn.
Variable trigger_send : ET → string → string → string → string → ET * option exn.
(** The clock and the random source, read by position. *)
Variable gmttime_at : nat → string.
Variable today_at : nat → string.
Variable uuid4_at : nat → string.
(** The token a new row of the local table has before the task
    replaces it ([models.py] is not among the sources). *)
Variable default_token : string.

Record world : Type := mkWorld {
  subscribers : list Subscriber;
  remote : ET;
  trace : list event;
  clock : nat
}.

(** *** [parse_newsletters] *)

(** The body shared by both loops: [name = newsletter_field(nl)] and,
    if it is true, the two stores. *)
Definition set_flag (flag today : string) (record : gmap string string)
           (nl : string) : gmap string string :=
  match newsletter_field nl with
  | Some name =>
      if truthy name
      then <[name +:+ "_DATE" := today]> (<[name +:+ "_FLG" := flag]> record)
      else record
  | None => record
  end.

Definition parse_newsletters (today : string) (record : gmap string string)
           (type : Z) (newsletters : string) : gmap string string :=
  let newsletters := map strip (split "," newsletters) in
  let record :=
    if bool_decide (type = SUBSCRIBE) || bool_decide (type = SET)
    then foldl (set_flag "Y" today) record newsletters
    else record in
  if bool_decide (type = UNSUBSCRIBE) || bool_decide (type = SET)
  then
    let unsubs :=
      if bool_decide (type = SET)
      then
        let subs : gset string := list_to_set newsletters in
        let all : gset string := list_to_set newsletter_names in
        elements (all ∖ subs)
      else newsletters in
    foldl (set_flag "N" today) record unsubs
  else record.

(** *** The task monad: state and exceptions *)
Definition M (A : Type) : Type := world → outcome A * world.

Definition ret {A} (a : A) : M A := λ w, (Return a, w).

Definition bind {A B} (m : M A) (f : A → M B) : M B :=
  λ w, match m w with
       | (Return a, w') => f a w'
       | (Raise e, w') => (Raise e, w')
       end.

Definition raise {A} (e : exn) : M A := λ w, (Raise e, w).

(** [try: m  except (NewsletterException, UnauthorizedException), e: h e] *)
Definition try_except {A} (m : M A) (h : exn → M A) : M A :=
  λ w, match m w with
       | (Raise e, w') => if caught e then h e w' else (Raise e, w')
       | r => r
       end.

Definition emit (ev : event) : M unit :=
  λ w, (Return tt,
        mkWorld (subscribers w) (remote w) (trace w ++ [ev]) (clock w)).

Definition gmttime : M string :=
  λ w, (Return (gmttime_at (clock w)),
        mkWorld (subscribers w) (remote w) (trace w) (S (clock w))).

Definition uuid4 : M string :=
  λ w, (Return (uuid4_at (clock w)),
        mkWorld (subscribers w) (remote w) (trace w) (S (clock w))).

Definition today : M string := λ w, (Return (today_at (clock w)), w).

(** [d[key]] *)
Definition getitem (d : gmap string string) (key : string) : M string :=
  match d !! key with
  | Some v => ret v
  | None => raise (KeyError key)
  end.

(** [et.data_ext().add_record(target, record.keys(), record.values())] *)
Definition do_add_record (target : string) (record : gmap string string) : M unit :=
  λ w, let '(et, r) := add_record (remote w) target record in
       let w' := mkWorld (subscribers w) et
                         (trace w ++ [AddRecord target record]) (clock w) in
       match r with
       | None => (Return tt, w')
       | Some e => (Raise e, w')
       end.

(** [et.trigger_send(welcome, email, token, format)] *)
Definition do_trigger_send (send email token format : string) : M unit :=
  λ w, let '(et, r) := trigger_send (remote w) send email token format in
       let w' := mkWorld (subscribers w) et
                         (trace w ++ [TriggerSend send email token format])
                         (clock w) in
       match r with
       | None => (Return tt, w')
       | Some e => (Raise e, w')
       end.

(** [Subscriber.objects.get_or_create(email=...)] *)
Definition get_or_create (default_token email : string) : M (Subscriber * bool) :=
  λ w, let '(r, db) := objects_get_or_create default_token email (subscribers w) in
       (r, mkWorld db (remote w) (trace w) (clock w)).

(** [sub.token = token; sub.save()] *)
Definition save (email token : string) : M unit :=
  λ w, (Return tt,
        mkWorld (save_token email token (subscribers w)) (remote w) (trace w)
                (clock w)).

(** [handle_exception(task, e)]: the handling is commented out, the
    exception propagates. *)
Definition handle_exception {A} (e : exn) : M A := raise e.

Notation "'let*' x ':=' m 'in' k" := (bind m (λ x, k))
  (at level 10, x name, m at level 100, k at level 200).

(** *** [update_user] *)

(** Lines 89-109: the record before the newsletter flags are set. *)
Definition initial_record (data : gmap string string) (email : string)
  : gmap string string :=
  let record : gmap string string :=
    <["EMAIL_PERMISSION_STATUS_" := "I"]> {["EMAIL_ADDRESS_" := email]} in
  (* Optionally add more fields *)
  let record :=
    foldl (λ (record : gmap string string) '(field, column),
             match data !! field with
             | Some v => <[column := v]> record
             | None => record
             end) record extra_fields in
  let fmt := lower (default "H" (data !! "format")) in
  let fmt := if String.eqb fmt "text" then "T"
             else if String.eqb fmt "html" then "H"
             else fmt in
  <["EMAIL_FORMAT_" := upper fmt]> record.

(** Lines 114-124: get the user or create them, and create a token if
    it's a new user. *)
Definition add_token (record : gmap string string) : M (gmap string string) :=
  let* email := getitem record "EMAIL_ADDRESS_" in
  let* found := get_or_create default_token email in
  let '(sub, created) := found in
  if created : bool then
    let* token := uuid4 in
    let record := <["TOKEN" := token]> record in
    let* now := gmttime in
    let record := <["CREATED_DATE_" := now]> record in
    let* _ := save (sub_email sub) token in
    ret record
  else ret (<["TOKEN" := sub_token sub]> record).

(** Lines 129-144: the target data extension and the welcome. *)
Definition choose_target (data : gmap string string) (type : Z)
           (record : gmap string string)
  : M (string * gmap string string * option string) :=
  let lang := record !! "LANGUAGE_ISO2" in
  let target_et := EXACTTARGET_DATA in
  let welcome : option string := None in
  if bool_decide (is_Some (lang ≫= (CONFIRM_SENDS !!.)))
     && bool_decide (type = SUBSCRIBE)
  then
    (* This lang requires double opt-in and a different welcome email *)
    let target_et := EXACTTARGET_OPTIN_STAGE in
    let welcome := lang ≫= (CONFIRM_SENDS !!.) in
    let* token := getitem record "TOKEN" in
    let record := <["SubscriberKey" := token]> record in
    let* email := getitem record "EMAIL_ADDRESS_" in
    let record := <["EmailAddress" := email]> record in
    ret (target_et, record, welcome)
  else if bool_decide (data !! "trigger_welcome" = Some "Y")
  then
    (* Otherwise, send this welcome email unless its suppressed *)
    ret (target_et, record, Some "39")
  else ret (target_et, record, welcome).

(** Lines 84-144: everything up to the remote write.  It gives the
    target data extension, the record to submit and the welcome to send
    (or [None]). *)
Definition prepare (data : gmap string string) (authed_email : option string)
           (type : Z) (optin : bool)
  : M (string * gmap string string * option string) :=
  (* Validate parameters *)
  let* _ := if negb (truthy_opt authed_email)
               && negb (bool_decide (is_Some (data !! "email")))
            then emit (LogError "No user or email provided")
            else ret tt in
  (* Parse the parameters *)
  let* email := getitem data "email" in
  let record := initial_record data email in
  (* Set the newsletter flags in the record *)
  let* date := today in
  let record :=
    parse_newsletters date record type (default "" (data !! "newsletters")) in
  let* record := add_token record in
  (* Submit the final data to the service *)
  let* now := gmttime in
  let record := <["MODIFIED_DATE_" := now]> record in
  choose_target data type record.

(** Lines 146-162: the write, with the recovery for a missing
    [CREATED_DATE_].  It gives the record as it stands afterwards. *)
Definition write (target_et : string) (record : gmap string string)
  : M (gmap string string) :=
  try_except
    (let* _ := do_add_record target_et record in ret record)
    (λ e,
       if bool_decide (find (message e) "CREATED_DATE_" ≠ (-1)%Z)
       then
         let* now := gmttime in
         let record := <["CREATED_DATE_" := now]> record in
         let* _ := do_add_record target_et record in
         ret record
       else handle_exception e).

(** Lines 164-173: the welcome, in a [try] of its own. *)
Definition send_welcome (welcome : option string) (record : gmap string string)
  : M unit :=
  try_except
    (match welcome with
     | Some welcome =>
         if truthy welcome
         then
           let* email := getitem record "EMAIL_ADDRESS_" in
           let* token := getitem record "TOKEN" in
           do_trigger_send welcome email token
                           (default "H" (record !! "EMAIL_FORMAT_"))
         else ret tt
     | None => ret tt
     end)
    (λ e, handle_exception e).

Definition update_user (data : gmap string string) (authed_email : option string)
           (type : Z) (optin : bool) : M unit :=
  let* prepared := prepare data authed_email type optin in
  let '(target_et, record, welcome) := prepared in
  let* record := write target_et record in
  send_welcome welcome record.

End Tasks.
End Tasks.

(** ** A concrete catalog and remote service

    Two newsletters, and a remote service that keeps the rows it was sent
    and answers from a script: each call consumes the head of its script,
    and an exhausted script means success. *)

Module Demo.
Import Py Models.

Definition newsletter_field (nl : string) : option string :=
  if String.eqb nl "mozilla-and-you" then Some "MOZILLA_AND_YOU"
  else if String.eqb nl "mobile" then Some "ABOUT_MOBILE"
  else None.

Definition newsletter_names : list string := ["mozilla-and-you"; "mobile"].

Record remote : Type := mkRemote {
  rows : gmap string (gmap string string);
  add_script : list (option exn);
  trigger_script : list (option exn)
}.

Definition add_record (et : remote) (target : string) (record : gmap string string)
  : remote * option exn :=
  match add_script et with
  | Some e :: rest => (mkRemote (rows et) rest (trigger_script et), Some e)
  | rest =>
      let key := default "" (record !! "EMAIL_ADDRESS_") in
      let old := default ∅ (rows et !! key) in
      (mkRemote (<[key := record ∪ old]> (rows et)) (tail rest) (trigger_script et),
       None)
  end.

Definition trigger_send (et : remote) (send email token format : string)
  : remote * option exn :=
  match trigger_script et with
  | r :: rest => (mkRemote (rows et) (add_script et) rest, r)
  | [] => (et, None)
  end.

Definition gmttime_at (n : nat) : string :=
  "Tue, 03 Nov 2026 10:1" +:+ String (ascii_of_nat (48 + n mod 10)) ":00 GMT".
Definition today_at (n : nat) : string := "2026-11-03".
Definition uuid4_at (n : nat) : string :=
  "0f2c9a54-7d1e-4c3b-9a60-5b1d2e8f440" +:+ String (ascii_of_nat (48 + n mod 10)) "".

Definition world0 (et : remote) (db : list Subscriber) : Tasks.world remote :=
  Tasks.mkWorld remote db et [] 0.

Definition update_user :=
  Tasks.update_user newsletter_field newsletter_names "Master_Subscribers"
                    "Double_Opt_In" remote add_record trigger_send
                    gmttime_at today_at uuid4_at "".

Definition parse_newsletters :=
  Tasks.parse_newsletters newsletter_field newsletter_names.

Definition dude : Subscriber := mkSubscriber "dude@example.com" "token".

(** The remote row of a subscriber already subscribed to
    [mozilla-and-you]. *)
Definition subscribed_row : gmap string string :=
  list_to_map [("EMAIL_ADDRESS_", "dude@example.com"); ("EMAIL_FORMAT_", "H");
               ("TOKEN", "token"); ("MOZILLA_AND_YOU_FLG", "Y");
               ("MOZILLA_AND_YOU_DATE", "2026-01-01")].

Definition remote_ok : remote :=
  mkRemote {["dude@example.com" := subscribed_row]} [] [].

(** A subscriber who asked for a double opt-in newsletter and has not
    confirmed: a row in the opt-in data extension only. *)
Definition pending_row : Views.et_user :=
  Views.mkEtUser "dude@example.com" (Some "H") (Some "us") (Some "es") "token"
                 "2026-11-01" {["MOZILLA_AND_YOU_FLG" := "Y"]}.

Definition by_email (key : option string) (keyfield : string) : bool :=
  bool_decide (key = Some "dude@example.com")
  && String.eqb keyfield "EMAIL_ADDRESS_".

Definition get_record_pending (db : Views.database) (key : option string)
           (fields : list string) (keyfield : string) : Views.get_result :=
  match db with
  | Views.EXACTTARGET_OPTIN_STAGE =>
      if by_email key keyfield then Views.Found pending_row else Views.NoResults
  | _ => Views.NoResults
  end.

(** A remote service that knows nobody. *)
Definition get_record_nobody (db : Views.database) (key : option string)
           (fields : list string) (keyfield : string) : Views.get_result :=
  Views.NoResults.

Definition slug_to_vendor_id (slug : string) : string :=
  default "" (newsletter_field slug).

Definition newsletter_fields : list string := ["MOZILLA_AND_YOU"; "ABOUT_MOBILE"].

Definition newsletter_languages : list string := ["en-US"; "fr"; "de"].

Definition get_user_data :=
  Views.get_user_data newsletter_names newsletter_fields slug_to_vendor_id.

(** A resubscription to [mozilla-and-you], with no format given. *)
Definition resubscribe : gmap string string :=
  list_to_map [("email", "dude@example.com"); ("newsletters", "mozilla-and-you");
               ("lang", "en")].

(** A subscription in text format that asks for the welcome. *)
Definition subscribe_text : gmap string string :=
  list_to_map [("email", "dude@example.com"); ("newsletters", "mozilla-and-you");
               ("lang", "en"); ("format", "text"); ("trigger_welcome", "Y")].

Definition missing_created_date : exn :=
  NewsletterException "Required field CREATED_DATE_ is missing".

(** A remote service that rejects the write twice for the missing field. *)
Definition remote_rejecting : remote :=
  mkRemote ∅ [Some missing_created_date; Some missing_created_date] [].

(** A remote service that rejects the first write for the missing field,
    accepts the second, and then fails to send the welcome. *)
Definition remote_recovering : remote :=
  mkRemote ∅ [Some missing_created_date]
           [Some (NewsletterException "send failed")].

(** A remote service that rejects the write for another reason. *)
Definition remote_refusing : remote :=
  mkRemote ∅ [Some (NewsletterException "Invalid e-mail address")] [].

(** The record the task submits for those two requests from a known
    subscriber, and the one it resubmits after the rejection. *)
Definition submitted (format : string) : gmap string string :=
  list_to_map
    [("EMAIL_ADDRESS_", "dude@example.com"); ("EMAIL_PERMISSION_STATUS_", "I");
     ("LANGUAGE_ISO2", "en"); ("EMAIL_FORMAT_", format);
     ("MOZILLA_AND_YOU_FLG", "Y"); ("MOZILLA_AND_YOU_DATE", "2026-11-03");
     ("TOKEN", "token"); ("MODIFIED_DATE_", "Tue, 03 Nov 2026 10:10:00 GMT")].

Definition resubmitted (format : string) : gmap string string :=
  <["CREATED_DATE_" := "Tue, 03 Nov 2026 10:11:00 GMT"]> (submitted format).

(** A request from an address the local table does not know. *)
Definition new_request : Views.request :=
  Views.mkRequest None
    (list_to_map [("email", "donnie@example.com");
                  ("newsletters", "mozilla-and-you, mobile"); ("lang", "en")]).

(** A request with neither an address nor a subscriber. *)
Definition anonymous_request : Views.request :=
  Views.mkRequest None {["stuff" := "whanot"]}.

Definition new_token (db : list Subscriber) : string :=
  uuid4_at (length db).

Definition update_user_task :=
  Views.update_user_task newsletter_names newsletter_fields newsletter_languages
                         slug_to_vendor_id "email or token is required".

End Demo.

(** ** The views of [src/news/views.py] *)

Module Endpoints.
Import Py Models.

(** The error codes of [basket.errors] that the views answer with, on
    top of those [get_user_data] and [update_user_task] use. *)
Inductive code : Type :=
| Code (c : Views.error_code)
| BASKET_AUTH_ERROR
| BASKET_SSL_REQUIRED
| BASKET_UNKNOWN_EMAIL
| BASKET_UNKNOWN_TOKEN
| BASKET_INVALID_EMAIL.

(** The dictionary of [get_user_data] as a view holds it: the error
    dictionary has a [status_code] key until a view pops it. *)
Inductive dict : Type :=
| DUser (d : Views.user_data)
| DError (status_code : option Z) (desc : string) (code : Views.error_code).

Definition of_user_dict (d : Views.user_dict) : dict :=
  match d with
  | Views.UserData d => DUser d
  | Views.ErrorData status_code desc code => DError (Some status_code) desc code
  end.

(** [d.pop('status_code', default)]: the value and the dictionary left. *)
Definition pop_status_code (d : dict) (default : Z) : Z * dict :=
  match d with
  | DError (Some status_code) desc code => (status_code, DError None desc code)
  | _ => (default, d)
  end.

(** What a response carries: the JSON documents the views build, or the
    empty body of Django's [HttpResponseNotAllowed]. *)
Inductive body : Type :=
| Null                                      (* json.dumps(None) *)
| Ok                                        (* {'status': 'ok'} *)
| Error (desc : string) (code : code)       (* status, desc and code *)
| Task (j : Views.json)                     (* the answer of update_user_task *)
| Dict (d : dict)                           (* the dictionary of get_user_data *)
| Debug (d : dict) (in_basket : bool) (basket_token : string)
| NotAllowed.

Record response : Type := mkResponse { content : body; status_code : Z }.

(** [HttpResponseJSON(data, status)]; Django answers 200 when [status]
    is [None]. *)
Definition HttpResponseJSON (data : body) (status : option Z) : response :=
  mkResponse data (default 200%Z status).

(** The request, with the two attributes [logged_in] stores on it. *)
Record request : Type := mkRequest {
  method : string;
  is_secure : bool;
  GET : gmap string string;
  POST : gmap string string;
  META : gmap string string;
  subscriber : option Subscriber;
  subscriber_data : option Views.user_dict
}.

(** The calls the views queue with [delay], other than [update_user]
    (which [update_user_task] queues). *)
Inductive job : Type :=
| confirm_user (token : string) (user_data : option Views.user_dict)
| add_sms_user (msg_name mobile : string) (optin : bool)
| send_recovery_message_task (email : string).

(** The local table and the queue of [update_user] calls, and the queue
    of the other tasks. *)
Record world : Type := mkWorld {
  views : Views.world;
  jobs : list job
}.

Definition subscribers (w : world) : list Subscriber :=
  Views.subscribers (views w).

Definition with_subscribers (db : list Subscriber) (w : world) : world :=
  mkWorld (Views.mkWorld db (Views.queue (views w))) (jobs w).

Definition delay (j : job) (w : world) : world :=
  mkWorld (views w) (jobs w ++ [j]).

Definition result : Type := outcome response * world.
Definition view : Type := request → world → result.
Definition token_view : Type := request → string → world → result.

(** [re.sub(r'\D+', '', s)] *)
Definition is_digit (c : ascii) : bool :=
  let n := nat_of_ascii c in (48 <=? n)%nat && (n <=? 57)%nat.

Fixpoint digits (s : string) : string :=
  match s with
  | EmptyString => EmptyString
  | String c s' => if is_digit c then String c (digits s') else digits s'
  end.

(** [sep.join(l)] *)
Definition join (sep : string) (l : list string) : string :=
  String.concat sep l.

(** [@require_POST]: Django answers 405 to any other method without
    calling the view. *)
Definition require_POST (f : view) : view :=
  λ request w,
    if String.eqb (method request) "POST" then f request w
    else (Return (mkResponse NotAllowed 405), w).

Definition require_POST_token (f : token_view) : token_view :=
  λ request token w,
    if String.eqb (method request) "POST" then f request token w
    else (Return (mkResponse NotAllowed 405), w).

Section Endpoints.
(** The catalog of [news/newsletters.py], the constants of
    [news/tasks.py] and [settings], the form of [news/forms.py] and the
    API keys of [news/models.py], none of which is among the sources. *)
Variable newsletter_slugs : list string.
Variable newsletter_fields : list string.
Variable newsletter_languages : list string.
Variable slug_to_vendor_id : string → string.
Variable MSG_EMAIL_OR_TOKEN_REQUIRED : string.
Variable MSG_TOKEN_REQUIRED : string.
Variable MSG_USER_NOT_FOUND : string.
Variable SUBSCRIBE UNSUBSCRIBE SET : Z.
Variable SUPERTOKEN : string.
Variable get_record :
  Views.database → option string → list string → string → Views.get_result.
Variable new_token : list Subscriber → string.
(** [EmailForm(request.POST)]: [None] when the form is not valid,
    otherwise [form.cleaned_data['email']]. *)
Variable clean_email : gmap string string → option string.
(** [APIUser.is_valid(api_key)] *)
Variable api_key_is_valid : option string → bool.

Definition get_user_data (token email : option string) (sync_data : bool)
           (w : world) : outcome (option Views.user_dict) * world :=
  let '(r, db) :=
    Views.get_user_data newsletter_slugs newsletter_fields slug_to_vendor_id
                        get_record token email sync_data (subscribers w) in
  (r, with_subscribers db w).

Definition lookup_subscriber (token email : option string) (w : world)
  : outcome (option Subscriber * option Views.user_dict * bool) * world :=
  let '(r, db) :=
    Views.lookup_subscriber newsletter_slugs newsletter_fields slug_to_vendor_id
                            MSG_EMAIL_OR_TOKEN_REQUIRED get_record new_token
                            token email (subscribers w) in
  (r, with_subscribers db w).

Definition update_user_task (request : request) (type : Z)
           (data : option (gmap string string)) (optin : bool) (w : world)
  : result :=
  let '(r, vw) :=
    Views.update_user_task newsletter_slugs newsletter_fields
                           newsletter_languages slug_to_vendor_id
                           MSG_EMAIL_OR_TOKEN_REQUIRED get_record new_token
                           (Views.mkRequest (subscriber request) (POST request))
                           type data optin (views w) in
  (match r with
   | Return r => Return (mkResponse (Task (Views.content r)) (Views.status_code r))
   | Raise e => Raise e
   end,
   mkWorld vw (jobs w)).

(** *** [logged_in] *)
Definition logged_in (f : token_view) : token_view :=
  λ request token w,
    match lookup_subscriber (Some token) None w with
    | (Raise e, w) => (Raise e, w)
    | (Return (subscriber, subscriber_data, created), w) =>
        match subscriber with
        | None =>
            (Return (HttpResponseJSON
                       (Error MSG_TOKEN_REQUIRED (Code Views.BASKET_USAGE_ERROR))
                       (Some 403%Z)), w)
        | Some _ =>
            let request :=
              mkRequest (method request) (is_secure request) (GET request)
                        (POST request) (META request) subscriber
                        subscriber_data in
            f request token w
        end
    end.

(** [request.subscriber.token] *)
Definition subscriber_token (request : request) : outcome string :=
  match subscriber request with
  | Some s => Return (sub_token s)
  | None => Raise (AttributeError "'NoneType' object has no attribute 'token'")
  end.

(** *** [get_user] *)
Definition get_user (token email : option string) (sync_data : bool)
           (w : world) : result :=
  match get_user_data token email sync_data w with
  | (Raise e, w) => (Raise e, w)
  | (Return (Some user_data), w) =>
      let '(status_code, user_data) :=
        pop_status_code (of_user_dict user_data) 200 in
      (Return (HttpResponseJSON (Dict user_data) (Some status_code)), w)
  | (Return None, w) => (Return (HttpResponseJSON Null (Some 400%Z)), w)
  end.

(** *** [confirm] *)
Definition confirm : token_view :=
  require_POST_token (logged_in (λ request token w,
    match subscriber_token request with
    | Raise e => (Raise e, w)
    | Return token =>
        let w := delay (confirm_user token (subscriber_data request)) w in
        (Return (HttpResponseJSON Ok None), w)
    end)).

(** *** [subscribe] *)
Definition subscribe : view :=
  require_POST (λ request w,
    let newsletters := POST request !! "newsletters" in
    if negb (truthy_opt newsletters)
    then (Return (HttpResponseJSON
                    (Error "newsletters is missing"
                           (Code Views.BASKET_USAGE_ERROR)) (Some 400%Z)), w)
    else
      let optin := String.eqb (default "Y" (POST request !! "optin")) "Y" in
      update_user_task request SUBSCRIBE None optin w).

(** *** [subscribe_sms] *)
Definition subscribe_sms : view :=
  require_POST (λ request w,
    match POST request !! "mobile_number" with
    | None =>
        (Return (HttpResponseJSON
                   (Error "mobile_number is missing"
                          (Code Views.BASKET_USAGE_ERROR)) (Some 400%Z)), w)
    | Some mobile =>
        let msg_name := default "SMS_Android" (POST request !! "msg_name") in
        let mobile := digits mobile in
        let checked :=
          if (len mobile =? 10)%nat then Some ("1" +:+ mobile)
          else if negb (len mobile =? 11)%nat
                  || negb (bool_decide (String.get 0 mobile = Some "1"%char))
               then None
               else Some mobile in
        match checked with
        | None =>
            (Return (HttpResponseJSON
                       (Error "mobile_number must be a US number"
                              (Code Views.BASKET_USAGE_ERROR)) (Some 400%Z)), w)
        | Some mobile =>
            let optin := String.eqb (default "N" (POST request !! "optin")) "Y" in
            let w := delay (add_sms_user msg_name mobile optin) w in
            (Return (HttpResponseJSON Ok None), w)
        end
    end).

(** *** [unsubscribe] *)
Definition unsubscribe : token_view :=
  require_POST_token (logged_in (λ request token w,
    let data := POST request in
    let data :=
      if String.eqb (default "N" (data !! "optout")) "Y"
      then <["newsletters" := join "," newsletter_slugs]> data
      else data in
    update_user_task request UNSUBSCRIBE (Some data) true w)).

(** *** [user] *)
Definition user : token_view :=
  logged_in (λ request token w,
    if String.eqb (method request) "POST"
    then update_user_task request SET None true w
    else
      match subscriber_data request with
      | Some subscriber_data =>
          (Return (HttpResponseJSON (Dict (of_user_dict subscriber_data)) None), w)
      | None =>
          match subscriber_token request with
          | Raise e => (Raise e, w)
          | Return token => get_user (Some token) None false w
          end
      end).

(** *** [send_recovery_message] *)
Definition send_recovery_message : view :=
  require_POST (λ request w,
    match clean_email (POST request) with
    | None =>
        (Return (HttpResponseJSON
                   (Error ("Using send_recovery_message, you need to pass a valid "
                           +:+ "email in the `email` POST parameter")
                          BASKET_INVALID_EMAIL) (Some 400%Z)), w)
    | Some email =>
        match get_user_data None (Some email) true w with
        | (Raise e, w) => (Raise e, w)
        | (Return None, w) =>
            (Return (HttpResponseJSON
                       (Error "Email address not known" BASKET_UNKNOWN_EMAIL)
                       (Some 404%Z)), w)
        | (Return (Some _), w) =>
            let w := delay (send_recovery_message_task email) w in
            (Return (HttpResponseJSON Ok None), w)
        end
    end).

(** *** [debug_user] *)
Definition debug_user : view :=
  λ request w,
    match GET request !! "email", GET request !! "supertoken" with
    | Some email, Some supertoken =>
        if negb (String.eqb supertoken SUPERTOKEN)
        then (Return (HttpResponseJSON (Error "Bad supertoken" BASKET_AUTH_ERROR)
                                       (Some 401%Z)), w)
        else
          match get_user_data None (Some email) false w with
          | (Raise e, w) => (Raise e, w)
          | (Return None, w) =>
              (Raise (AttributeError "'NoneType' object has no attribute 'pop'"),
               w)
          | (Return (Some user_data), w) =>
              let '(status_code, user_data) :=
                pop_status_code (of_user_dict user_data) 200 in
              match objects_get None (Some email) (subscribers w) with
              | Return user =>
                  (Return (HttpResponseJSON
                             (Debug user_data true (sub_token user))
                             (Some status_code)), w)
              | Raise DoesNotExist =>
                  (Return (HttpResponseJSON (Debug user_data false "")
                                            (Some status_code)), w)
              | Raise e => (Raise e, w)
              end
          end
    | _, _ =>
        (Return (HttpResponseJSON
                   (Error ("Using debug_user, you need to pass the "
                           +:+ "`email` and `supertoken` GET parameters")
                          (Code Views.BASKET_USAGE_ERROR)) (Some 400%Z)), w)
    end.

(** *** [lookup_user] *)
Definition lookup_user : view :=
  λ request w,
    if negb (is_secure request)
    then (Return (HttpResponseJSON
                    (Error "lookup_user always requires SSL" BASKET_SSL_REQUIRED)
                    (Some 401%Z)), w)
    else
      let token := GET request !! "token" in
      let email := GET request !! "email" in
      (* The API key could be the query parameter 'api-key' or the
         request header 'X-api-key'. *)
      let api_key :=
        Views.or_else (GET request !! "api-key")
                      (META request !! "HTTP_X_API_KEY") in
      if (negb (truthy_opt email) && negb (truthy_opt token))
         || (truthy_opt email && truthy_opt token)
      then (Return (HttpResponseJSON
                      (Error MSG_EMAIL_OR_TOKEN_REQUIRED
                             (Code Views.BASKET_USAGE_ERROR)) (Some 400%Z)), w)
      else if truthy_opt email && negb (api_key_is_valid api_key)
      then (Return (HttpResponseJSON
                      (Error ("Using lookup_user with `email`, you need to pass a "
                              +:+ "valid `api-key` GET parameter or X-api-key header")
                             BASKET_AUTH_ERROR) (Some 401%Z)), w)
      else
        let status_code := 200%Z in
        match get_user_data token email false w with
        | (Raise e, w) => (Raise e, w)
        | (Return None, w) =>
            let code := if truthy_opt token then BASKET_UNKNOWN_TOKEN
                        else BASKET_UNKNOWN_EMAIL in
            let status_code := 404%Z in
            (Return (HttpResponseJSON (Error MSG_USER_NOT_FOUND code)
                                      (Some status_code)), w)
        | (Return (Some user_data), w) =>
            let status_code :=
              if String.eqb (Views.dict_status user_data) "error" then 400%Z
              else status_code in
            (Return (HttpResponseJSON (Dict (of_user_dict user_data))
                                      (Some status_code)), w)
        end.

End Endpoints.
End Endpoints.

(** ** A concrete site *)

Module Site.
Import Py Models.

(** Stand-ins for the messages of [news/tasks.py] and for
    [settings.SUPERTOKEN]. *)
Definition MSG_EMAIL_OR_TOKEN_REQUIRED : string := "email or token is required".
Definition MSG_TOKEN_REQUIRED : string := "Must have valid token for this request".
Definition MSG_USER_NOT_FOUND : string := "User not found".
Definition SUPERTOKEN : string := "mytokenisbetterthanyours".

(** A form that accepts any non-empty address. *)
Definition clean_email (post : gmap string string) : option string :=
  match post !! "email" with
  | Some email => if truthy email then Some email else None
  | None => None
  end.

Definition api_key_is_valid (key : option string) : bool :=
  bool_decide (key = Some "valid-key").

(** A remote service that cannot be reached. *)
Definition get_record_down (db : Views.database) (key : option string)
           (fields : list string) (keyfield : string) : Views.get_result :=
  Views.Failed (NewsletterException "Connection timed out").

Definition request (method : string) (get post : gmap string string)
  : Endpoints.request :=
  Endpoints.mkRequest method true get post ∅ None None.

(** One local subscriber and empty queues. *)
Definition world0 : Endpoints.world :=
  Endpoints.mkWorld (Views.mkWorld [Demo.dude] []) [].

Definition logged_in :=
  Endpoints.logged_in Demo.newsletter_names Demo.newsletter_fields
                      Demo.slug_to_vendor_id MSG_EMAIL_OR_TOKEN_REQUIRED
                      MSG_TOKEN_REQUIRED.

Definition confirm :=
  Endpoints.confirm Demo.newsletter_names Demo.newsletter_fields
                    Demo.slug_to_vendor_id MSG_EMAIL_OR_TOKEN_REQUIRED
                    MSG_TOKEN_REQUIRED.

Definition subscribe :=
  Endpoints.subscribe Demo.newsletter_names Demo.newsletter_fields
                      Demo.newsletter_languages Demo.slug_to_vendor_id
                      MSG_EMAIL_OR_TOKEN_REQUIRED Tasks.SUBSCRIBE.

Definition unsubscribe :=
  Endpoints.unsubscribe Demo.newsletter_names Demo.newsletter_fields
                        Demo.newsletter_languages Demo.slug_to_vendor_id
                        MSG_EMAIL_OR_TOKEN_REQUIRED MSG_TOKEN_REQUIRED
                        Tasks.UNSUBSCRIBE.

Definition user :=
  Endpoints.user Demo.newsletter_names Demo.newsletter_fields
                 Demo.newsletter_languages Demo.slug_to_vendor_id
                 MSG_EMAIL_OR_TOKEN_REQUIRED MSG_TOKEN_REQUIRED Tasks.SET.

Definition send_recovery_message (get_record :
    Views.database → option string → list string → string → Views.get_result) :=
  Endpoints.send_recovery_message Demo.newsletter_names Demo.newsletter_fields
                                  Demo.slug_to_vendor_id get_record clean_email.

Definition debug_user :=
  Endpoints.debug_user Demo.newsletter_names Demo.newsletter_fields
                       Demo.slug_to_vendor_id SUPERTOKEN.

Definition lookup_user (get_record :
    Views.database → option string → list string → string → Views.get_result) :=
  Endpoints.lookup_user Demo.newsletter_names Demo.newsletter_fields
                        Demo.slug_to_vendor_id MSG_EMAIL_OR_TOKEN_REQUIRED
                        MSG_USER_NOT_FOUND get_record api_key_is_valid.

(** A view that answers ok and changes nothing. *)
Definition ping : Endpoints.token_view :=
  λ request token w, (Return (Endpoints.mkResponse Endpoints.Ok 200), w).

(** An opt-out, with a newsletter named besides. *)
Definition optout : gmap string string :=
  list_to_map [("optout", "Y"); ("newsletters", "mobile")].

End Site.

(** ** The reconciliation engine of [news/tasks.py] *)

Module Reconcile.
Import Py Models.

(** Modelled from the spec: the type of a desired change (section 3,
    DesiredChange: SUBSCRIBE, UNSUBSCRIBE or SET).  [news/tasks.py], whose
    six-argument [update_user] is the task [update_user_task] queues and
    the tests call, is not among the sources; only the four-argument task
    of [apps/news/tasks.py] is. *)
Inductive change_type : Type := SUBSCRIBE | UNSUBSCRIBE | SET.

Global Instance change_type_eq_dec : EqDecision change_type.
Proof. solve_decision. Defined.

(** Modelled from the spec: [trigger_welcome] of a desired change
    (section 3: tri-state, send / suppress / default-send). *)
Inductive welcome_choice : Type := Send | Suppress | DefaultSend.

(** Modelled from the spec: DesiredChange (section 3).  [newsletters] is
    the comma-separated list of slugs; language, format and country are
    [None] when the request does not supply them. *)
Record DesiredChange : Type := mkDesiredChange {
  type : change_type;
  newsletters : string;
  lang : option string;
  format : option string;
  country : option string;
  trigger_welcome : welcome_choice;
  optin : bool
}.

(** Modelled from the spec: an entry of the newsletter catalog (section
    3, Newsletter); [news/models.py] is not among the sources. *)
Record Newsletter : Type := mkNewsletter {
  slug : string;
  vendor_field : string;
  languages : list string;
  welcome_id : option string;
  active : bool
}.

Module Snapshot.
(** Modelled from the spec: RemoteUserSnapshot (section 3), the merged
    view of a subscriber's remote state that the fetcher returns;
    [subscribed_newsletters] holds the slugs flagged ['Y'] remotely. *)
Record t : Type := mk {
  email : string;
  token : string;
  format : string;
  country : string;
  lang : string;
  created_date : string;
  subscribed_newsletters : list string;
  master : bool;
  pending : bool;
  confirmed : bool
}.
End Snapshot.

(** Modelled from the spec: one selected message (section 4.3: message id,
    email, token, format). *)
Record message : Type := mkMessage {
  message_id : string;
  to_email : string;
  to_token : string;
  in_format : string
}.

(** Modelled from the spec: the slugs a desired change names (section 3:
    comma-separated slugs); blanks around a slug are dropped, as
    [update_user_task] does when it validates the same list. *)
Definition named_slugs (desired : DesiredChange) : list string :=
  map strip (split "," (newsletters desired)).

(** Modelled from the spec: whether the snapshot shows a newsletter as
    subscribed (section 3: the slugs currently flagged ['Y'] remotely);
    with no snapshot nothing is known to be subscribed. *)
Definition subscribed (snapshot : option Snapshot.t) (s : string) : bool :=
  match snapshot with
  | Some snap => mem s (Snapshot.subscribed_newsletters snap)
  | None => false
  end.

(** Modelled from the spec: the resolved format of a welcome (section
    4.3: the explicit format in the desired change, else the user's remote
    format preference, else ['H']). *)
Definition resolved_format (desired : DesiredChange)
           (snapshot : option Snapshot.t) : string :=
  match format desired with
  | Some explicit => explicit
  | None =>
      match snapshot with
      | Some snap =>
          if truthy (Snapshot.format snap) then Snapshot.format snap else "H"
      | None => "H"
      end
  end.

(** Modelled from the spec: the language code of a welcome.  Section 4.3
    names it [<lang>] without saying where it comes from: it is taken to
    be the language of the desired change, else the snapshot's, else
    [en], which is what the tests expect for a new subscriber whose
    request has no language ([test_update_user_works_with_no_lang]). *)
Definition language_code (desired : DesiredChange)
           (snapshot : option Snapshot.t) : string :=
  match lang desired with
  | Some l => if truthy l then l else "en"
  | None =>
      match snapshot with
      | Some snap => if truthy (Snapshot.lang snap) then Snapshot.lang snap else "en"
      | None => "en"
      end
  end.

(** Modelled from the spec: message id composition (section 4.3:
    [<lang>_<welcome_id>], with [_T] appended if the resolved format is
    text; the text-variant naming convention is in effect in every test:
    [en_Welcome_T], [en_39_T]). *)
Definition compose (lang welcome format : string) : string :=
  lang +:+ "_" +:+ welcome +:+ (if String.eqb format "T" then "_T" else "").

(** Modelled from the spec: a newsletter has a welcome unless its
    [welcome_id] is missing or only whitespace (section 3, Newsletter). *)
Definition has_welcome (nl : Newsletter) : bool :=
  match welcome_id nl with
  | Some w => truthy (strip w)
  | None => false
  end.

Section Reconcile.
(** The catalog, the locales that require double opt-in and the vendor
    precedence table (specific vendor first, general vendor second) are
    data of the missing module; the date and the timestamp come from the
    clock. *)
Variable catalog : list Newsletter.
Variable requires_double_optin : Newsletter → option string → bool.
Variable precedence : list (string * string).
Variable today : string.
Variable now : string.

(** Modelled from the spec: the catalog entry of a slug (section 2,
    Newsletter Catalog: lookup of newsletter metadata by slug). *)
Definition by_slug (s : string) : option Newsletter :=
  List.find (λ nl, String.eqb (slug nl) s) catalog.

(** Modelled from the spec: the catalog newsletters a change names. *)
Definition named_newsletters (desired : DesiredChange) : list Newsletter :=
  omap by_slug (named_slugs desired).

(** Modelled from the spec: the newsletters whose flag the write sets to
    ['Y'] (section 4.2: each newsletter named, for SUBSCRIBE and SET, but
    only if the snapshot shows a different flag value, or no snapshot
    exists, or the subscription is brand new). *)
Definition to_subscribe (desired : DesiredChange)
           (snapshot : option Snapshot.t) : list Newsletter :=
  match type desired with
  | SUBSCRIBE | SET =>
      List.filter (λ nl, negb (subscribed snapshot (slug nl)))
                  (named_newsletters desired)
  | UNSUBSCRIBE => []
  end.

(** Modelled from the spec: the newsletters whose flag the write sets to
    ['N'] (section 4.2: each newsletter targeted by UNSUBSCRIBE, and for
    SET every catalog newsletter not in the list, under the same no-op
    suppression; without a snapshot the requested or implied newsletters
    are all unsubscribed). *)
Definition to_unsubscribe (desired : DesiredChange)
           (snapshot : option Snapshot.t) : list Newsletter :=
  let targeted :=
    match type desired with
    | SUBSCRIBE => []
    | UNSUBSCRIBE => named_newsletters desired
    | SET => List.filter (λ nl, negb (mem (slug nl) (named_slugs desired)))
                         catalog
    end in
  match snapshot with
  | Some _ => List.filter (λ nl, subscribed snapshot (slug nl)) targeted
  | None => targeted
  end.

(** Modelled from the spec: marking one newsletter (section 4.2: mark its
    flag field ['Y'] or ['N'] and stamp its date field with the current
    date). *)
Definition mark (flag : string) (fields : gmap string string)
           (nl : Newsletter) : gmap string string :=
  <[vendor_field nl +:+ "_DATE" := today]>
    (<[vendor_field nl +:+ "_FLG" := flag]> fields).

(** Modelled from the spec: the full field set (section 4.2: always the
    email address, the permission status and the modification timestamp;
    the token; format, country and language only if the desired change
    supplies them; then the newsletter flags).  The field names are those
    the tests expect in the write. *)
Definition full_fields (email token : string) (desired : DesiredChange)
           (snapshot : option Snapshot.t) : gmap string string :=
  let fields : gmap string string :=
    <["MODIFIED_DATE_" := now]>
      (<["TOKEN" := token]>
         (<["EMAIL_PERMISSION_STATUS_" := "I"]> {["EMAIL_ADDRESS_" := email]})) in
  let fields :=
    match format desired with
    | Some f => <["EMAIL_FORMAT_" := f]> fields
    | None => fields
    end in
  let fields :=
    match country desired with
    | Some c => <["COUNTRY_" := c]> fields
    | None => fields
    end in
  let fields :=
    match lang desired with
    | Some l => <["LANGUAGE_ISO2" := l]> fields
    | None => fields
    end in
  let fields := foldl (mark "Y") fields (to_subscribe desired snapshot) in
  foldl (mark "N") fields (to_unsubscribe desired snapshot).

(** Modelled from the spec: whether the confirmation flow applies to a
    newsletter (sections 3 and 4.2: the change asks for opt-in and the
    newsletter's locale requires double opt-in). *)
Definition gated (desired : DesiredChange) (nl : Newsletter) : bool :=
  optin desired && requires_double_optin nl (lang desired).

(** Modelled from the spec: [build_write] (section 4.2).  A first-time
    SUBSCRIBE to at least one newsletter whose locale requires double
    opt-in targets the double opt-in partition with the bare identifying
    keys; every other change targets the master partition with the full
    field set. *)
Definition build_write (email token : string) (created : bool)
           (desired : DesiredChange) (snapshot : option Snapshot.t)
  : Views.database * gmap string string :=
  if created && bool_decide (type desired = SUBSCRIBE)
     && existsb (gated desired) (named_newsletters desired)
  then (Views.EXACTTARGET_OPTIN_STAGE,
        <["EmailAddress" := email]> {["SubscriberKey" := token]})
  else (Views.EXACTTARGET_DATA, full_fields email token desired snapshot).

(** Modelled from the spec: the vendor-precedence override (section 4.3:
    when both members of a pair are among the newsletters left after the
    per-newsletter filtering, only the more specific one is welcomed). *)
Definition superseded (candidates : list Newsletter) (nl : Newsletter) : bool :=
  existsb (λ '(specific, general),
             String.eqb (vendor_field nl) general
             && existsb (λ other, String.eqb (vendor_field other) specific)
                        candidates)
          precedence.

(** Modelled from the spec: [select_messages] (section 4.3), over the
    newsletters affected, in the order they were supplied. *)
Definition select_messages (email token : string) (desired : DesiredChange)
           (snapshot : option Snapshot.t) (affected : list Newsletter)
  : list message :=
  match trigger_welcome desired, type desired with
  | Suppress, _ | _, SET | _, UNSUBSCRIBE => []
  | _, SUBSCRIBE =>
      let candidates :=
        List.filter (λ nl, has_welcome nl
                           && negb (subscribed snapshot (slug nl))
                           && negb (gated desired nl))
                    affected in
      let candidates :=
        List.filter (λ nl, negb (superseded candidates nl)) candidates in
      let format := resolved_format desired snapshot in
      omap (λ nl, w ← welcome_id nl;
                  Some (mkMessage (compose (language_code desired snapshot)
                                           w format)
                                  email token format))
           candidates
  end.

End Reconcile.
End Reconcile.

(** ** The remote platform as data *)

Module Platform.
Import Py Models.

(** Modelled from the spec: the three partitions of the remote platform
    ([news/backends/exacttarget.py] is not among the sources).  Glossary:
    the master partition and the double opt-in partition store
    subscribers; the confirmation partition is a minimal store recording
    only the token of users who have clicked a confirmation link. *)
Record t : Type := mk {
  master : list Views.et_user;
  optin : list Views.et_user;
  confirmation : list string
}.

(** Modelled from the spec: the two key columns of a subscriber row that
    [get_record] is asked to match (section 6: [key_field_name]). *)
Definition column (key_field : string) (row : Views.et_user) : option string :=
  if String.eqb key_field "EMAIL_ADDRESS_" then Some (Views.EMAIL_ADDRESS_ row)
  else if String.eqb key_field "TOKEN" then Some (Views.TOKEN row)
  else None.

(** Modelled from the spec: [get_record] on a partition of subscriber
    rows (section 6: [get_record(partition, key_value, field_list,
    key_field_name) -> field_map | NoResultsError]): the first row whose
    key column holds the key value. *)
Definition query (rows : list Views.et_user) (key_value : option string)
           (key_field : string) : Views.get_result :=
  match key_value with
  | Some key =>
      match List.find (λ row, bool_decide (column key_field row = Some key))
                      rows with
      | Some row => Views.Found row
      | None => Views.NoResults
      end
  | None => Views.NoResults
  end.

(** Modelled from the spec: a row of the confirmation partition, which
    records only the token. *)
Definition token_row (token : string) : Views.et_user :=
  Views.mkEtUser "" None None None token "" ∅.

Section Platform.
(** What the platform answers when it is asked to match a column that
    the confirmation partition does not hold; the spec does not say. *)
Variable no_such_column : Views.get_result.

(** Modelled from the spec: [get_record] over the three partitions. *)
Definition get_record (p : t) (db : Views.database) (key_value : option string)
           (fields : list string) (key_field : string) : Views.get_result :=
  match db with
  | Views.EXACTTARGET_DATA => query (master p) key_value key_field
  | Views.EXACTTARGET_OPTIN_STAGE => query (optin p) key_value key_field
  | Views.EXACTTARGET_CONFIRMATION =>
      if String.eqb key_field "TOKEN"
      then match key_value with
           | Some key =>
               if mem key (confirmation p) then Views.Found (token_row key)
               else Views.NoResults
           | None => Views.NoResults
           end
      else no_such_column
  end.

End Platform.
End Platform.

(** * Properties *)

Import Py Models.

(** ** String facts *)

Example split_example : split "," "a, b,,c" = ["a"; " b"; ""; "c"].
Proof. reflexivity. Qed.

Example split_empty : split "," "" = [""].
Proof. reflexivity. Qed.

Example strip_example : strip "  mozilla-and-you " = "mozilla-and-you".
Proof. reflexivity. Qed.

Example find_example : find "Required field CREATED_DATE_ is missing" "CREATED_DATE_" = 15%Z.
Proof. reflexivity. Qed.

Example find_absent : find "Required field CREATED_DATE is missing" "CREATED_DATE_" = (-1)%Z.
Proof. reflexivity. Qed.

Example lower_example : lower "en-US" = "en-us".
Proof. reflexivity. Qed.

Lemma lower_len (s : string) : len (lower s) = len s.
Proof. induction s as [|c s IH]; simpl; [done | by f_equal]. Qed.

Lemma lower_empty (s : string) : lower s = "" → s = "".
Proof. by destruct s. Qed.

Lemma slice_to_empty (n : nat) (s : string) : slice_to (S n) s = "" → s = "".
Proof. by destruct s. Qed.

Lemma mem_true (x : string) (l : list string) : mem x l = true ↔ x ∈ l.
Proof. unfold mem. apply bool_decide_eq_true. Qed.

Lemma mem_false (x : string) (l : list string) : mem x l = false ↔ x ∉ l.
Proof. unfold mem. apply bool_decide_eq_false. Qed.

(** ** [language_code_is_valid] *)

Section LanguageCode.
Variable newsletter_languages : list string.

Local Abbreviation valid := (Views.language_code_is_valid newsletter_languages).

(** A two-letter prefix match against some newsletter language. *)
Definition prefix_match (code : string) : Prop :=
  ∃ lang, lang ∈ newsletter_languages
          ∧ slice_to 2 (lower code) = slice_to 2 (lower lang).

Lemma valid_exact (code lang : string) :
  lang ∈ newsletter_languages → lower code = lower lang →
  valid (VStr code) = Return true.
Proof.
  intros Hin Heq. unfold Views.language_code_is_valid.
  replace (mem (lower code) ("" :: map lower newsletter_languages)) with true; [done |].
  symmetry. apply mem_true. right. rewrite Heq. by apply list_elem_of_fmap_2.
Qed.

Lemma valid_prefix (code : string) :
  len code = 2 ∨ len code = 5 → prefix_match code →
  valid (VStr code) = Return true.
Proof.
  intros Hlen (lang & Hin & Hpre). unfold Views.language_code_is_valid.
  destruct (mem _ _); [done |].
  rewrite bool_decide_eq_true_2.
  2:{ rewrite lower_len, !elem_of_cons. tauto. }
  replace (existsb _ _) with true; [done |].
  symmetry. apply existsb_exists. exists (lower lang). split.
  - right. apply list_elem_of_In. by apply list_elem_of_fmap_2.
  - by apply String.eqb_eq.
Qed.

Lemma valid_other (code : string) :
  code ≠ "" →
  (∀ lang, lang ∈ newsletter_languages → lower code ≠ lower lang) →
  ¬ ((len code = 2 ∨ len code = 5) ∧ prefix_match code) →
  valid (VStr code) = Return false.
Proof.
  intros Hne Hexact Hpre. unfold Views.language_code_is_valid.
  replace (mem (lower code) ("" :: map lower newsletter_languages)) with false.
  2:{ symmetry. apply mem_false. intros [Hnil | Hin]%elem_of_cons.
      - by apply lower_empty in Hnil.
      - apply list_elem_of_fmap in Hin as (lang & Heq & Hin). by eapply Hexact. }
  case_bool_decide as Hlen; [| done].
  replace (existsb _ _) with false; [done |].
  symmetry. apply not_true_is_false. intros (lang & Hin & Heq)%existsb_exists.
  apply String.eqb_eq in Heq. rewrite lower_len in Hlen.
  assert (len code = 2 ∨ len code = 5) as Hlen'.
  { rewrite !elem_of_cons, elem_of_nil in Hlen. tauto. }
  destruct Hin as [<- | Hin].
  - apply slice_to_empty, lower_empty in Heq. subst code. by destruct Hlen'.
  - apply list_elem_of_In, list_elem_of_fmap in Hin as (lang' & -> & Hin).
    apply Hpre. split; [done |]. by exists lang'.
Qed.

(** C10.  [language_code_is_valid] returns [True] for the empty string
    and for a code equal, ignoring case, to a newsletter language; for a
    code of length 2 or 5 it also returns [True] when the first two
    characters match those of a newsletter language, ignoring case; every
    other string gives [False]; anything but a string raises [TypeError]. *)
Theorem language_code_is_valid_spec :
  valid (VStr "") = Return true
  ∧ (∀ code lang, lang ∈ newsletter_languages → lower code = lower lang →
                  valid (VStr code) = Return true)
  ∧ (∀ code, len code = 2 ∨ len code = 5 → prefix_match code →
             valid (VStr code) = Return true)
  ∧ (∀ code, code ≠ "" →
             (∀ lang, lang ∈ newsletter_languages → lower code ≠ lower lang) →
             ¬ ((len code = 2 ∨ len code = 5) ∧ prefix_match code) →
             valid (VStr code) = Return false)
  ∧ (∀ v, (∀ s, v ≠ VStr s) →
          valid v = Raise (TypeError "Language code must be a string")).
Proof.
  split; [done |].
  split; [apply valid_exact |].
  split; [apply valid_prefix |].
  split; [apply valid_other |].
  intros v Hv. destruct v as [s | | | |]; try done. by destruct (Hv s).
Qed.
End LanguageCode.

(** ** [get_user_data] *)

Section UserData.
Variable newsletter_slugs : list string.
Variable newsletter_fields : list string.
Variable slug_to_vendor_id : string → string.
Variable get_record :
  Views.database → option string → list string → string → Views.get_result.

Local Abbreviation look_for_user :=
  (Views.look_for_user newsletter_slugs slug_to_vendor_id get_record).
Local Abbreviation get_user_data :=
  (Views.get_user_data newsletter_slugs newsletter_fields slug_to_vendor_id
                       get_record).

(** The column list [get_user_data] asks for. *)
Definition requested_fields : list string :=
  ["EMAIL_ADDRESS_"; "EMAIL_FORMAT_"; "COUNTRY_"; "LANGUAGE_ISO2"; "TOKEN";
   "CREATED_DATE_"] ++ map (λ nl, nl +:+ "_FLG") newsletter_fields.

(** The key [look_for_user] queries with, and the column it names. *)
Definition lookup_key (email token : option string) : option string :=
  Views.or_else email token.
Definition lookup_column (email : option string) : string :=
  if truthy_opt email then "EMAIL_ADDRESS_" else "TOKEN".

(** What the remote service answers to the query [look_for_user] makes of
    a data extension: no row, or a row.  For the master and the opt-in data
    extensions, whose rows hold both key columns, this is whether the
    subscriber is there. *)
Definition absent_from (db : Views.database) (fields : list string)
           (email token : option string) : Prop :=
  get_record db (lookup_key email token) fields (lookup_column email)
  = Views.NoResults.
Definition present_in (db : Views.database) (fields : list string)
           (email token : option string) : Prop :=
  ∃ user, get_record db (lookup_key email token) fields (lookup_column email)
          = Views.Found user.

Lemma look_for_user_absent db fields email token :
  absent_from db fields email token →
  look_for_user db email token fields = Return Views.LNone.
Proof.
  unfold absent_from, lookup_key, lookup_column, Views.look_for_user.
  by intros ->.
Qed.

Lemma look_for_user_confirmation fields email token :
  (∃ row, get_record Views.EXACTTARGET_CONFIRMATION (lookup_key email token)
                     fields (lookup_column email) = Views.Found row) →
  look_for_user Views.EXACTTARGET_CONFIRMATION email token fields
  = Return Views.LTrue.
Proof.
  unfold lookup_key, lookup_column, Views.look_for_user.
  by intros [user ->].
Qed.

Lemma look_for_user_present db fields email token :
  db ≠ Views.EXACTTARGET_CONFIRMATION →
  present_in db fields email token →
  ∃ u, look_for_user db email token fields = Return (Views.LUser u)
       ∧ Views.uf_status u = "ok".
Proof.
  unfold present_in, lookup_key, lookup_column, Views.look_for_user.
  intros Hdb [user ->]. rewrite decide_False by done. eauto.
Qed.

(** The [pending] key is [False] in every dictionary [get_user_data]
    returns: nothing assigns it after [pending = False]. *)
Lemma get_user_data_pending_false token email sync db d db' :
  get_user_data token email sync db = (Return (Some (Views.UserData d)), db') →
  Views.pending d = false.
Proof.
  unfold Views.get_user_data, Views.get_user_data_try.
  destruct (look_for_user Views.EXACTTARGET_DATA _ _ _) as [[| |u]|e]; simpl.
  - destruct (look_for_user Views.EXACTTARGET_OPTIN_STAGE _ _ _) as [[| |u]|e];
      simpl; try by (try destruct e).
    destruct (look_for_user Views.EXACTTARGET_CONFIRMATION _ _ _) as [[| |c]|e];
      simpl; try (by destruct e); by intros [= <- _].
  - done.
  - by intros [= <- _].
  - by destruct e.
Qed.

(** [get_user_data] in terms of the answers to its lookups.  When the
    master lookup finds nothing, the opt-in lookup finds a row and the
    confirmation lookup, made with the same key and column, is answered
    with a row, the user is reported with [confirmed] true and [master]
    false; when the master and the opt-in lookups find nothing the result
    is [None], not an error. *)
Lemma get_user_data_lookups token email sync db :
  (absent_from Views.EXACTTARGET_DATA requested_fields email token →
   present_in Views.EXACTTARGET_OPTIN_STAGE requested_fields email token →
   (∃ row, get_record Views.EXACTTARGET_CONFIRMATION (lookup_key email token)
                      ["Token"] (lookup_column email) = Views.Found row) →
   ∃ d, (get_user_data token email sync db).1 = Return (Some (Views.UserData d))
        ∧ Views.confirmed d = true ∧ Views.master d = false)
  ∧ (absent_from Views.EXACTTARGET_DATA requested_fields email token →
     absent_from Views.EXACTTARGET_OPTIN_STAGE requested_fields email token →
     get_user_data token email sync db = (Return None, db)).
Proof.
  split.
  - intros Hmaster Hoptin Hconf.
    unfold Views.get_user_data, Views.get_user_data_try.
    fold requested_fields.
    rewrite (look_for_user_absent _ _ _ _ Hmaster).
    destruct (look_for_user_present Views.EXACTTARGET_OPTIN_STAGE _ _ _
                ltac:(done) Hoptin) as (u & -> & _).
    rewrite (look_for_user_confirmation _ _ _ Hconf). simpl. eauto.
  - intros Hmaster Hoptin.
    unfold Views.get_user_data, Views.get_user_data_try.
    fold requested_fields.
    rewrite (look_for_user_absent _ _ _ _ Hmaster).
    by rewrite (look_for_user_absent _ _ _ _ Hoptin).
Qed.

End UserData.

(** C2, at a subscriber who is in the opt-in data extension only and has
    not confirmed: the dictionary [get_user_data] returns has [pending]
    false, where the docstring of the function promises true. *)
Theorem get_user_data_pending_unconfirmed :
  absent_from Demo.get_record_pending Views.EXACTTARGET_DATA
              (requested_fields Demo.newsletter_fields)
              (Some "dude@example.com") None
  ∧ present_in Demo.get_record_pending Views.EXACTTARGET_OPTIN_STAGE
               (requested_fields Demo.newsletter_fields)
               (Some "dude@example.com") None
  ∧ absent_from Demo.get_record_pending Views.EXACTTARGET_CONFIRMATION
                ["Token"] (Some "dude@example.com") None
  ∧ ∃ d, Demo.get_user_data Demo.get_record_pending None
                            (Some "dude@example.com") false []
         = (Return (Some (Views.UserData d)), [])
         ∧ Views.master d = false
         ∧ Views.confirmed d = false
         ∧ Views.pending d = false.
Proof.
  split; [done |]. split; [by eexists |]. split; [done |].
  eexists. split; [vm_compute; reflexivity |]. repeat split.
Qed.

(** ** The local table *)

Lemma matches_email (e : string) (s : Subscriber) :
  matches None (Some e) s = String.eqb (sub_email s) e.
Proof. reflexivity. Qed.

Lemma filter_email_absent (e : string) (db : list Subscriber) :
  e ∉ map sub_email db → List.filter (matches None (Some e)) db = [].
Proof.
  induction db as [|s db IH]; [done |]. simpl. intros Hnot.
  rewrite matches_email.
  destruct (String.eqb_spec (sub_email s) e) as [Heq | Hne].
  - exfalso. apply Hnot. rewrite Heq. left.
  - apply IH. intros Hin. apply Hnot. by right.
Qed.

Lemma filter_email_unique (e : string) (db : list Subscriber) :
  NoDup (map sub_email db) →
  List.filter (matches None (Some e)) db = []
  ∨ ∃ s, List.filter (matches None (Some e)) db = [s] ∧ sub_email s = e.
Proof.
  induction db as [|s db IH]; [by left |]. simpl.
  intros [Hnot Hnd]%NoDup_cons. rewrite matches_email.
  destruct (String.eqb_spec (sub_email s) e) as [Heq | Hne]; [| by apply IH].
  right. exists s. split; [| done]. f_equal.
  apply filter_email_absent. by rewrite <- Heq.
Qed.

Lemma filter_email_none (e : string) (db : list Subscriber) :
  List.filter (matches None (Some e)) db = [] → e ∉ map sub_email db.
Proof.
  induction db as [|s db IH]; simpl; [intros _; apply not_elem_of_nil |].
  rewrite matches_email.
  destruct (String.eqb_spec (sub_email s) e) as [Heq | Hne]; [done |].
  intros Hnil [Hhd | Htl]%elem_of_cons; [by subst | by apply IH].
Qed.

Lemma filter_email_app (e : string) (db : list Subscriber) (s : Subscriber) :
  List.filter (matches None (Some e)) db = [] → sub_email s = e →
  List.filter (matches None (Some e)) (db ++ [s]) = [s].
Proof.
  intros Hnil Heq. rewrite List.filter_app, Hnil. simpl.
  by rewrite matches_email, (proj2 (String.eqb_eq _ _) Heq).
Qed.

(** ** [update_user_task] *)

Section UpdateUserTask.
Variable newsletter_slugs : list string.
Variable newsletter_fields : list string.
Variable newsletter_languages : list string.
Variable slug_to_vendor_id : string → string.
Variable MSG_EMAIL_OR_TOKEN_REQUIRED : string.
Variable get_record :
  Views.database → option string → list string → string → Views.get_result.
Variable new_token : list Subscriber → string.

Local Abbreviation get_user_data :=
  (Views.get_user_data newsletter_slugs newsletter_fields slug_to_vendor_id
                       get_record).
Local Abbreviation lookup_subscriber :=
  (Views.lookup_subscriber newsletter_slugs newsletter_fields slug_to_vendor_id
                           MSG_EMAIL_OR_TOKEN_REQUIRED get_record new_token).
Local Abbreviation update_user_task :=
  (Views.update_user_task newsletter_slugs newsletter_fields newsletter_languages
                          slug_to_vendor_id MSG_EMAIL_OR_TOKEN_REQUIRED
                          get_record new_token).

(** [data or request.POST.copy()] *)
Definition request_data (req : Views.request) (data : option (gmap string string))
  : gmap string string :=
  match data with
  | Some d => if decide (d = ∅) then Views.POST req else d
  | None => Views.POST req
  end.

(** The three ways a request is malformed. *)
Definition unknown_newsletter (d : gmap string string) : Prop :=
  ∃ s nl, d !! "newsletters" = Some s ∧ s ≠ ""
          ∧ nl ∈ map strip (split "," s) ∧ nl ∉ newsletter_slugs.

Definition invalid_language (d : gmap string string) : Prop :=
  ∃ l, d !! "lang" = Some l
       ∧ Views.language_code_is_valid newsletter_languages (VStr l) = Return false.

Definition no_email_or_subscriber (req : Views.request) (d : gmap string string)
  : Prop :=
  truthy_opt (d !! "email") = false ∧ Views.req_subscriber req = None.

Definition malformed (req : Views.request) (d : gmap string string) : Prop :=
  unknown_newsletter d ∨ invalid_language d ∨ no_email_or_subscriber req d.

(** The remote service answers a lookup by e-mail address with a row of
    that address, and fails only with the two exceptions of its client. *)
Definition remote_well_behaved : Prop :=
  (∀ db key fields user,
      get_record db (Some key) fields "EMAIL_ADDRESS_" = Views.Found user →
      Views.EMAIL_ADDRESS_ user = key)
  ∧ (∀ db key fields column e,
        get_record db key fields column = Views.Failed e →
        Views.handled e = true).

Lemma truthy_nonempty (s : string) : truthy s = true ↔ s ≠ "".
Proof. by destruct s. Qed.

Lemma newsletters_check (d : gmap string string) :
  truthy_opt (d !! "newsletters")
  && negb (forallb (λ nl, mem nl newsletter_slugs)
                   (map strip (split "," (default "" (d !! "newsletters")))))
  = true ↔ unknown_newsletter d.
Proof.
  unfold unknown_newsletter. rewrite andb_true_iff, negb_true_iff. split.
  - intros [Htruthy Hall]. destruct (d !! "newsletters") as [s|]; [| done].
    simpl in *. apply truthy_nonempty in Htruthy.
    apply not_true_iff_false in Hall. rewrite forallb_forall in Hall.
    destruct (decide (Forall (λ nl, nl ∈ newsletter_slugs)
                             (map strip (split "," s)))) as [Hf | Hf].
    + exfalso. apply Hall. intros nl Hin. apply mem_true.
      rewrite Forall_forall in Hf. by apply Hf, list_elem_of_In.
    + apply not_Forall_Exists, Exists_exists in Hf as (nl & Hin & Hnot); [| apply _].
      by exists s, nl.
  - intros (s & nl & -> & Hne & Hin & Hnot). simpl. split.
    + by apply truthy_nonempty.
    + apply not_true_iff_false. rewrite forallb_forall. intros Hall.
      apply Hnot, mem_true, Hall. by apply list_elem_of_In.
Qed.

Lemma language_code_is_valid_total (l : string) :
  ∃ b, Views.language_code_is_valid newsletter_languages (VStr l) = Return b.
Proof.
  unfold Views.language_code_is_valid.
  destruct (mem _ _); [by eauto |].
  case_bool_decide; [| by eauto].
  destruct (existsb _ _); by eauto.
Qed.

Lemma language_check (d : gmap string string) :
  let checked :=
    match d !! "lang" with
    | Some l => Views.language_code_is_valid newsletter_languages (VStr l)
    | None => Return true
    end in
  (checked = Return true ∧ ¬ invalid_language d)
  ∨ (checked = Return false ∧ invalid_language d).
Proof.
  unfold invalid_language. destruct (d !! "lang") as [l|] eqn:Hl; cbv zeta.
  - destruct (language_code_is_valid_total l) as [[|] Hb]; rewrite Hb.
    + left. split; [done |]. intros (l' & [= <-] & Hbad). congruence.
    + right. split; [done |]. by exists l.
  - left. split; [done |]. by intros (l' & [=] & _).
Qed.

Local Ltac pick_user_data :=
  match goal with
  | |- context [Views.UserData ?u] => exists u; split; reflexivity
  end.

(** What [get_user_data] gives for a lookup by e-mail address with
    [sync_data] set. *)
Lemma get_user_data_by_email (e : string) (db : list Subscriber) :
  remote_well_behaved → truthy e = true →
  get_user_data None (Some e) true db = (Return None, db)
  ∨ (∃ sc desc code,
        get_user_data None (Some e) true db
        = (Return (Some (Views.ErrorData sc desc code)), db))
  ∨ (∃ d, get_user_data None (Some e) true db
          = (Return (Some (Views.UserData d)),
             Views.objects_get_and_sync e (Views.uf_token (Views.ud_fields d)) db)
          ∧ Views.uf_status (Views.ud_fields d) = "ok").
Proof.
  intros [Hkey Herr] Htruthy.
  unfold Views.get_user_data, Views.get_user_data_try, Views.look_for_user,
    Views.or_else.
  simpl. rewrite Htruthy.
  set (fields := _ :: _).
  destruct (get_record Views.EXACTTARGET_DATA (Some e) fields "EMAIL_ADDRESS_")
    as [user | | err] eqn:Hmaster; simpl.
  - rewrite (Hkey _ _ _ _ Hmaster). right; right. pick_user_data.
  - destruct (get_record Views.EXACTTARGET_OPTIN_STAGE (Some e) fields
                         "EMAIL_ADDRESS_") as [user | | err] eqn:Hoptin; simpl.
    + destruct (get_record Views.EXACTTARGET_CONFIRMATION (Some e) ["Token"]
                           "EMAIL_ADDRESS_") as [c | | err] eqn:Hconf; simpl.
      * rewrite (Hkey _ _ _ _ Hoptin). right; right. pick_user_data.
      * rewrite (Hkey _ _ _ _ Hoptin). right; right. pick_user_data.
      * apply Herr in Hconf. destruct err; try done; right; left; eauto.
    + by left.
    + apply Herr in Hoptin. destruct err; try done; right; left; eauto.
  - apply Herr in Hmaster. destruct err; try done; right; left; eauto.
Qed.

Lemma objects_get_and_sync_new (e t : string) (db : list Subscriber) :
  List.filter (matches None (Some e)) db = [] →
  objects_get None (Some e) (Views.objects_get_and_sync e t db)
  = Return (mkSubscriber e t).
Proof.
  intros Hnil. unfold Views.objects_get_and_sync, objects_get. rewrite Hnil.
  by rewrite (filter_email_app e db (mkSubscriber e t) Hnil).
Qed.

(** Looking a subscriber up by e-mail address always finds or makes a
    row with that address. *)
Lemma lookup_subscriber_by_email (e : string) (db : list Subscriber) :
  remote_well_behaved → NoDup (map sub_email db) → truthy e = true →
  ∃ sub user_data created db',
    lookup_subscriber None (Some e) db
    = (Return (Some sub, user_data, created), db')
    ∧ sub_email sub = e.
Proof.
  intros Hremote Hnd Htruthy. unfold Views.lookup_subscriber.
  simpl. rewrite Htruthy. simpl. unfold objects_get at 1.
  destruct (filter_email_unique e db Hnd) as [Hnil | (s & -> & Hs)]; [| by eauto 10].
  rewrite Hnil.
  destruct (get_user_data_by_email e db Hremote Htruthy)
    as [-> | [(sc & desc & code & ->) | (d & -> & Hok)]]; simpl.
  - unfold objects_get_or_create. rewrite Hnil. by eauto 10.
  - unfold objects_get_or_create. rewrite Hnil. by eauto 10.
  - rewrite Hok. simpl. rewrite objects_get_and_sync_new by done. by eauto 10.
Qed.

(** With a local table of one row per address and a well-behaved remote
    service, looking the subscriber up raises nothing: every request that
    is not malformed queues one [update_user] call and is answered ok. *)
Lemma update_user_task_well_behaved
        (req : Views.request) (type : Z) (data : option (gmap string string))
        (optin : bool) (w : Views.world) :
  let d := request_data req data in
  (malformed req d →
   ∃ desc code,
     update_user_task req type data optin w
     = (Return (Views.mkResponse (Views.JError desc code) 400), w))
  ∧ (¬ malformed req d →
     remote_well_behaved → NoDup (map sub_email (Views.subscribers w)) →
     ∃ sub created db',
       update_user_task req type data optin w
       = (Return (Views.mkResponse (Views.JOk (sub_token sub) created) 200),
          Views.mkWorld db'
            (Views.queue w
             ++ [Views.mkTaskCall d (sub_email sub) (sub_token sub) created
                                  type optin]))
       ∧ (Views.req_subscriber req = Some sub
          ∨ d !! "email" = Some (sub_email sub))).
Proof.
  intros d. unfold Views.update_user_task. fold (request_data req data). fold d.
  destruct (truthy_opt (d !! "newsletters") && _) eqn:Hnl.
  { split; [by eauto |]. intros Hvalid. exfalso. apply Hvalid. left.
    by apply newsletters_check. }
  assert (¬ unknown_newsletter d) as Hknown.
  { intros Hbad%newsletters_check. rewrite Hbad in Hnl. discriminate. }
  destruct (language_check d) as [[-> Hlang] | [-> Hlang]].
  2:{ split; [by eauto |]. intros Hvalid. exfalso. apply Hvalid. by right; left. }
  destruct (Views.req_subscriber req) as [sub|] eqn:Hsub.
  - rewrite bool_decide_eq_true_2 by eauto. rewrite orb_true_r. simpl. split.
    + intros [? | [? | [_ ?]]]; [done | done | congruence].
    + intros _ _ _. exists sub, false, (Views.subscribers w). eauto.
  - rewrite bool_decide_eq_false_2 by (by intros [? ?]). rewrite orb_false_r.
    destruct (truthy_opt (d !! "email")) eqn:Hemail; simpl.
    + split; [intros [? | [? | [? _]]]; [done | done | congruence] |].
      intros _ Hremote Hnd.
      destruct (d !! "email") as [e|] eqn:He; [| done]. simpl in Hemail.
      destruct (lookup_subscriber_by_email e _ Hremote Hnd Hemail)
        as (sub & user_data & created & db' & -> & Heq).
      exists sub, created, db'. rewrite Heq. eauto.
    + split; [by eauto |]. intros Hvalid. exfalso. apply Hvalid. by right; right.
Qed.

End UpdateUserTask.

(** ** Column names

    The two columns of a newsletter are told apart, and told from the
    fixed columns of a record, by their last character. *)

Fixpoint last_char (s : string) : option ascii :=
  match s with
  | EmptyString => None
  | String c EmptyString => Some c
  | String _ s' => last_char s'
  end.

Lemma append_cons (c : ascii) (s t : string) :
  String c s +:+ t = String c (s +:+ t).
Proof. reflexivity. Qed.

Lemma last_char_append (s t : string) :
  t ≠ "" → last_char (s +:+ t) = last_char t.
Proof.
  intros Ht. induction s as [|c s IH]; [done |].
  rewrite append_cons. simpl. rewrite IH.
  destruct (s +:+ t) eqn:Heq; [| done].
  destruct s; [by destruct t | done].
Qed.

Lemma length_append (s t : string) :
  String.length (s +:+ t) = String.length s + String.length t.
Proof.
  induction s as [|c s IH]; [done |]. rewrite append_cons. simpl. by rewrite IH.
Qed.

Lemma append_suffix_inj (t s s' : string) : s +:+ t = s' +:+ t → s = s'.
Proof.
  revert s'. induction s as [|c s IH]; intros [|c' s'] Heq; [done | | |].
  - apply (f_equal String.length) in Heq.
    rewrite ?append_cons in Heq. simpl in Heq. rewrite !length_append in Heq.
    simpl in Heq. lia.
  - apply (f_equal String.length) in Heq.
    rewrite ?append_cons in Heq. simpl in Heq. rewrite !length_append in Heq.
    simpl in Heq. lia.
  - rewrite !append_cons in Heq. injection Heq as -> Heq. f_equal. by apply IH.
Qed.

Lemma last_char_flg (name : string) : last_char (name +:+ "_FLG") = Some "G"%char.
Proof. by rewrite last_char_append. Qed.

Lemma last_char_date (name : string) : last_char (name +:+ "_DATE") = Some "E"%char.
Proof. by rewrite last_char_append. Qed.

Lemma flg_ne_date (name name' : string) : name +:+ "_FLG" ≠ name' +:+ "_DATE".
Proof.
  intros Heq. apply (f_equal last_char) in Heq.
  by rewrite last_char_flg, last_char_date in Heq.
Qed.

(** A key that is no newsletter column. *)
Definition fixed_key (k : string) : Prop :=
  last_char k ≠ Some "G"%char ∧ last_char k ≠ Some "E"%char.

Lemma fixed_key_flg (k name : string) : fixed_key k → k ≠ name +:+ "_FLG".
Proof. intros [Hg _] ->. by rewrite last_char_flg in Hg. Qed.

Lemma fixed_key_date (k name : string) : fixed_key k → k ≠ name +:+ "_DATE".
Proof. intros [_ He] ->. by rewrite last_char_date in He. Qed.

(** ** [parse_newsletters] *)

Section ParseNewsletters.
Variable newsletter_field : string → option string.
Variable newsletter_names : list string.

Local Abbreviation set_flag := (Tasks.set_flag newsletter_field).
Local Abbreviation parse_newsletters :=
  (Tasks.parse_newsletters newsletter_field newsletter_names).

(** [[x.strip() for x in newsletters.split(',')]] *)
Definition named (newsletters : string) : list string :=
  map strip (split "," newsletters).

(** [nl] is a newsletter of the catalog stored in column [name]. *)
Definition has_field (nl name : string) : Prop :=
  newsletter_field nl = Some name ∧ truthy name = true.

Lemma set_flag_lookup flag today (record : gmap string string) nl k :
  set_flag flag today record nl !! k = record !! k
  ∨ ∃ name, has_field nl name
            ∧ ((k = name +:+ "_FLG"
                ∧ set_flag flag today record nl !! k = Some flag)
               ∨ (k = name +:+ "_DATE"
                  ∧ set_flag flag today record nl !! k = Some today)).
Proof.
  unfold Tasks.set_flag, has_field.
  destruct (newsletter_field nl) as [name|]; [| by left].
  destruct (truthy name) eqn:Htruthy; [| by left].
  destruct (decide (k = name +:+ "_DATE")) as [-> | Hdate].
  { right. exists name. split; [done |]. right. by rewrite lookup_insert_eq. }
  rewrite lookup_insert_ne by done.
  destruct (decide (k = name +:+ "_FLG")) as [-> | Hflg].
  { right. exists name. split; [done |]. left. by rewrite lookup_insert_eq. }
  left. by rewrite lookup_insert_ne.
Qed.

Lemma set_flag_has_field flag today (record : gmap string string) nl name :
  has_field nl name →
  set_flag flag today record nl !! (name +:+ "_FLG") = Some flag
  ∧ set_flag flag today record nl !! (name +:+ "_DATE") = Some today.
Proof.
  intros [Hfield Htruthy]. unfold Tasks.set_flag. rewrite Hfield, Htruthy.
  split.
  - rewrite lookup_insert_ne by (symmetry; apply flg_ne_date).
    by rewrite lookup_insert_eq.
  - by rewrite lookup_insert_eq.
Qed.

(** A loop leaves alone every key that is no column of its newsletters. *)
Lemma loop_other flag today (l : list string) (record : gmap string string) k :
  (∀ nl name, nl ∈ l → has_field nl name →
              k ≠ name +:+ "_FLG" ∧ k ≠ name +:+ "_DATE") →
  foldl (set_flag flag today) record l !! k = record !! k.
Proof.
  revert record. induction l as [|x l IH]; intros record Hother; [done |].
  simpl. rewrite IH.
  - destruct (set_flag_lookup flag today record x k)
      as [-> | (name & Hfield & [[-> _] | [-> _]])]; [done | |].
    + by destruct (Hother x name ltac:(left) Hfield) as [? _].
    + by destruct (Hother x name ltac:(left) Hfield) as [_ ?].
  - intros nl name Hin. apply Hother. by right.
Qed.

(** A loop keeps a flag it would itself store. *)
Lemma loop_keep_flg flag today (l : list string) (record : gmap string string) name :
  record !! (name +:+ "_FLG") = Some flag →
  foldl (set_flag flag today) record l !! (name +:+ "_FLG") = Some flag.
Proof.
  revert record. induction l as [|x l IH]; intros record Hset; [done |].
  simpl. apply IH.
  destruct (set_flag_lookup flag today record x (name +:+ "_FLG"))
    as [-> | (name' & _ & [[_ ->] | [Heq _]])]; [done | done |].
  by apply flg_ne_date in Heq.
Qed.

Lemma loop_keep_date flag today (l : list string) (record : gmap string string) name :
  record !! (name +:+ "_DATE") = Some today →
  foldl (set_flag flag today) record l !! (name +:+ "_DATE") = Some today.
Proof.
  revert record. induction l as [|x l IH]; intros record Hset; [done |].
  simpl. apply IH.
  destruct (set_flag_lookup flag today record x (name +:+ "_DATE"))
    as [-> | (name' & _ & [[Heq _] | [_ ->]])]; [done | | done].
  symmetry in Heq. by apply flg_ne_date in Heq.
Qed.

(** A loop stores the flag and the date of each of its newsletters. *)
Lemma loop_sets flag today (l : list string) (record : gmap string string) nl name :
  nl ∈ l → has_field nl name →
  foldl (set_flag flag today) record l !! (name +:+ "_FLG") = Some flag
  ∧ foldl (set_flag flag today) record l !! (name +:+ "_DATE") = Some today.
Proof.
  revert record. induction l as [|x l IH]; intros record Hin Hfield.
  { by apply elem_of_nil in Hin. }
  simpl. apply elem_of_cons in Hin as [<- | Hin]; [| by apply IH].
  destruct (set_flag_has_field flag today record nl name Hfield) as [Hflg Hdate].
  split; [by apply loop_keep_flg | by apply loop_keep_date].
Qed.

(** The value a loop leaves under a flag column is the one it stores or
    the one it found. *)
Lemma loop_flg_cases flag today (l : list string) (record : gmap string string) name :
  foldl (set_flag flag today) record l !! (name +:+ "_FLG") = Some flag
  ∨ foldl (set_flag flag today) record l !! (name +:+ "_FLG")
    = record !! (name +:+ "_FLG").
Proof.
  revert record. induction l as [|x l IH]; intros record; [by right |].
  simpl. destruct (IH (set_flag flag today record x)) as [-> | ->]; [by left |].
  destruct (set_flag_lookup flag today record x (name +:+ "_FLG"))
    as [-> | (name' & _ & [[_ ->] | [Heq _]])]; [by right | by left |].
  by apply flg_ne_date in Heq.
Qed.

Lemma set_flag_comm flag today (record : gmap string string) x y :
  set_flag flag today (set_flag flag today record x) y
  = set_flag flag today (set_flag flag today record y) x.
Proof.
  unfold Tasks.set_flag.
  destruct (newsletter_field x) as [nx|]; [| done].
  destruct (truthy nx); [| done].
  destruct (newsletter_field y) as [ny|]; [| done].
  destruct (truthy ny); [| done].
  apply map_eq. intros k. rewrite !lookup_insert.
  repeat case_decide; subst; try done;
    exfalso; eapply flg_ne_date; eauto.
Qed.

(** The order in which a loop visits its newsletters does not matter, so
    the iteration order of the Python set is immaterial. *)
Lemma loop_permutation flag today (l l' : list string)
      (record : gmap string string) :
  l ≡ₚ l' →
  foldl (set_flag flag today) record l = foldl (set_flag flag today) record l'.
Proof.
  intros Hperm. revert record.
  induction Hperm as [|x l l' _ IH|x y l|l1 l2 l3 _ IH1 _ IH2];
    intros record; simpl.
  - done.
  - apply IH.
  - by rewrite set_flag_comm.
  - by rewrite IH1, IH2.
Qed.

(** Keys that are no newsletter columns pass through unchanged. *)
Lemma parse_newsletters_fixed_key today (record : gmap string string) type
      newsletters k :
  fixed_key k →
  parse_newsletters today record type newsletters !! k = record !! k.
Proof.
  intros Hk. unfold Tasks.parse_newsletters.
  assert (∀ flag l (r : gmap string string),
             foldl (set_flag flag today) r l !! k = r !! k) as Hloop.
  { intros flag l r. apply loop_other. intros nl name _ _.
    split; [by apply fixed_key_flg | by apply fixed_key_date]. }
  destruct (_ || _); destruct (_ || _); by rewrite ?Hloop.
Qed.

Lemma elem_of_unsubs (newsletters : string) (nl : string) :
  nl ∈ elements ((list_to_set newsletter_names : gset string)
                 ∖ list_to_set (named newsletters))
  ↔ nl ∈ newsletter_names ∧ nl ∉ named newsletters.
Proof.
  by rewrite elem_of_elements, elem_of_difference, !elem_of_list_to_set.
Qed.

Lemma parse_newsletters_subscribe today (record : gmap string string) newsletters :
  parse_newsletters today record Tasks.SUBSCRIBE newsletters
  = foldl (set_flag "Y" today) record (named newsletters).
Proof. reflexivity. Qed.

Lemma parse_newsletters_set today (record : gmap string string) newsletters :
  parse_newsletters today record Tasks.SET newsletters
  = foldl (set_flag "N" today)
          (foldl (set_flag "Y" today) record (named newsletters))
          (elements ((list_to_set newsletter_names : gset string)
                     ∖ list_to_set (named newsletters))).
Proof. reflexivity. Qed.

(** [parse_newsletters] of the four-argument task reads no snapshot: for
    a SUBSCRIBE or SET change, every newsletter of the catalog named in it
    has its flag column set to ['Y'] and its date column set to the current
    date in the record, whatever the remote side shows.  (For SET, provided
    no newsletter left out of the list is stored in the same column.) *)
Lemma parse_newsletters_marks_named
        today (record : gmap string string) type newsletters nl name :
  type = Tasks.SUBSCRIBE ∨ type = Tasks.SET →
  nl ∈ named newsletters →
  has_field nl name →
  (type = Tasks.SET →
   ∀ nl', nl' ∈ newsletter_names → nl' ∉ named newsletters →
          ¬ has_field nl' name) →
  parse_newsletters today record type newsletters !! (name +:+ "_FLG") = Some "Y"
  ∧ parse_newsletters today record type newsletters !! (name +:+ "_DATE")
    = Some today.
Proof.
  intros [-> | ->] Hin Hfield Hshared.
  - rewrite parse_newsletters_subscribe. by eapply loop_sets.
  - rewrite parse_newsletters_set.
    assert (∀ nl' name', nl' ∈ elements
                           ((list_to_set newsletter_names : gset string)
                            ∖ list_to_set (named newsletters)) →
                         has_field nl' name' → name' ≠ name) as Hne.
    { intros nl' name' [Hcat Hout]%elem_of_unsubs Hfield' ->.
      by apply (Hshared eq_refl nl'). }
    rewrite 2!(loop_other "N").
    + by eapply loop_sets.
    + intros nl' name' Hin' Hfield'. split.
      * symmetry. apply flg_ne_date.
      * intros Heq%append_suffix_inj. by eapply Hne.
    + intros nl' name' Hin' Hfield'. split.
      * intros Heq%append_suffix_inj. by eapply Hne.
      * apply flg_ne_date.
Qed.

(** C5.  A SET change marks ['N'], with the date, every newsletter of the
    catalog that is not in the list; and a SET with an empty list marks
    ['N'] every newsletter the subscriber has and stores no ['Y'] flag. *)
Theorem parse_newsletters_set_complement today (record : gmap string string) :
  (∀ newsletters nl name,
      nl ∈ newsletter_names → nl ∉ named newsletters → has_field nl name →
      parse_newsletters today record Tasks.SET newsletters !! (name +:+ "_FLG")
      = Some "N"
      ∧ parse_newsletters today record Tasks.SET newsletters !! (name +:+ "_DATE")
        = Some today)
  ∧ (newsletter_field "" = None →
     (∀ (subscribed : list string) nl name,
         subscribed ⊆ newsletter_names → nl ∈ subscribed → has_field nl name →
         parse_newsletters today record Tasks.SET "" !! (name +:+ "_FLG")
         = Some "N"
         ∧ parse_newsletters today record Tasks.SET "" !! (name +:+ "_DATE")
           = Some today)
     ∧ ((∀ name, record !! (name +:+ "_FLG") ≠ Some "Y") →
        ∀ name, parse_newsletters today record Tasks.SET "" !! (name +:+ "_FLG")
                ≠ Some "Y")).
Proof.
  assert (∀ newsletters nl name,
      nl ∈ newsletter_names → nl ∉ named newsletters → has_field nl name →
      parse_newsletters today record Tasks.SET newsletters !! (name +:+ "_FLG")
      = Some "N"
      ∧ parse_newsletters today record Tasks.SET newsletters !! (name +:+ "_DATE")
        = Some today) as Hcomplement.
  { intros newsletters nl name Hcat Hout Hfield. rewrite parse_newsletters_set.
    eapply loop_sets; [| done]. by apply elem_of_unsubs. }
  split; [done |]. intros Hempty. split.
  - intros subscribed nl name Hsub Hin Hfield.
    apply (Hcomplement "" nl name); [by apply Hsub | | done].
    intros Hnl. change (named "") with [""] in Hnl.
    apply list_elem_of_singleton in Hnl as ->.
    destruct Hfield as [Hfield _]. congruence.
  - intros Hrecord name. rewrite parse_newsletters_set.
    change (named "") with [""]. simpl foldl at 2.
    unfold Tasks.set_flag at 2. rewrite Hempty.
    destruct (loop_flg_cases "N" today
                (elements ((list_to_set newsletter_names : gset string)
                           ∖ list_to_set [""])) record name) as [-> | ->];
      [done | apply Hrecord].
Qed.

End ParseNewsletters.

(** ** [update_user] *)

Section UpdateUser.
Variable newsletter_field : string → option string.
Variable newsletter_names : list string.
Variable EXACTTARGET_DATA : string.
Variable EXACTTARGET_OPTIN_STAGE : string.
Variable ET : Type.
Variable add_record : ET → string → gmap string string → ET * option exn.
Variable trigger_send : ET → string → string → string → string → ET * option exn.
Variable gmttime_at : nat → string.
Variable today_at : nat → string.
Variable uuid4_at : nat → string.
Variable default_token : string.

Local Abbreviation world := (Tasks.world ET).
Local Abbreviation mkWorld := (Tasks.mkWorld ET).
Local Abbreviation subscribers := (Tasks.subscribers ET).
Local Abbreviation remote := (Tasks.remote ET).
Local Abbreviation trace := (Tasks.trace ET).
Local Abbreviation clock := (Tasks.clock ET).
Local Abbreviation parse_newsletters :=
  (Tasks.parse_newsletters newsletter_field newsletter_names).
Local Abbreviation add_token :=
  (Tasks.add_token ET gmttime_at uuid4_at default_token).
Local Abbreviation choose_target :=
  (Tasks.choose_target EXACTTARGET_DATA EXACTTARGET_OPTIN_STAGE ET).
Local Abbreviation prepare :=
  (Tasks.prepare newsletter_field newsletter_names EXACTTARGET_DATA
                 EXACTTARGET_OPTIN_STAGE ET gmttime_at today_at uuid4_at
                 default_token).
Local Abbreviation write := (Tasks.write ET add_record gmttime_at).
Local Abbreviation send_welcome := (Tasks.send_welcome ET trigger_send).
Local Abbreviation update_user :=
  (Tasks.update_user newsletter_field newsletter_names EXACTTARGET_DATA
                     EXACTTARGET_OPTIN_STAGE ET add_record trigger_send
                     gmttime_at today_at uuid4_at default_token).

(** The format the record carries: the request's, or ['H']. *)
Definition format_of (data : gmap string string) : string :=
  let fmt := lower (default "H" (data !! "format")) in
  upper (if String.eqb fmt "text" then "T"
         else if String.eqb fmt "html" then "H"
         else fmt).

(** The welcome the task selects. *)
Definition welcome_of (data : gmap string string) (type : Z) : option string :=
  let confirm := data !! "lang" ≫= (Tasks.CONFIRM_SENDS !!.) in
  if bool_decide (is_Some confirm) && bool_decide (type = Tasks.SUBSCRIBE)
  then confirm
  else if bool_decide (data !! "trigger_welcome" = Some "Y") then Some "39"
  else None.

(** The remote calls among some events. *)
Definition is_remote (ev : Tasks.event) : bool :=
  Tasks.is_add_record ev || Tasks.is_trigger_send ev.

(** The remote calls a run from [w] to [w'] has issued, in order. *)
Definition calls (w w' : world) : list Tasks.event :=
  List.filter is_remote (drop (length (trace w)) (trace w')).

(** A step that does not talk to the remote service. *)
Definition quiet (w w' : world) : Prop :=
  remote w' = remote w
  ∧ ∃ logs, trace w' = trace w ++ logs ∧ List.filter is_remote logs = [].

Lemma quiet_refl w : quiet w w.
Proof. split; [done |]. exists []. by rewrite app_nil_r. Qed.

Lemma quiet_trans w1 w2 w3 : quiet w1 w2 → quiet w2 w3 → quiet w1 w3.
Proof.
  intros [Hr1 (l1 & Ht1 & Hl1)] [Hr2 (l2 & Ht2 & Hl2)]. split; [congruence |].
  exists (l1 ++ l2). rewrite Ht2, Ht1, app_assoc. split; [done |].
  by rewrite List.filter_app, Hl1, Hl2.
Qed.

Lemma calls_app w w' (evs : list Tasks.event) :
  trace w' = trace w ++ evs → calls w w' = List.filter is_remote evs.
Proof. intros Heq. unfold calls. by rewrite Heq, drop_app_length. Qed.

(** *** The record before the write *)

Lemma initial_record_email data email :
  Tasks.initial_record data email !! "EMAIL_ADDRESS_" = Some email.
Proof.
  unfold Tasks.initial_record. simpl.
  destruct (data !! "country"), (data !! "lang"), (data !! "source_url");
    by simplify_map_eq.
Qed.

Lemma initial_record_format data email :
  Tasks.initial_record data email !! "EMAIL_FORMAT_" = Some (format_of data).
Proof. unfold Tasks.initial_record. by rewrite lookup_insert_eq. Qed.

Lemma initial_record_lang data email :
  Tasks.initial_record data email !! "LANGUAGE_ISO2" = data !! "lang".
Proof.
  unfold Tasks.initial_record. simpl.
  destruct (data !! "country"), (data !! "lang"), (data !! "source_url");
    by simplify_map_eq.
Qed.

(** The keys stored after the newsletter flags. *)
Definition late_keys : list string :=
  ["TOKEN"; "CREATED_DATE_"; "MODIFIED_DATE_"; "SubscriberKey"; "EmailAddress"].

Lemma late_key_ne (k k' : string) : k ∉ late_keys → k' ∈ late_keys → k' ≠ k.
Proof. by intros Hk Hk' ->. Qed.

Local Ltac late :=
  first [ compute_done | eapply late_key_ne; [eassumption | compute_done] ].

Lemma add_token_inv (record record' : gmap string string) (w w1 : world) :
  add_token record w = (Return record', w1) →
  quiet w w1
  ∧ is_Some (record' !! "TOKEN")
  ∧ (∀ k, k ∉ late_keys → record' !! k = record !! k).
Proof.
  unfold Tasks.add_token, Tasks.bind, Tasks.getitem, Tasks.get_or_create,
    Tasks.uuid4, Tasks.gmttime, Tasks.save, Tasks.ret, Tasks.raise.
  destruct (record !! "EMAIL_ADDRESS_") as [email|]; [| done].
  destruct (objects_get_or_create _ _ _) as [[[sub [|]]|e] db]; [| | done].
  - intros [= <- <-]. split; [split; [done |]; exists []; by rewrite app_nil_r |].
    split.
    + rewrite lookup_insert_ne by done. rewrite lookup_insert_eq. by eexists.
    + intros k Hk. rewrite !lookup_insert_ne; [done | late..].
  - intros [= <- <-]. split; [split; [done |]; exists []; by rewrite app_nil_r |].
    split.
    + rewrite lookup_insert_eq. by eexists.
    + intros k Hk. rewrite !lookup_insert_ne; [done | late..].
Qed.

Lemma add_token_returns (record : gmap string string) (w : world) email :
  record !! "EMAIL_ADDRESS_" = Some email →
  NoDup (map sub_email (subscribers w)) →
  ∃ record' w1, add_token record w = (Return record', w1).
Proof.
  intros Hemail Hnd.
  unfold Tasks.add_token, Tasks.bind, Tasks.getitem, Tasks.get_or_create,
    Tasks.uuid4, Tasks.gmttime, Tasks.save, Tasks.ret, Tasks.raise.
  rewrite Hemail. unfold objects_get_or_create.
  destruct (filter_email_unique email (subscribers w) Hnd) as [-> | (s & -> & _)];
    by eauto.
Qed.

Lemma choose_target_run data type (record : gmap string string) (w : world)
      token email :
  record !! "TOKEN" = Some token →
  record !! "EMAIL_ADDRESS_" = Some email →
  record !! "LANGUAGE_ISO2" = data !! "lang" →
  ∃ target record',
    choose_target data type record w
    = (Return (target, record', welcome_of data type), w)
    ∧ (∀ k, k ∉ late_keys → record' !! k = record !! k)
    ∧ record' !! "TOKEN" = Some token.
Proof.
  intros Htoken Hemail Hlang.
  unfold Tasks.choose_target, welcome_of. rewrite Hlang.
  destruct (bool_decide _ && bool_decide _).
  - unfold Tasks.bind, Tasks.getitem, Tasks.ret. rewrite Htoken.
    rewrite lookup_insert_ne by done. rewrite Hemail.
    eexists _, _. split; [reflexivity |]. split.
    + intros k Hk. rewrite !lookup_insert_ne; [done | late..].
    + by rewrite !lookup_insert_ne.
  - destruct (bool_decide _); eexists _, _; (split; [reflexivity |]); done.
Qed.

Lemma bind_inv {A B} (m : Tasks.M ET A) (f : A → Tasks.M ET B) (w w' : world) b :
  Tasks.bind ET m f w = (Return b, w') →
  ∃ a w1, m w = (Return a, w1) ∧ f a w1 = (Return b, w').
Proof.
  unfold Tasks.bind. destruct (m w) as [[a|e] w1]; [by eauto | done].
Qed.

Lemma fixed_late_key k name :
  k ∈ late_keys → k ≠ name +:+ "_FLG" ∧ k ≠ name +:+ "_DATE".
Proof.
  unfold late_keys. rewrite !elem_of_cons, elem_of_nil.
  intros [-> | [-> | [-> | [-> | [-> | []]]]]];
    (split; [apply fixed_key_flg | apply fixed_key_date]); by split.
Qed.

(** What a successful [prepare] hands to the write. *)
Lemma prepare_inv data authed type optin (w w1 : world) target record welcome :
  prepare data authed type optin w = (Return (target, record, welcome), w1) →
  ∃ email token,
    data !! "email" = Some email
    ∧ record !! "EMAIL_ADDRESS_" = Some email
    ∧ record !! "TOKEN" = Some token
    ∧ record !! "EMAIL_FORMAT_" = Some (format_of data)
    ∧ welcome = welcome_of data type
    ∧ quiet w w1
    ∧ (∀ k, k ∉ late_keys →
            record !! k
            = parse_newsletters (today_at (clock w))
                                (Tasks.initial_record data email) type
                                (default "" (data !! "newsletters")) !! k).
Proof.
  unfold Tasks.prepare.
  intros (u & w0 & Hlog & Hrun)%bind_inv.
  apply bind_inv in Hrun as (email & w0' & Hemail & Hrun).
  apply bind_inv in Hrun as (date & w0'' & Hdate & Hrun).
  apply bind_inv in Hrun as (record1 & w2 & Htoken & Hrun).
  apply bind_inv in Hrun as (now & w3 & Hnow & Hrun).
  assert (quiet w w0 ∧ clock w0 = clock w) as [Hq0 Hc0].
  { destruct (_ && _); injection Hlog as _ <-; [| by split; [apply quiet_refl |]].
    split; [| done]. split; [done |]. by eexists. }
  unfold Tasks.getitem in Hemail.
  destruct (data !! "email") as [email'|] eqn:Hdata; [| done].
  injection Hemail as -> ->. injection Hdate as <- <-.
  apply add_token_inv in Htoken as (Hq2 & [token Htoken] & Hkeep2).
  injection Hnow as <- <-.
  set (parsed := parse_newsletters _ _ _ _) in *.
  assert (parsed !! "EMAIL_ADDRESS_" = Some email) as Hpe.
  { unfold parsed. rewrite parse_newsletters_fixed_key by (by split).
    apply initial_record_email. }
  assert (parsed !! "EMAIL_FORMAT_" = Some (format_of data)) as Hpf.
  { unfold parsed. rewrite parse_newsletters_fixed_key by (by split).
    apply initial_record_format. }
  assert (parsed !! "LANGUAGE_ISO2" = data !! "lang") as Hpl.
  { unfold parsed. rewrite parse_newsletters_fixed_key by (by split).
    apply initial_record_lang. }
  edestruct (choose_target_run data type
               (<["MODIFIED_DATE_" := gmttime_at (clock w2)]> record1)
               (mkWorld (subscribers w2) (remote w2) (trace w2) (S (clock w2)))
               token email) as (target' & record' & Hchoose & Hkeep3 & Htoken3).
  { by rewrite lookup_insert_ne. }
  { rewrite lookup_insert_ne by done. rewrite Hkeep2 by late.
    done. }
  { rewrite lookup_insert_ne by done. rewrite Hkeep2 by late.
    done. }
  rewrite Hchoose in Hrun. injection Hrun as <- <- <- <-.
  assert (∀ k, k ∉ late_keys → record' !! k = parsed !! k) as Hkeep.
  { intros k Hk. rewrite Hkeep3 by done.
    rewrite lookup_insert_ne by late.
    by apply Hkeep2. }
  exists email, token.
  rewrite (Hkeep "EMAIL_ADDRESS_"), (Hkeep "EMAIL_FORMAT_") by late.
  do 5 (split; [done |]). split.
  - eapply quiet_trans; [apply Hq0 |]. eapply quiet_trans; [apply Hq2 |].
    split; [done |]. exists []. by rewrite app_nil_r.
  - intros k Hk. rewrite Hkeep by done. unfold parsed. by rewrite Hc0.
Qed.

(** The newsletter columns of the record handed to the write are those
    [parse_newsletters] stored. *)
Lemma prepare_newsletter_columns
      data authed type optin (w w1 : world) target record welcome :
  prepare data authed type optin w = (Return (target, record, welcome), w1) →
  ∃ email,
    data !! "email" = Some email
    ∧ ∀ name suffix,
        suffix = "_FLG" ∨ suffix = "_DATE" →
        record !! (name +:+ suffix)
        = parse_newsletters (today_at (clock w))
                            (Tasks.initial_record data email) type
                            (default "" (data !! "newsletters"))
          !! (name +:+ suffix).
Proof.
  intros (email & token & Hdata & _ & _ & _ & _ & _ & Hkeep)%prepare_inv.
  exists email. split; [done |]. intros name suffix Hsuffix. apply Hkeep.
  intros Hlate. destruct (fixed_late_key _ name Hlate) as [Hflg Hdate].
  by destruct Hsuffix as [-> | ->].
Qed.

(** A successful [prepare] needs only the e-mail address in the request
    and a local table with one row per address. *)
Lemma prepare_returns data authed type optin (w : world) email :
  data !! "email" = Some email →
  NoDup (map sub_email (subscribers w)) →
  ∃ target record w1,
    prepare data authed type optin w
    = (Return (target, record, welcome_of data type), w1).
Proof.
  intros Hemail Hnd. unfold Tasks.prepare.
  unfold Tasks.bind at 1. rewrite Hemail.
  rewrite bool_decide_eq_true_2 by eauto. rewrite andb_false_r.
  unfold Tasks.ret at 1, Tasks.bind at 1, Tasks.getitem at 1. rewrite Hemail.
  unfold Tasks.ret at 1, Tasks.bind at 1, Tasks.today at 1.
  set (parsed := parse_newsletters _ _ _ _).
  assert (parsed !! "EMAIL_ADDRESS_" = Some email) as Hpe.
  { unfold parsed. rewrite parse_newsletters_fixed_key by (by split).
    apply initial_record_email. }
  assert (parsed !! "LANGUAGE_ISO2" = data !! "lang") as Hpl.
  { unfold parsed. rewrite parse_newsletters_fixed_key by (by split).
    apply initial_record_lang. }
  destruct (add_token_returns parsed w email Hpe Hnd) as (record1 & w2 & Htoken).
  unfold Tasks.bind at 1. rewrite Htoken.
  apply add_token_inv in Htoken as (_ & [token Htoken] & Hkeep).
  unfold Tasks.bind at 1, Tasks.gmttime at 1.
  edestruct (choose_target_run data type
               (<["MODIFIED_DATE_" := gmttime_at (clock w2)]> record1)
               (mkWorld (subscribers w2) (remote w2) (trace w2) (S (clock w2)))
               token email) as (target & record & Hchoose & _).
  { by rewrite lookup_insert_ne. }
  { rewrite lookup_insert_ne by done. by rewrite Hkeep by late. }
  { rewrite lookup_insert_ne by done. by rewrite Hkeep by late. }
  rewrite Hchoose. eauto.
Qed.

(** Every welcome the task selects is a non-empty name. *)
Lemma welcome_of_truthy data type send :
  welcome_of data type = Some send → truthy send = true.
Proof.
  unfold welcome_of.
  destruct (bool_decide _ && _).
  - destruct (data !! "lang") as [l|]; [| done]. simpl.
    intros Hin%elem_of_list_to_map_2.
    repeat (apply elem_of_cons in Hin as [[= -> ->] | Hin]; [done |]).
    by apply elem_of_nil in Hin.
  - destruct (bool_decide _); [by intros [= <-] | done].
Qed.

(** *** The write *)

Lemma write_accepted target (record : gmap string string) (w : world) et :
  add_record (remote w) target record = (et, None) →
  write target record w
  = (Return record,
     mkWorld (subscribers w) et (trace w ++ [Tasks.AddRecord target record])
             (clock w)).
Proof.
  intros Hadd.
  unfold Tasks.write, Tasks.try_except, Tasks.bind, Tasks.do_add_record.
  by rewrite Hadd.
Qed.

Lemma write_rejected target (record : gmap string string) (w : world) et e :
  add_record (remote w) target record = (et, Some e) →
  Tasks.caught e = false ∨ find (Tasks.message e) "CREATED_DATE_" = (-1)%Z →
  write target record w
  = (Raise e,
     mkWorld (subscribers w) et (trace w ++ [Tasks.AddRecord target record])
             (clock w)).
Proof.
  intros Hadd Hwhy.
  unfold Tasks.write, Tasks.try_except, Tasks.bind, Tasks.do_add_record.
  rewrite Hadd. destruct (Tasks.caught e); [| done].
  destruct Hwhy as [? | Hfind]; [done |].
  by rewrite bool_decide_eq_false_2 by (by rewrite Hfind; intros []).
Qed.

Lemma write_resubmitted target (record : gmap string string) (w : world) et1 e et2 r :
  add_record (remote w) target record = (et1, Some e) →
  Tasks.caught e = true →
  find (Tasks.message e) "CREATED_DATE_" ≠ (-1)%Z →
  add_record et1 target (<["CREATED_DATE_" := gmttime_at (clock w)]> record)
  = (et2, r) →
  write target record w
  = (match r with
     | None => Return (<["CREATED_DATE_" := gmttime_at (clock w)]> record)
     | Some e2 => Raise e2
     end,
     mkWorld (subscribers w) et2
             (trace w ++ [Tasks.AddRecord target record;
                          Tasks.AddRecord target
                            (<["CREATED_DATE_" := gmttime_at (clock w)]> record)])
             (S (clock w))).
Proof.
  intros Hadd Hcaught Hfind Hagain.
  unfold Tasks.write, Tasks.try_except, Tasks.bind, Tasks.do_add_record.
  rewrite Hadd, Hcaught. rewrite bool_decide_eq_true_2 by done.
  unfold Tasks.gmttime. simpl. rewrite Hagain.
  rewrite <- app_assoc. by destruct r.
Qed.

(** *** The welcome *)

Lemma send_welcome_none (record : gmap string string) (w : world) :
  send_welcome None record w = (Return (), w).
Proof. reflexivity. Qed.

Lemma send_welcome_some send (record : gmap string string) (w : world)
      email token :
  truthy send = true →
  record !! "EMAIL_ADDRESS_" = Some email →
  record !! "TOKEN" = Some token →
  let format := default "H" (record !! "EMAIL_FORMAT_") in
  let answer := trigger_send (remote w) send email token format in
  send_welcome (Some send) record w
  = (match answer.2 with None => Return () | Some e => Raise e end,
     mkWorld (subscribers w) answer.1
             (trace w ++ [Tasks.TriggerSend send email token format])
             (clock w)).
Proof.
  intros Htruthy Hemail Htoken.
  unfold Tasks.send_welcome, Tasks.try_except, Tasks.bind, Tasks.getitem,
    Tasks.do_trigger_send, Tasks.ret, Tasks.handle_exception, Tasks.raise.
  rewrite Htruthy, Hemail, Htoken. simpl.
  destruct (trigger_send _ _ _ _ _) as [et [e|]]; simpl; [| done].
  by destruct (Tasks.caught e).
Qed.

(** *** The task as a whole *)

Lemma update_user_unfold data authed type optin (w : world) :
  update_user data authed type optin w
  = match prepare data authed type optin w with
    | (Return (target, record, welcome), w1) =>
        match write target record w1 with
        | (Return record, w2) => send_welcome welcome record w2
        | (Raise e, w2) => (Raise e, w2)
        end
    | (Raise e, w1) => (Raise e, w1)
    end.
Proof.
  unfold Tasks.update_user, Tasks.bind.
  by destruct (prepare data authed type optin w) as [[[[target record] welcome]|e] w1].
Qed.

Lemma calls_after_quiet (w w1 w' : world) (evs : list Tasks.event) :
  quiet w w1 → trace w' = trace w1 ++ evs →
  calls w w' = List.filter is_remote evs.
Proof.
  intros [_ (logs & Hlogs & Hquiet)] Htrace.
  rewrite (calls_app w w' (logs ++ evs)).
  - by rewrite List.filter_app, Hquiet.
  - by rewrite Htrace, Hlogs, app_assoc.
Qed.

(** [prepare] never talks to the remote service, whatever it returns. *)
Definition quiet_m {A} (m : Tasks.M ET A) : Prop :=
  ∀ w out w1, m w = (out, w1) → quiet w w1.

Lemma quiet_m_bind {A B} (m : Tasks.M ET A) (f : A → Tasks.M ET B) :
  quiet_m m → (∀ a, quiet_m (f a)) → quiet_m (Tasks.bind ET m f).
Proof.
  intros Hm Hf w out w1. unfold Tasks.bind.
  destruct (m w) as [[a|e] w0] eqn:Hrun.
  - intros Hrest. eapply quiet_trans; [by eapply Hm | by eapply Hf].
  - intros [= <- <-]. by eapply Hm.
Qed.

Lemma quiet_m_ret {A} (a : A) : quiet_m (Tasks.ret ET a).
Proof. intros w out w1 [= <- <-]. apply quiet_refl. Qed.

Lemma quiet_m_raise {A} (e : exn) : quiet_m (@Tasks.raise ET A e).
Proof. intros w out w1 [= <- <-]. apply quiet_refl. Qed.

Lemma quiet_m_getitem (d : gmap string string) k : quiet_m (Tasks.getitem ET d k).
Proof.
  unfold Tasks.getitem. destruct (d !! k); [apply quiet_m_ret | apply quiet_m_raise].
Qed.

Lemma quiet_same_trace (w w1 : world) :
  remote w1 = remote w → trace w1 = trace w → quiet w w1.
Proof. intros Hr Ht. split; [done |]. exists []. by rewrite app_nil_r. Qed.

Lemma quiet_m_add_token (record : gmap string string) : quiet_m (add_token record).
Proof.
  unfold Tasks.add_token.
  apply quiet_m_bind; [apply quiet_m_getitem | intros email].
  apply quiet_m_bind.
  { intros w out w1. unfold Tasks.get_or_create.
    destruct (objects_get_or_create _ _ _) as [r db]. intros [= <- <-].
    by apply quiet_same_trace. }
  intros [sub [|]]; [| apply quiet_m_ret].
  apply quiet_m_bind.
  { intros w out w1 [= <- <-]. by apply quiet_same_trace. }
  intros token. apply quiet_m_bind.
  { intros w out w1 [= <- <-]. by apply quiet_same_trace. }
  intros now. apply quiet_m_bind; [| intros ?; apply quiet_m_ret].
  intros w out w1 [= <- <-]. by apply quiet_same_trace.
Qed.

Lemma quiet_m_choose_target data type (record : gmap string string) :
  quiet_m (choose_target data type record).
Proof.
  unfold Tasks.choose_target. destruct (_ && _).
  - apply quiet_m_bind; [apply quiet_m_getitem | intros token].
    apply quiet_m_bind; [apply quiet_m_getitem | intros email].
    apply quiet_m_ret.
  - destruct (bool_decide _); apply quiet_m_ret.
Qed.

Lemma prepare_quiet data authed type optin :
  quiet_m (prepare data authed type optin).
Proof.
  unfold Tasks.prepare. apply quiet_m_bind.
  { destruct (_ && _); [| apply quiet_m_ret].
    intros w out w1 [= <- <-]. split; [done |]. by eexists. }
  intros _. apply quiet_m_bind; [apply quiet_m_getitem | intros email].
  apply quiet_m_bind.
  { intros w out w1 [= <- <-]. apply quiet_refl. }
  intros date. apply quiet_m_bind; [apply quiet_m_add_token | intros record].
  apply quiet_m_bind; [| intros now; apply quiet_m_choose_target].
  intros w out w1 [= <- <-]. by apply quiet_same_trace.
Qed.

(** C4.  When the write is rejected with a message that contains
    [CREATED_DATE_], the task sends it once more with that field added,
    and a second rejection ends the task with that exception and no
    further call; a rejection without the field name in its message ends
    the task at once, with the one write. *)
Theorem update_user_created_date_recovery
        data authed type optin (w w1 : world) target record welcome et1 e :
  prepare data authed type optin w = (Return (target, record, welcome), w1) →
  add_record (remote w1) target record = (et1, Some e) →
  Tasks.caught e = true →
  let record' := <["CREATED_DATE_" := gmttime_at (clock w1)]> record in
  let run := update_user data authed type optin w in
  (find (Tasks.message e) "CREATED_DATE_" ≠ (-1)%Z →
   List.filter Tasks.is_add_record (calls w run.2)
   = [Tasks.AddRecord target record; Tasks.AddRecord target record']
   ∧ ∀ et2 e2,
       add_record et1 target record' = (et2, Some e2) →
       run.1 = Raise e2
       ∧ calls w run.2
         = [Tasks.AddRecord target record; Tasks.AddRecord target record']
       ∧ remote run.2 = et2)
  ∧ (find (Tasks.message e) "CREATED_DATE_" = (-1)%Z →
     run.1 = Raise e
     ∧ calls w run.2 = [Tasks.AddRecord target record]
     ∧ remote run.2 = et1).
Proof.
  intros Hprepare Hadd Hcaught record' run.
  destruct (prepare_inv _ _ _ _ _ _ _ _ _ Hprepare)
    as (email & token & Hdata & Hemail & Htoken & Hformat & -> & Hquiet & _).
  unfold run. rewrite update_user_unfold, Hprepare. split.
  - intros Hfind.
    destruct (add_record et1 target record') as [et2 r] eqn:Hagain.
    rewrite (write_resubmitted _ _ _ _ _ _ _ Hadd Hcaught Hfind Hagain).
    fold record'. destruct r as [e2|].
    + simpl. erewrite calls_after_quiet; [| done | reflexivity].
      split; [done |]. by intros et2' e2' [= <- <-].
    + split; [| done].
      destruct (welcome_of data type) as [send|] eqn:Hwelcome.
      * rewrite (send_welcome_some send record' _ email token);
          [| by eapply welcome_of_truthy
           | by unfold record'; rewrite lookup_insert_ne
           | by unfold record'; rewrite lookup_insert_ne ].
        simpl. rewrite <- app_assoc.
        erewrite calls_after_quiet; [| done | reflexivity]. done.
      * rewrite send_welcome_none. simpl.
        erewrite calls_after_quiet; [| done | reflexivity]. done.
  - intros Hfind.
    rewrite (write_rejected _ _ _ _ _ Hadd (or_intror Hfind)). simpl.
    erewrite calls_after_quiet; [| done | reflexivity]. done.
Qed.

(** The two ways the write succeeds: at once, or through the
    resubmission with [CREATED_DATE_].  [et] is the remote state it
    leaves, [writes] the calls it made, [written] the record as sent last. *)
Definition write_succeeds (w1 : world) (target : string)
           (record : gmap string string) (et : ET)
           (writes : list Tasks.event) (written : gmap string string) : Prop :=
  (add_record (remote w1) target record = (et, None)
   ∧ writes = [Tasks.AddRecord target record]
   ∧ written = record)
  ∨ (∃ et1 e,
        add_record (remote w1) target record = (et1, Some e)
        ∧ Tasks.caught e = true
        ∧ find (Tasks.message e) "CREATED_DATE_" ≠ (-1)%Z
        ∧ written = <["CREATED_DATE_" := gmttime_at (clock w1)]> record
        ∧ add_record et1 target written = (et, None)
        ∧ writes = [Tasks.AddRecord target record;
                    Tasks.AddRecord target written]).

Lemma write_succeeds_run (w1 : world) target record et writes written :
  write_succeeds w1 target record et writes written →
  ∃ w2, write target record w1 = (Return written, w2)
        ∧ remote w2 = et
        ∧ trace w2 = trace w1 ++ writes
        ∧ (∀ k, k ≠ "CREATED_DATE_" → written !! k = record !! k).
Proof.
  intros [(Hadd & -> & ->) | (et1 & e & Hadd & Hcaught & Hfind & -> & Hagain & ->)].
  - rewrite (write_accepted _ _ _ _ Hadd). by eauto.
  - rewrite (write_resubmitted _ _ _ _ _ _ _ Hadd Hcaught Hfind Hagain).
    eexists. split; [done |]. split; [done |]. split; [done |].
    intros k Hk. by rewrite lookup_insert_ne.
Qed.

(** C9.  Once the write has succeeded, at once or through the
    resubmission, the welcome step runs: a selected welcome is sent with
    exactly one call after the writes, and whether that call succeeds or
    fails the task issues no further call, so the writes stand; with no
    welcome selected the task ends with the writes alone. *)
Theorem update_user_welcome_after_write
        data authed type optin (w w1 : world) target record welcome
        et writes written :
  prepare data authed type optin w = (Return (target, record, welcome), w1) →
  write_succeeds w1 target record et writes written →
  let run := update_user data authed type optin w in
  match welcome with
  | Some send =>
      ∃ email token,
        written !! "EMAIL_ADDRESS_" = Some email
        ∧ written !! "TOKEN" = Some token
        ∧ let answer := trigger_send et send email token (format_of data) in
          calls w run.2
          = writes ++ [Tasks.TriggerSend send email token (format_of data)]
          ∧ remote run.2 = answer.1
          ∧ run.1 = match answer.2 with
                    | None => Return ()
                    | Some e => Raise e
                    end
  | None =>
      calls w run.2 = writes ∧ remote run.2 = et ∧ run.1 = Return ()
  end.
Proof.
  intros Hprepare Hwrite run.
  destruct (prepare_inv _ _ _ _ _ _ _ _ _ Hprepare)
    as (email & token & Hdata & Hemail & Htoken & Hformat & Hwelcome & Hquiet & _).
  destruct (write_succeeds_run _ _ _ _ _ _ Hwrite)
    as (w2 & Hrun & Hremote & Htrace & Hkeep).
  assert (List.filter is_remote writes = writes) as Hwrites.
  { by destruct Hwrite as [(_ & -> & _) | (? & ? & _ & _ & _ & _ & _ & ->)]. }
  unfold run. rewrite update_user_unfold, Hprepare, Hrun.
  destruct welcome as [send|].
  - exists email, token. rewrite !Hkeep by done.
    split; [done |]. split; [done |].
    rewrite (send_welcome_some send written w2 email token);
      [| by eapply welcome_of_truthy | by rewrite Hkeep | by rewrite Hkeep].
    rewrite Hkeep, Hformat, Hremote by done. simpl.
    erewrite calls_after_quiet; [| done | by rewrite Htrace, <- app_assoc].
    by rewrite List.filter_app, Hwrites.
  - rewrite send_welcome_none. simpl.
    erewrite calls_after_quiet; [| done | done]. by rewrite Hwrites.
Qed.

(** The welcome of the four-argument task: a welcome that is sent carries
    the message the task selected, the confirmation message of the
    request's language when the change is a SUBSCRIBE in a double opt-in
    language, and otherwise the fixed message ['39'], sent when
    [trigger_welcome] is ['Y'].  The format sent with it is the request's
    own format, upper-cased with [text] as ['T'] and [html] as ['H'], and
    ['H'] when the request has none. *)
Lemma update_user_welcome_message
        data authed type optin (w : world) send email token format :
  Tasks.TriggerSend send email token format
  ∈ calls w (update_user data authed type optin w).2 →
  welcome_of data type = Some send
  ∧ format = format_of data
  ∧ data !! "email" = Some email.
Proof.
  rewrite update_user_unfold.
  destruct (prepare data authed type optin w)
    as [[[[target record] welcome]|e] w1] eqn:Hprepare.
  2:{ apply prepare_quiet in Hprepare. simpl.
      erewrite calls_after_quiet; [| done | by rewrite app_nil_r].
      by intros ?%elem_of_nil. }
  destruct (prepare_inv _ _ _ _ _ _ _ _ _ Hprepare)
    as (email' & token' & Hdata & Hemail & Htoken & Hformat & -> & Hquiet & _).
  assert (∀ written (w2 : world) writes,
             written !! "EMAIL_ADDRESS_" = Some email' →
             written !! "TOKEN" = Some token' →
             written !! "EMAIL_FORMAT_" = Some (format_of data) →
             trace w2 = trace w1 ++ writes →
             List.filter Tasks.is_trigger_send writes = [] →
             Tasks.TriggerSend send email token format
             ∈ calls w (send_welcome (welcome_of data type) written w2).2 →
             welcome_of data type = Some send
             ∧ format = format_of data ∧ data !! "email" = Some email)
    as Hsend.
  { intros written w2 writes Hwe Hwt Hwf Htrace Hwrites.
    destruct (welcome_of data type) as [send'|] eqn:Hwelcome.
    - rewrite (send_welcome_some send' written w2 email' token');
        [| by eapply welcome_of_truthy | done | done].
      rewrite Hwf. simpl.
      erewrite calls_after_quiet; [| done | by rewrite Htrace, <- app_assoc].
      rewrite List.filter_app. simpl.
      intros [Hin | Hin]%elem_of_app.
      + exfalso. apply list_elem_of_In, filter_In in Hin as [Hin _].
        assert (In (Tasks.TriggerSend send email token format)
                   (List.filter Tasks.is_trigger_send writes)) as Hbad.
        { by apply filter_In. }
        by rewrite Hwrites in Hbad.
      + apply list_elem_of_singleton in Hin. by injection Hin as -> -> -> ->.
    - rewrite send_welcome_none.
      erewrite calls_after_quiet; [| done | done].
      intros Hin. exfalso. apply list_elem_of_In, filter_In in Hin as [Hin _].
      assert (In (Tasks.TriggerSend send email token format)
                 (List.filter Tasks.is_trigger_send writes)) as Hbad.
      { by apply filter_In. }
      by rewrite Hwrites in Hbad. }
  destruct (add_record (remote w1) target record) as [et1 [e|]] eqn:Hadd.
  - destruct (Tasks.caught e) eqn:Hcaught.
    2:{ rewrite (write_rejected _ _ _ _ _ Hadd (or_introl Hcaught)). simpl.
        erewrite calls_after_quiet; [| done | reflexivity]. simpl.
        intros Hin. apply list_elem_of_singleton in Hin. done. }
    destruct (decide (find (Tasks.message e) "CREATED_DATE_" = (-1)%Z))
      as [Hfind | Hfind].
    { rewrite (write_rejected _ _ _ _ _ Hadd (or_intror Hfind)). simpl.
      erewrite calls_after_quiet; [| done | reflexivity]. simpl.
      intros Hin. apply list_elem_of_singleton in Hin. done. }
    destruct (add_record et1 target
                (<["CREATED_DATE_" := gmttime_at (clock w1)]> record))
      as [et2 r] eqn:Hagain.
    rewrite (write_resubmitted _ _ _ _ _ _ _ Hadd Hcaught Hfind Hagain).
    destruct r as [e2|].
    + simpl. erewrite calls_after_quiet; [| done | reflexivity]. simpl.
      rewrite !elem_of_cons, elem_of_nil. by intros [? | [? | []]].
    + eapply Hsend; [| | | simpl; reflexivity | done];
        by rewrite lookup_insert_ne.
  - rewrite (write_accepted _ _ _ _ Hadd).
    eapply Hsend; [done | done | done | simpl; reflexivity | done].
Qed.

(** The four-argument task always writes a format: every change request
    that reaches the write submits a record with the [EMAIL_FORMAT_] field,
    the request's format upper-cased with [text] as ['T'] and [html] as
    ['H'], and ['H'] when the request supplies none. *)
Lemma update_user_sends_format data authed type optin (w : world) email :
  data !! "email" = Some email →
  NoDup (map sub_email (subscribers w)) →
  (∃ target record rest,
      calls w (update_user data authed type optin w).2
      = Tasks.AddRecord target record :: rest
      ∧ record !! "EMAIL_FORMAT_" = Some (format_of data))
  ∧ (data !! "format" = None → format_of data = "H").
Proof.
  intros Hdata Hnd. split; [| by unfold format_of; intros ->].
  destruct (prepare_returns data authed type optin w email Hdata Hnd)
    as (target & record & w1 & Hprepare).
  destruct (prepare_inv _ _ _ _ _ _ _ _ _ Hprepare)
    as (email' & token & _ & Hemail & Htoken & Hformat & _ & Hquiet & _).
  exists target, record.
  rewrite update_user_unfold, Hprepare.
  assert (∀ (w2 : world) (out : outcome ()) rest,
             trace w2 = trace w1 ++ Tasks.AddRecord target record :: rest →
             ∃ rest', calls w (out, w2).2 = Tasks.AddRecord target record :: rest')
    as Hfirst.
  { intros w2 out rest Htrace. simpl.
    erewrite calls_after_quiet; [| done | done]. simpl. by eauto. }
  assert (∀ welcome written (w2 : world) rest,
             written !! "EMAIL_ADDRESS_" = Some email' →
             written !! "TOKEN" = Some token →
             trace w2 = trace w1 ++ Tasks.AddRecord target record :: rest →
             ∃ rest', calls w (send_welcome welcome written w2).2
                      = Tasks.AddRecord target record :: rest') as Hsend.
  { intros welcome written w2 rest Hwe Hwt Htrace.
    destruct welcome as [send|]; [| by eapply (Hfirst w2 (Return ()))].
    destruct (truthy send) eqn:Htruthy.
    - rewrite (send_welcome_some send written w2 email' token) by done.
      eapply Hfirst. simpl. rewrite Htrace, <- app_assoc. reflexivity.
    - unfold Tasks.send_welcome, Tasks.try_except, Tasks.ret. rewrite Htruthy.
      by eapply (Hfirst w2 (Return ())). }
  enough (∃ rest, calls w
                    (match write target record w1 with
                     | (Return record, w2) => send_welcome
                                                (welcome_of data type) record w2
                     | (Raise e, w2) => (Raise e, w2)
                     end).2 = Tasks.AddRecord target record :: rest)
    as [rest Hrest] by eauto.
  destruct (add_record (remote w1) target record) as [et1 [e|]] eqn:Hadd.
  - destruct (Tasks.caught e) eqn:Hcaught.
    2:{ rewrite (write_rejected _ _ _ _ _ Hadd (or_introl Hcaught)).
        by eapply Hfirst. }
    destruct (decide (find (Tasks.message e) "CREATED_DATE_" = (-1)%Z))
      as [Hfind | Hfind].
    { rewrite (write_rejected _ _ _ _ _ Hadd (or_intror Hfind)).
      by eapply Hfirst. }
    destruct (add_record et1 target
                (<["CREATED_DATE_" := gmttime_at (clock w1)]> record))
      as [et2 r] eqn:Hagain.
    rewrite (write_resubmitted _ _ _ _ _ _ _ Hadd Hcaught Hfind Hagain).
    destruct r as [e2|]; [by eapply Hfirst |].
    eapply Hsend; [| | simpl; reflexivity]; by rewrite lookup_insert_ne.
  - rewrite (write_accepted _ _ _ _ Hadd). by eapply Hsend.
Qed.

End UpdateUser.

(** * The properties at concrete inputs *)

(** ** Resubscription *)

(** The four-argument task at a resubscription: the subscriber's remote
    row shows [mozilla-and-you] as ['Y'], and the record the task submits
    for a SUBSCRIBE to it carries the flag and a new date. *)
Example resubscribe_update_user :
  ∃ record,
    calls Demo.remote (Demo.world0 Demo.remote_ok [Demo.dude])
          (Demo.update_user Demo.resubscribe None Tasks.SUBSCRIBE true
                            (Demo.world0 Demo.remote_ok [Demo.dude])).2
    = [Tasks.AddRecord "Master_Subscribers" record]
    ∧ record !! "MOZILLA_AND_YOU_FLG" = Some "Y"
    ∧ record !! "MOZILLA_AND_YOU_DATE" = Some "2026-11-03".
Proof. eexists. split; [vm_compute; reflexivity |]. by split. Qed.

Lemma parse_newsletters_marks_named_witness :
  Demo.parse_newsletters "2026-11-03" ∅ Tasks.SET "mozilla-and-you"
  !! "MOZILLA_AND_YOU_FLG" = Some "Y"
  ∧ Demo.parse_newsletters "2026-11-03" ∅ Tasks.SET "mozilla-and-you"
    !! "MOZILLA_AND_YOU_DATE" = Some "2026-11-03".
Proof.
  apply (parse_newsletters_marks_named
           Demo.newsletter_field Demo.newsletter_names "2026-11-03" ∅
           Tasks.SET "mozilla-and-you" "mozilla-and-you" "MOZILLA_AND_YOU").
  - by right.
  - by left.
  - by split.
  - intros _ nl' Hin Hout [Hfield _].
    apply elem_of_cons in Hin as [-> | Hin]; [by destruct Hout; left |].
    apply list_elem_of_singleton in Hin as ->. discriminate.
Defined.

(** ** SET *)

Lemma parse_newsletters_set_complement_witness :
  (Demo.parse_newsletters "2026-11-03" ∅ Tasks.SET "mozilla-and-you"
   !! "ABOUT_MOBILE_FLG" = Some "N"
   ∧ Demo.parse_newsletters "2026-11-03" ∅ Tasks.SET "mozilla-and-you"
     !! "ABOUT_MOBILE_DATE" = Some "2026-11-03")
  ∧ (Demo.parse_newsletters "2026-11-03" ∅ Tasks.SET ""
     !! "MOZILLA_AND_YOU_FLG" = Some "N"
     ∧ Demo.parse_newsletters "2026-11-03" ∅ Tasks.SET ""
       !! "MOZILLA_AND_YOU_DATE" = Some "2026-11-03")
  ∧ Demo.parse_newsletters "2026-11-03" ∅ Tasks.SET ""
    !! ("ABOUT_MOBILE" +:+ "_FLG") ≠ Some "Y".
Proof.
  destruct (parse_newsletters_set_complement
              Demo.newsletter_field Demo.newsletter_names "2026-11-03" ∅)
    as [Hcomplement Hempty].
  split.
  - apply (Hcomplement "mozilla-and-you" "mobile" "ABOUT_MOBILE").
    + by right; left.
    + intros Hin. apply list_elem_of_singleton in Hin. discriminate.
    + by split.
  - destruct (Hempty eq_refl) as [Hall Hnone]. split.
    + apply (Hall ["mozilla-and-you"] "mozilla-and-you" "MOZILLA_AND_YOU").
      * intros nl Hin. apply list_elem_of_singleton in Hin as ->. by left.
      * by left.
      * by split.
    + assert (∀ name, (∅ : gmap string string) !! (name +:+ "_FLG") ≠ Some "Y")
        as Hfresh.
      { intros name. by rewrite lookup_empty. }
      exact (Hnone Hfresh "ABOUT_MOBILE").
Defined.

(** ** Format *)

Lemma update_user_sends_format_witness :
  (∃ target record rest,
      calls Demo.remote (Demo.world0 Demo.remote_ok [Demo.dude])
            (Demo.update_user Demo.resubscribe None Tasks.SUBSCRIBE true
                              (Demo.world0 Demo.remote_ok [Demo.dude])).2
      = Tasks.AddRecord target record :: rest
      ∧ record !! "EMAIL_FORMAT_" = Some (format_of Demo.resubscribe))
  ∧ format_of Demo.resubscribe = "H".
Proof.
  destruct (update_user_sends_format
              Demo.newsletter_field Demo.newsletter_names "Master_Subscribers"
              "Double_Opt_In" Demo.remote Demo.add_record Demo.trigger_send
              Demo.gmttime_at Demo.today_at Demo.uuid4_at ""
              Demo.resubscribe None Tasks.SUBSCRIBE true
              (Demo.world0 Demo.remote_ok [Demo.dude]) "dude@example.com")
    as [Hsent Hdefault].
  - reflexivity.
  - vm_compute. apply NoDup_cons. split; [apply not_elem_of_nil | apply NoDup_nil_2].
  - split; [exact Hsent | by apply Hdefault].
Defined.

(** ** Welcome *)

Lemma update_user_welcome_message_witness :
  welcome_of Demo.subscribe_text Tasks.SUBSCRIBE = Some "39"
  ∧ "T" = format_of Demo.subscribe_text
  ∧ Demo.subscribe_text !! "email" = Some "dude@example.com".
Proof.
  apply (update_user_welcome_message
           Demo.newsletter_field Demo.newsletter_names "Master_Subscribers"
           "Double_Opt_In" Demo.remote Demo.add_record Demo.trigger_send
           Demo.gmttime_at Demo.today_at Demo.uuid4_at ""
           Demo.subscribe_text None Tasks.SUBSCRIBE true
           (Demo.world0 Demo.remote_ok [Demo.dude])
           "39" "dude@example.com" "token" "T").
  vm_compute. apply list_elem_of_further, list_elem_of_here.
Defined.

(** ** Recovery *)

Lemma update_user_created_date_recovery_witness :
  (Demo.update_user Demo.resubscribe None Tasks.SUBSCRIBE true
                    (Demo.world0 Demo.remote_rejecting [Demo.dude])).1
  = Raise Demo.missing_created_date
  ∧ calls Demo.remote (Demo.world0 Demo.remote_rejecting [Demo.dude])
          (Demo.update_user Demo.resubscribe None Tasks.SUBSCRIBE true
             (Demo.world0 Demo.remote_rejecting [Demo.dude])).2
    = [Tasks.AddRecord "Master_Subscribers" (Demo.submitted "H");
       Tasks.AddRecord "Master_Subscribers" (Demo.resubmitted "H")].
Proof.
  destruct (update_user_created_date_recovery
              Demo.newsletter_field Demo.newsletter_names "Master_Subscribers"
              "Double_Opt_In" Demo.remote Demo.add_record Demo.trigger_send
              Demo.gmttime_at Demo.today_at Demo.uuid4_at ""
              Demo.resubscribe None Tasks.SUBSCRIBE true
              (Demo.world0 Demo.remote_rejecting [Demo.dude])
              (Tasks.mkWorld Demo.remote [Demo.dude] Demo.remote_rejecting [] 1)
              "Master_Subscribers" (Demo.submitted "H") None
              (Demo.mkRemote ∅ [Some Demo.missing_created_date] [])
              Demo.missing_created_date)
    as [Hresubmit _].
  - vm_compute. exact eq_refl.
  - vm_compute. exact eq_refl.
  - reflexivity.
  - destruct Hresubmit as [_ Hsecond].
    + vm_compute. discriminate.
    + destruct (Hsecond (Demo.mkRemote ∅ [] []) Demo.missing_created_date)
        as (Hout & Hcalls & _).
      * vm_compute. reflexivity.
      * split; [exact Hout | exact Hcalls].
Defined.

Lemma update_user_welcome_after_write_witness :
  calls Demo.remote (Demo.world0 Demo.remote_recovering [Demo.dude])
        (Demo.update_user Demo.subscribe_text None Tasks.SUBSCRIBE true
           (Demo.world0 Demo.remote_recovering [Demo.dude])).2
  = [Tasks.AddRecord "Master_Subscribers" (Demo.submitted "T");
     Tasks.AddRecord "Master_Subscribers" (Demo.resubmitted "T");
     Tasks.TriggerSend "39" "dude@example.com" "token" "T"]
  ∧ (Demo.update_user Demo.subscribe_text None Tasks.SUBSCRIBE true
       (Demo.world0 Demo.remote_recovering [Demo.dude])).1
    = Raise (NewsletterException "send failed").
Proof.
  destruct (update_user_welcome_after_write
              Demo.newsletter_field Demo.newsletter_names "Master_Subscribers"
              "Double_Opt_In" Demo.remote Demo.add_record Demo.trigger_send
              Demo.gmttime_at Demo.today_at Demo.uuid4_at ""
              Demo.subscribe_text None Tasks.SUBSCRIBE true
              (Demo.world0 Demo.remote_recovering [Demo.dude])
              (Tasks.mkWorld Demo.remote [Demo.dude] Demo.remote_recovering [] 1)
              "Master_Subscribers" (Demo.submitted "T") (Some "39")
              (Demo.mkRemote {["dude@example.com" := Demo.resubmitted "T"]} []
                             [Some (NewsletterException "send failed")])
              [Tasks.AddRecord "Master_Subscribers" (Demo.submitted "T");
               Tasks.AddRecord "Master_Subscribers" (Demo.resubmitted "T")]
              (Demo.resubmitted "T"))
    as (email & token & Hemail & Htoken & Hcalls & _ & Hout).
  - vm_compute. exact eq_refl.
  - right.
    exists (Demo.mkRemote ∅ [] [Some (NewsletterException "send failed")]),
           Demo.missing_created_date.
    split; [vm_compute; exact eq_refl |].
    split; [reflexivity |].
    split; [vm_compute; discriminate |].
    split; [reflexivity |].
    split; [vm_compute; exact eq_refl | reflexivity].
  - vm_compute in Hemail, Htoken.
    injection Hemail as <-. injection Htoken as <-.
    split; [exact Hcalls | exact Hout].
Defined.

(** ** Language codes *)

Lemma language_code_is_valid_spec_witness :
  Views.language_code_is_valid Demo.newsletter_languages (VStr "EN") = Return true
  ∧ Views.language_code_is_valid Demo.newsletter_languages (VStr "fr-CA")
    = Return true
  ∧ Views.language_code_is_valid Demo.newsletter_languages (VStr "eng")
    = Return false
  ∧ Views.language_code_is_valid Demo.newsletter_languages VNone
    = Raise (TypeError "Language code must be a string").
Proof.
  destruct (language_code_is_valid_spec Demo.newsletter_languages)
    as (_ & _ & Hprefix & Hother & Htype).
  split; [| split; [| split]].
  - apply Hprefix; [by left |]. exists "en-US". split; [by left | reflexivity].
  - apply Hprefix; [by right |]. exists "fr". split; [by right; left | reflexivity].
  - apply Hother; [done | |].
    + intros lang Hin Heq. vm_compute in Hin.
      repeat (apply elem_of_cons in Hin as [-> | Hin]; [discriminate |]).
      by apply elem_of_nil in Hin.
    + intros [[[=] | [=]] _].
  - by apply Htype.
Defined.

(** * Further properties *)

(** ** [parse_newsletters]: the three kinds of change *)

Section ParseNewslettersMore.
Variable newsletter_field : string → option string.
Variable newsletter_names : list string.

Local Abbreviation set_flag := (Tasks.set_flag newsletter_field).
Local Abbreviation parse_newsletters :=
  (Tasks.parse_newsletters newsletter_field newsletter_names).
Local Abbreviation has_field := (has_field newsletter_field).

(** [k] is the flag or the date column of a catalog newsletter of [l]. *)
Definition columns_of (l : list string) (k : string) : Prop :=
  ∃ nl name, nl ∈ l ∧ has_field nl name
             ∧ (k = name +:+ "_FLG" ∨ k = name +:+ "_DATE").

(** The names a SET change unsubscribes. *)
Definition unsubs (newsletters : string) : list string :=
  elements ((list_to_set newsletter_names : gset string)
            ∖ list_to_set (named newsletters)).

Lemma columns_of_cons x l k :
  columns_of (x :: l) k ↔ columns_of [x] k ∨ columns_of l k.
Proof.
  unfold columns_of. split.
  - intros (nl & name & [-> | Hin]%elem_of_cons & Hrest).
    + left. exists x, name. split; [by left | done].
    + right. by exists nl, name.
  - intros [(nl & name & Hin & Hrest) | (nl & name & Hin & Hrest)].
    + apply list_elem_of_singleton in Hin as ->. exists x, name.
      split; [by left | done].
    + exists nl, name. split; [by right | done].
Qed.

Lemma columns_of_app l l' k :
  columns_of (l ++ l') k ↔ columns_of l k ∨ columns_of l' k.
Proof.
  unfold columns_of. split.
  - intros (nl & name & [Hin | Hin]%elem_of_app & Hrest);
      [left | right]; by exists nl, name.
  - intros [(nl & name & Hin & Hrest) | (nl & name & Hin & Hrest)];
      exists nl, name; (split; [apply elem_of_app; by eauto | done]).
Qed.

(** A loop changes only columns of its own newsletters. *)
Lemma loop_cases flag today (l : list string) (record : gmap string string) k :
  foldl (set_flag flag today) record l !! k = record !! k ∨ columns_of l k.
Proof.
  revert record. induction l as [|x l IH]; intros record; [by left |].
  simpl. destruct (IH (set_flag flag today record x)) as [-> | Hcol].
  - destruct (set_flag_lookup newsletter_field flag today record x k)
      as [-> | (name & Hfield & Hkey)]; [by left |].
    right. exists x, name. split; [by left |]. split; [done |].
    destruct Hkey as [[-> _] | [-> _]]; by eauto.
  - right. apply columns_of_cons. by right.
Qed.

(** The result of a loop does not depend on what the record held under
    the columns of its newsletters. *)
Lemma loop_agree flag today (l : list string) (r r' : gmap string string) :
  (∀ k, r !! k = r' !! k ∨ columns_of l k) →
  foldl (set_flag flag today) r l = foldl (set_flag flag today) r' l.
Proof.
  revert r r'. induction l as [|x l IH]; intros r r' Hagree.
  { apply map_eq. intros k. destruct (Hagree k) as [? | (nl & ? & Hin & _)];
      [done | by apply elem_of_nil in Hin]. }
  simpl. apply IH. intros k.
  destruct (set_flag_lookup newsletter_field flag today r x k)
    as [Hr | (name & Hfield & Hkey)].
  - destruct (set_flag_lookup newsletter_field flag today r' x k)
      as [Hr' | (name' & Hfield' & Hkey')].
    + rewrite Hr, Hr'. destruct (Hagree k) as [? | Hcol]; [by left |].
      apply columns_of_cons in Hcol as [(nl & name & Hin & Hf & Hk) | ?];
        [| by right].
      apply list_elem_of_singleton in Hin as ->.
      destruct (set_flag_has_field newsletter_field flag today r x name Hf)
        as [Hflg Hdate].
      destruct (set_flag_has_field newsletter_field flag today r' x name Hf)
        as [Hflg' Hdate'].
      left. destruct Hk as [-> | ->]; congruence.
    + left.
      destruct Hfield' as [Hf' Ht'].
      destruct (set_flag_has_field newsletter_field flag today r x name'
                  (conj Hf' Ht')) as [Hflg Hdate].
      destruct Hkey' as [[-> ->] | [-> ->]]; done.
  - left.
    destruct (set_flag_has_field newsletter_field flag today r' x name Hfield)
      as [Hflg Hdate].
    destruct Hkey as [[-> ->] | [-> ->]]; done.
Qed.

Lemma parse_newsletters_unsubscribe_eq today (record : gmap string string)
      newsletters :
  parse_newsletters today record Tasks.UNSUBSCRIBE newsletters
  = foldl (set_flag "N" today) record (named newsletters).
Proof. reflexivity. Qed.

Lemma parse_newsletters_other_eq today (record : gmap string string) type
      newsletters :
  type ≠ Tasks.SUBSCRIBE → type ≠ Tasks.UNSUBSCRIBE → type ≠ Tasks.SET →
  parse_newsletters today record type newsletters = record.
Proof.
  intros H1 H2 H3. unfold Tasks.parse_newsletters.
  by rewrite !bool_decide_eq_false_2 by done.
Qed.

(** The value of [type] is one of the three constants, or none. *)
Lemma type_cases (type : Z) :
  type = Tasks.SUBSCRIBE ∨ type = Tasks.UNSUBSCRIBE ∨ type = Tasks.SET
  ∨ (type ≠ Tasks.SUBSCRIBE ∧ type ≠ Tasks.UNSUBSCRIBE ∧ type ≠ Tasks.SET).
Proof. unfold Tasks.SUBSCRIBE, Tasks.UNSUBSCRIBE, Tasks.SET. lia. Qed.

(** Whatever the type, a key changes only if it is a column of a named
    newsletter or, for SET, of a newsletter the change unsubscribes. *)
Lemma parse_newsletters_changes today (record : gmap string string) type
      newsletters k :
  parse_newsletters today record type newsletters !! k = record !! k
  ∨ columns_of (named newsletters) k
  ∨ (type = Tasks.SET ∧ columns_of (unsubs newsletters) k).
Proof.
  destruct (type_cases type) as [-> | [-> | [-> | (H1 & H2 & H3)]]].
  - rewrite parse_newsletters_subscribe.
    destruct (loop_cases "Y" today (named newsletters) record k); by eauto.
  - rewrite parse_newsletters_unsubscribe_eq.
    destruct (loop_cases "N" today (named newsletters) record k); by eauto.
  - rewrite parse_newsletters_set. fold (unsubs newsletters).
    destruct (loop_cases "N" today (unsubs newsletters)
                (foldl (set_flag "Y" today) record (named newsletters)) k)
      as [-> | ?]; [| by eauto].
    destruct (loop_cases "Y" today (named newsletters) record k); by eauto.
  - left. by rewrite parse_newsletters_other_eq.
Qed.

Lemma parse_newsletters_catalog_columns today (record : gmap string string)
      type newsletters k :
  parse_newsletters today record type newsletters !! k = record !! k
  ∨ columns_of (named newsletters ++ newsletter_names) k.
Proof.
  destruct (parse_newsletters_changes today record type newsletters k)
    as [? | [Hcol | [_ Hcol]]]; [by left | |].
  - right. apply columns_of_app. by left.
  - right. apply columns_of_app. right.
    destruct Hcol as (nl & name & Hin & Hrest). exists nl, name.
    split; [| done]. by apply elem_of_unsubs in Hin as [? _].
Qed.

(** X1.  An UNSUBSCRIBE change stores ['N'] and the date for every
    catalog newsletter named in it, and leaves every other key of the
    record as it was, the columns of the other newsletters included. *)
Theorem parse_newsletters_unsubscribe today (record : gmap string string)
        newsletters :
  (∀ nl name,
      nl ∈ named newsletters → has_field nl name →
      parse_newsletters today record Tasks.UNSUBSCRIBE newsletters
      !! (name +:+ "_FLG") = Some "N"
      ∧ parse_newsletters today record Tasks.UNSUBSCRIBE newsletters
        !! (name +:+ "_DATE") = Some today)
  ∧ (∀ k, ¬ columns_of (named newsletters) k →
          parse_newsletters today record Tasks.UNSUBSCRIBE newsletters !! k
          = record !! k).
Proof.
  rewrite parse_newsletters_unsubscribe_eq. split.
  - intros nl name Hin Hfield. by eapply loop_sets.
  - intros k Hcol.
    by destruct (loop_cases "N" today (named newsletters) record k).
Qed.

(** X2.  Applying the same change twice on the same day gives the record
    of applying it once. *)
Theorem parse_newsletters_idempotent today (record : gmap string string) type
        newsletters :
  parse_newsletters today (parse_newsletters today record type newsletters)
                    type newsletters
  = parse_newsletters today record type newsletters.
Proof.
  destruct (type_cases type) as [-> | [-> | [-> | (H1 & H2 & H3)]]].
  - rewrite !parse_newsletters_subscribe. apply loop_agree. intros k.
    apply loop_cases.
  - rewrite !parse_newsletters_unsubscribe_eq. apply loop_agree. intros k.
    apply loop_cases.
  - rewrite !parse_newsletters_set. fold (unsubs newsletters).
    apply loop_agree. intros k.
    set (once := foldl (set_flag "N" today)
                       (foldl (set_flag "Y" today) record (named newsletters))
                       (unsubs newsletters)).
    destruct (loop_cases "Y" today (named newsletters) once k)
      as [-> | (nl & name & Hin & Hfield & Hkey)].
    + apply loop_cases.
    + left.
      destruct (loop_sets newsletter_field "Y" today (named newsletters) once
                          nl name Hin Hfield) as [Hflg Hdate].
      destruct (loop_sets newsletter_field "Y" today (named newsletters) record
                          nl name Hin Hfield) as [Hflg' Hdate'].
      destruct Hkey as [-> | ->]; congruence.
  - by rewrite !parse_newsletters_other_eq.
Qed.

(** X3.  [parse_newsletters] changes nothing but columns of catalog
    newsletters that are named in the change or, for SET, listed in the
    catalog; a change that names only unknown newsletters leaves the
    record of a SUBSCRIBE or an UNSUBSCRIBE untouched, and so does a type
    that is none of the three constants. *)
Theorem parse_newsletters_frame today (record : gmap string string) type
        newsletters :
  (∀ k, parse_newsletters today record type newsletters !! k = record !! k
        ∨ columns_of (named newsletters ++ newsletter_names) k)
  ∧ ((∀ nl, nl ∈ named newsletters → newsletter_field nl = None) →
     type ≠ Tasks.SET →
     parse_newsletters today record type newsletters = record)
  ∧ (type ≠ Tasks.SUBSCRIBE → type ≠ Tasks.UNSUBSCRIBE → type ≠ Tasks.SET →
     parse_newsletters today record type newsletters = record).
Proof.
  split; [| split].
  - apply parse_newsletters_catalog_columns.
  - intros Hunknown Hset. apply map_eq. intros k.
    destruct (parse_newsletters_changes today record type newsletters k)
      as [? | [(nl & name & Hin & [Hf _] & _) | [? _]]]; [done | | done].
    rewrite (Hunknown nl Hin) in Hf. discriminate.
  - apply parse_newsletters_other_eq.
Qed.

End ParseNewslettersMore.

(** ** [update_user]: the record, the local table and the calls *)

Section UpdateUserMore.
Variable newsletter_field : string → option string.
Variable newsletter_names : list string.
Variable EXACTTARGET_DATA : string.
Variable EXACTTARGET_OPTIN_STAGE : string.
Variable ET : Type.
Variable add_record : ET → string → gmap string string → ET * option exn.
Variable trigger_send : ET → string → string → string → string → ET * option exn.
Variable gmttime_at : nat → string.
Variable today_at : nat → string.
Variable uuid4_at : nat → string.
Variable default_token : string.

Local Abbreviation world := (Tasks.world ET).
Local Abbreviation mkWorld := (Tasks.mkWorld ET).
Local Abbreviation subscribers := (Tasks.subscribers ET).
Local Abbreviation remote := (Tasks.remote ET).
Local Abbreviation trace := (Tasks.trace ET).
Local Abbreviation clock := (Tasks.clock ET).
Local Abbreviation parse_newsletters :=
  (Tasks.parse_newsletters newsletter_field newsletter_names).
Local Abbreviation prepare :=
  (Tasks.prepare newsletter_field newsletter_names EXACTTARGET_DATA
                 EXACTTARGET_OPTIN_STAGE ET gmttime_at today_at uuid4_at
                 default_token).
Local Abbreviation write := (Tasks.write ET add_record gmttime_at).
Local Abbreviation send_welcome := (Tasks.send_welcome ET trigger_send).
Local Abbreviation update_user :=
  (Tasks.update_user newsletter_field newsletter_names EXACTTARGET_DATA
                     EXACTTARGET_OPTIN_STAGE ET add_record trigger_send
                     gmttime_at today_at uuid4_at default_token).
Local Abbreviation calls := (calls ET).

(** The record after [parse_newsletters], for a request with an address. *)
Definition parsed_record (data : gmap string string) (type : Z) (w : world)
           (email : string) : gmap string string :=
  parse_newsletters (today_at (clock w)) (Tasks.initial_record data email) type
                    (default "" (data !! "newsletters")).

(** The change goes to the double opt-in data extension. *)
Definition double_optin (data : gmap string string) (type : Z) : bool :=
  bool_decide (is_Some (data !! "lang" ≫= (Tasks.CONFIRM_SENDS !!.)))
  && bool_decide (type = Tasks.SUBSCRIBE).

(** [prepare], step by step, for a request with an address whose row the
    local table finds or creates. *)
Lemma prepare_run data authed type optin (w : world) email sub created db :
  data !! "email" = Some email →
  objects_get_or_create default_token email (subscribers w)
  = (Return (sub, created), db) →
  let parsed := parsed_record data type w email in
  let token := if created then uuid4_at (clock w) else sub_token sub in
  let tokened :=
    if created
    then <["CREATED_DATE_" := gmttime_at (S (clock w))]>
           (<["TOKEN" := token]> parsed)
    else <["TOKEN" := token]> parsed in
  let now := if created then S (S (clock w)) else clock w in
  let dated := <["MODIFIED_DATE_" := gmttime_at now]> tokened in
  prepare data authed type optin w
  = (Return (if double_optin data type
             then EXACTTARGET_OPTIN_STAGE else EXACTTARGET_DATA,
             if double_optin data type
             then <["EmailAddress" := email]> (<["SubscriberKey" := token]> dated)
             else dated,
             welcome_of data type),
     mkWorld (if created then save_token (sub_email sub) token db else db)
             (remote w) (trace w) (S now)).
Proof.
  intros Hdata Hrow parsed token tokened now dated.
  assert (parsed !! "EMAIL_ADDRESS_" = Some email) as Hpe.
  { unfold parsed, parsed_record.
    rewrite parse_newsletters_fixed_key by (by split).
    apply initial_record_email. }
  assert (parsed !! "LANGUAGE_ISO2" = data !! "lang") as Hpl.
  { unfold parsed, parsed_record.
    rewrite parse_newsletters_fixed_key by (by split).
    apply initial_record_lang. }
  unfold Tasks.prepare, Tasks.bind at 1. rewrite Hdata.
  rewrite bool_decide_eq_true_2 by eauto. rewrite andb_false_r.
  unfold Tasks.ret at 1, Tasks.bind at 1, Tasks.getitem at 1. rewrite Hdata.
  unfold Tasks.ret at 1, Tasks.bind at 1, Tasks.today at 1.
  fold (parsed_record data type w email). fold parsed.
  unfold Tasks.bind at 1, Tasks.add_token, Tasks.bind at 1, Tasks.getitem at 1.
  rewrite Hpe.
  unfold Tasks.ret at 1, Tasks.bind at 1, Tasks.get_or_create. rewrite Hrow.
  assert (dated !! "LANGUAGE_ISO2" = data !! "lang") as Hlang.
  { unfold dated, tokened. destruct created;
      rewrite !lookup_insert_ne by done; exact Hpl. }
  assert (dated !! "TOKEN" = Some token) as Htoken.
  { unfold dated, tokened. destruct created;
      rewrite !lookup_insert_ne by done; apply lookup_insert_eq. }
  assert ((<["SubscriberKey" := token]> dated) !! "EMAIL_ADDRESS_" = Some email)
    as Hemail.
  { unfold dated, tokened. destruct created;
      rewrite !lookup_insert_ne by done; exact Hpe. }
  assert (∀ w0 : world,
             Tasks.choose_target EXACTTARGET_DATA EXACTTARGET_OPTIN_STAGE ET
                                 data type dated w0
             = (Return (if double_optin data type
                        then EXACTTARGET_OPTIN_STAGE else EXACTTARGET_DATA,
                        if double_optin data type
                        then <["EmailAddress" := email]>
                               (<["SubscriberKey" := token]> dated)
                        else dated,
                        welcome_of data type), w0)) as Hchoose.
  { intros w0. unfold Tasks.choose_target, welcome_of, double_optin.
    rewrite Hlang. destruct (bool_decide _ && bool_decide _).
    - unfold Tasks.bind, Tasks.getitem, Tasks.ret. by rewrite Htoken, Hemail.
    - by destruct (bool_decide (data !! "trigger_welcome" = Some "Y")). }
  destruct created.
  - unfold Tasks.bind, Tasks.uuid4, Tasks.gmttime, Tasks.save, Tasks.ret.
    simpl. apply Hchoose.
  - unfold Tasks.bind, Tasks.gmttime, Tasks.ret. simpl. apply Hchoose.
Qed.

(** The keys [initial_record] can hold. *)
Definition request_keys : list string :=
  ["EMAIL_ADDRESS_"; "EMAIL_PERMISSION_STATUS_"; "COUNTRY_"; "LANGUAGE_ISO2";
   "SOURCE_URL"; "EMAIL_FORMAT_"].

Lemma initial_record_lookup data email k :
  Tasks.initial_record data email !! k
  = if decide (k = "EMAIL_FORMAT_") then Some (format_of data)
    else if decide (k = "SOURCE_URL") then data !! "source_url"
    else if decide (k = "LANGUAGE_ISO2") then data !! "lang"
    else if decide (k = "COUNTRY_") then data !! "country"
    else if decide (k = "EMAIL_PERMISSION_STATUS_") then Some "I"
    else if decide (k = "EMAIL_ADDRESS_") then Some email
    else None.
Proof.
  unfold Tasks.initial_record, format_of. simpl.
  repeat case_decide; subst;
    destruct (data !! "country"), (data !! "lang"), (data !! "source_url");
    by simplify_map_eq.
Qed.

Lemma initial_record_keys data email k :
  is_Some (Tasks.initial_record data email !! k) → k ∈ request_keys.
Proof.
  rewrite initial_record_lookup. unfold request_keys.
  repeat case_decide; subst; intros Hsome;
    rewrite ?elem_of_cons; try tauto.
  by destruct Hsome.
Qed.

(** Once [prepare] has returned, the task makes one write or two, then at
    most one send, and leaves the local table as [prepare] left it. *)
Lemma update_user_after_prepare
      data authed type optin (w w1 : world) target record welcome :
  prepare data authed type optin w = (Return (target, record, welcome), w1) →
  let run := update_user data authed type optin w in
  ∃ writes sends,
    calls w run.2 = writes ++ sends
    ∧ subscribers run.2 = subscribers w1
    ∧ (writes = [Tasks.AddRecord target record]
       ∨ writes = [Tasks.AddRecord target record;
                   Tasks.AddRecord target
                     (<["CREATED_DATE_" := gmttime_at (clock w1)]> record)])
    ∧ (sends = []
       ∨ ∃ send email token format,
           welcome = Some send
           ∧ sends = [Tasks.TriggerSend send email token format]).
Proof.
  intros Hprepare run.
  destruct (prepare_inv _ _ _ _ _ _ _ _ _ _ _ _ _ _ _ _ _ _ Hprepare)
    as (email & token & Hdata & Hemail & Htoken & Hformat & -> & Hquiet & _).
  unfold run.
  rewrite (update_user_unfold newsletter_field newsletter_names EXACTTARGET_DATA
             EXACTTARGET_OPTIN_STAGE ET add_record trigger_send gmttime_at
             today_at uuid4_at default_token), Hprepare.
  assert (∀ written (w2 : world) writes,
             written !! "EMAIL_ADDRESS_" = Some email →
             written !! "TOKEN" = Some token →
             trace w2 = trace w1 ++ writes →
             List.filter (is_remote) writes = writes →
             subscribers w2 = subscribers w1 →
             ∃ sends,
               calls w (send_welcome (welcome_of data type) written w2).2
               = writes ++ sends
               ∧ subscribers (send_welcome (welcome_of data type) written w2).2
                 = subscribers w1
               ∧ (sends = []
                  ∨ ∃ send email token format,
                      welcome_of data type = Some send
                      ∧ sends = [Tasks.TriggerSend send email token format]))
    as Hsend.
  { intros written w2 writes Hwe Hwt Htrace Hwrites Hsubs.
    destruct (welcome_of data type) as [send|] eqn:Hwelcome.
    - rewrite (send_welcome_some ET trigger_send send written w2 email token);
        [| by eapply welcome_of_truthy | done | done].
      eexists. split; [| split; [done | right; by eauto 10]]. simpl.
      erewrite calls_after_quiet; [| done | by rewrite Htrace, <- app_assoc].
      by rewrite List.filter_app, Hwrites.
    - rewrite send_welcome_none. exists []. rewrite app_nil_r.
      split; [| by eauto].
      erewrite calls_after_quiet; [| done | done]. done. }
  assert (∀ (w2 : world) e writes,
             trace w2 = trace w1 ++ writes →
             List.filter (is_remote) writes = writes →
             calls w (@Raise () e, w2).2 = writes ++ []) as Hraise.
  { intros w2 e writes Htrace Hwrites. simpl. rewrite app_nil_r.
    erewrite calls_after_quiet; [| done | done]. done. }
  destruct (add_record (remote w1) target record) as [et1 [e|]] eqn:Hadd.
  - destruct (Tasks.caught e) eqn:Hcaught.
    2:{ rewrite (write_rejected ET add_record gmttime_at _ _ _ _ _ Hadd
                                (or_introl Hcaught)).
        eexists _, []. split; [by eapply Hraise |]. by eauto. }
    destruct (decide (find (Tasks.message e) "CREATED_DATE_" = (-1)%Z))
      as [Hfind | Hfind].
    { rewrite (write_rejected ET add_record gmttime_at _ _ _ _ _ Hadd
                              (or_intror Hfind)).
      eexists _, []. split; [by eapply Hraise |]. by eauto. }
    destruct (add_record et1 target
                (<["CREATED_DATE_" := gmttime_at (clock w1)]> record))
      as [et2 r] eqn:Hagain.
    rewrite (write_resubmitted ET add_record gmttime_at _ _ _ _ _ _ _
                               Hadd Hcaught Hfind Hagain).
    destruct r as [e2|].
    + eexists _, []. split; [by eapply Hraise |]. by eauto.
    + lazymatch goal with
      | |- context [send_welcome _ ?written ?w2] =>
          destruct (Hsend written w2
                      [Tasks.AddRecord target record;
                       Tasks.AddRecord target written])
            as (sends & Hcalls & Hsubs & Hshape);
            [by rewrite lookup_insert_ne | by rewrite lookup_insert_ne
            | done | done | done |]
      end.
      eexists _, sends. by eauto.
  - rewrite (write_accepted ET add_record gmttime_at _ _ _ _ Hadd).
    lazymatch goal with
    | |- context [send_welcome _ ?written ?w2] =>
        destruct (Hsend written w2 [Tasks.AddRecord target record])
          as (sends & Hcalls & Hsubs & Hshape); [done..|]
    end.
    eexists _, sends. by eauto.
Qed.

(** X4.  A request without an e-mail address fails with [KeyError] before
    any remote call and without touching the local table; the missing
    address is logged only when no authenticated address was passed
    either. *)
Theorem update_user_without_email data authed type optin (w : world) :
  data !! "email" = None →
  update_user data authed type optin w
  = (Raise (KeyError "email"),
     mkWorld (subscribers w) (remote w)
             (trace w ++ (if truthy_opt authed then []
                          else [Tasks.LogError "No user or email provided"]))
             (clock w))
  ∧ calls w (update_user data authed type optin w).2 = [].
Proof.
  intros Hdata.
  assert (update_user data authed type optin w
          = (Raise (KeyError "email"),
             mkWorld (subscribers w) (remote w)
               (trace w ++ (if truthy_opt authed then []
                            else [Tasks.LogError "No user or email provided"]))
               (clock w))) as Hrun.
  { unfold Tasks.update_user, Tasks.prepare, Tasks.bind, Tasks.getitem,
      Tasks.emit, Tasks.ret, Tasks.raise.
    rewrite Hdata. rewrite bool_decide_eq_false_2 by (by intros [? ?]). simpl.
    rewrite andb_true_r.
    destruct (truthy_opt authed); simpl; [| done].
    rewrite app_nil_r. by destruct w. }
  split; [done |]. rewrite Hrun. simpl.
  erewrite calls_app; [| reflexivity]. by destruct (truthy_opt authed).
Qed.

(** The remote calls one run can make. *)
Inductive call_shape : list Tasks.event → Prop :=
| no_call : call_shape []
| one_write target record :
    call_shape [Tasks.AddRecord target record]
| two_writes target record now :
    call_shape [Tasks.AddRecord target record;
                Tasks.AddRecord target (<["CREATED_DATE_" := now]> record)]
| write_send target record send email token format :
    call_shape [Tasks.AddRecord target record;
                Tasks.TriggerSend send email token format]
| two_writes_send target record now send email token format :
    call_shape [Tasks.AddRecord target record;
                Tasks.AddRecord target (<["CREATED_DATE_" := now]> record);
                Tasks.TriggerSend send email token format].

(** X5.  Whatever the request and whatever the remote service answers,
    one run makes no call, or one write, or a write and its resubmission
    with [CREATED_DATE_] added to the same target, followed by at most one
    send: never a third write, never a second send, never a send before
    or without a write. *)
Theorem update_user_call_shape data authed type optin (w : world) :
  call_shape (calls w (update_user data authed type optin w).2).
Proof.
  destruct (prepare data authed type optin w)
    as [[[[target record] welcome]|e] w1] eqn:Hprepare.
  - destruct (update_user_after_prepare _ _ _ _ _ _ _ _ _ Hprepare)
      as (writes & sends & -> & _ & [-> | ->] & [-> | (s & e & k & f & _ & ->)]);
      constructor.
  - rewrite (update_user_unfold newsletter_field newsletter_names
               EXACTTARGET_DATA EXACTTARGET_OPTIN_STAGE ET add_record
               trigger_send gmttime_at today_at uuid4_at default_token),
      Hprepare.
    apply prepare_quiet in Hprepare. simpl.
    erewrite calls_after_quiet; [| done | by rewrite app_nil_r]. constructor.
Qed.

(** *** The first write *)

Lemma save_token_absent (email token : string) (db : list Subscriber) :
  email ∉ map sub_email db → save_token email token db = db.
Proof.
  induction db as [|s db IH]; [done |]. simpl. intros Hnot.
  destruct (String.eqb_spec (sub_email s) email) as [Heq | Hne].
  - exfalso. apply Hnot. rewrite Heq. left.
  - f_equal. apply IH. intros Hin. apply Hnot. by right.
Qed.

(** What the local table answers for the address of a request, when it
    holds at most one row per address. *)
Lemma get_or_create_cases (email : string) (db : list Subscriber) :
  NoDup (map sub_email db) →
  ((email ∉ map sub_email db)
   ∧ objects_get_or_create default_token email db
     = (Return (mkSubscriber email default_token, true),
        db ++ [mkSubscriber email default_token]))
  ∨ (∃ token,
        (mkSubscriber email token ∈ db)
        ∧ objects_get None (Some email) db = Return (mkSubscriber email token)
        ∧ objects_get_or_create default_token email db
          = (Return (mkSubscriber email token, false), db)).
Proof.
  intros Hnd. unfold objects_get_or_create, objects_get.
  destruct (filter_email_unique email db Hnd) as [Hnil | (s & Hone & Hs)].
  - left. rewrite Hnil. split; [by apply filter_email_none | done].
  - right. rewrite Hone. destruct s as [e token]. simpl in Hs. subst e.
    exists token. split; [| done].
    assert (In (mkSubscriber email token)
               (List.filter (matches None (Some email)) db)) as Hin.
    { rewrite Hone. by left. }
    apply filter_In in Hin as [Hin _]. by apply list_elem_of_In.
Qed.

(** The run of the task for a request with an address, on a local table
    with one row per address: the first call is the write of the record
    [prepare] built, and the table is left as [prepare] left it. *)
Lemma update_user_first_write data authed type optin (w : world) email :
  data !! "email" = Some email →
  NoDup (map sub_email (subscribers w)) →
  let run := update_user data authed type optin w in
  ∃ (created : bool) token rest,
    let parsed := parsed_record data type w email in
    let tokened :=
      if created
      then <["CREATED_DATE_" := gmttime_at (S (clock w))]>
             (<["TOKEN" := token]> parsed)
      else <["TOKEN" := token]> parsed in
    let now := if created then S (S (clock w)) else clock w in
    let dated := <["MODIFIED_DATE_" := gmttime_at now]> tokened in
    calls w run.2
    = Tasks.AddRecord
        (if double_optin data type
         then EXACTTARGET_OPTIN_STAGE else EXACTTARGET_DATA)
        (if double_optin data type
         then <["EmailAddress" := email]> (<["SubscriberKey" := token]> dated)
         else dated) :: rest
    ∧ (if created
       then (email ∉ map sub_email (subscribers w))
            ∧ token = uuid4_at (clock w)
            ∧ subscribers run.2 = subscribers w ++ [mkSubscriber email token]
       else (mkSubscriber email token ∈ subscribers w)
            ∧ objects_get None (Some email) (subscribers w)
              = Return (mkSubscriber email token)
            ∧ subscribers run.2 = subscribers w).
Proof.
  intros Hdata Hnd run.
  destruct (get_or_create_cases email (subscribers w) Hnd)
    as [[Hnew Hrow] | (token & Hin & Hget & Hrow)].
  - pose proof (prepare_run data authed type optin w email _ _ _ Hdata Hrow)
      as Hprepare. cbv zeta in Hprepare.
    destruct (update_user_after_prepare _ _ _ _ _ _ _ _ _ Hprepare)
      as (writes & sends & Hcalls & Hsubs & Hwrites & _).
    exists true, (uuid4_at (clock w)). cbv zeta.
    fold run in Hcalls. rewrite Hcalls.
    assert (∃ rest, writes ++ sends
                    = Tasks.AddRecord
                        (if double_optin data type
                         then EXACTTARGET_OPTIN_STAGE else EXACTTARGET_DATA)
                        (if double_optin data type
                         then <["EmailAddress" := email]>
                                (<["SubscriberKey" := uuid4_at (clock w)]>
                                   (<["MODIFIED_DATE_" :=
                                        gmttime_at (S (S (clock w)))]>
                                      (<["CREATED_DATE_" :=
                                           gmttime_at (S (clock w))]>
                                         (<["TOKEN" := uuid4_at (clock w)]>
                                            (parsed_record data type w email)))))
                         else <["MODIFIED_DATE_" := gmttime_at (S (S (clock w)))]>
                                (<["CREATED_DATE_" := gmttime_at (S (clock w))]>
                                   (<["TOKEN" := uuid4_at (clock w)]>
                                      (parsed_record data type w email))))
                      :: rest) as [rest ->].
    { destruct Hwrites as [-> | ->]; by eexists. }
    exists rest. split; [done |].
    split; [done |]. split; [done |]. fold run in Hsubs. rewrite Hsubs.
      simpl. unfold save_token. rewrite map_app. simpl.
      rewrite String.eqb_refl. f_equal.
      by apply (save_token_absent email).
  - pose proof (prepare_run data authed type optin w email _ _ _ Hdata Hrow)
      as Hprepare. cbv zeta in Hprepare.
    destruct (update_user_after_prepare _ _ _ _ _ _ _ _ _ Hprepare)
      as (writes & sends & Hcalls & Hsubs & Hwrites & _).
    exists false, token. cbv zeta.
    fold run in Hcalls, Hsubs. rewrite Hcalls, Hsubs.
    destruct Hwrites as [-> | ->]; by eexists.
Qed.

(** The double opt-in languages. *)
Definition confirm_languages : list string :=
  ["es"; "es-ES"; "de"; "fr"; "pt"; "pt-BR"].

Lemma double_optin_iff data type :
  double_optin data type = true
  ↔ type = Tasks.SUBSCRIBE
    ∧ ∃ lang, data !! "lang" = Some lang ∧ lang ∈ confirm_languages.
Proof.
  unfold double_optin.
  rewrite andb_true_iff, !bool_decide_eq_true. split.
  - intros [[send Hsend] ->]. split; [done |].
    destruct (data !! "lang") as [lang|]; [| done]. simpl in Hsend.
    exists lang. split; [done |].
    apply elem_of_list_to_map_2 in Hsend.
    apply (list_elem_of_fmap_2 fst) in Hsend. exact Hsend.
  - intros [-> (lang & -> & Hin)]. split; [| done]. simpl.
    destruct (Tasks.CONFIRM_SENDS !! lang) eqn:Hnone; [by eexists |].
    apply not_elem_of_list_to_map_2 in Hnone. by destruct Hnone.
Qed.

(** X6.  The first write goes to the double opt-in data extension, with
    [SubscriberKey] set to the token and [EmailAddress] set to the address,
    exactly when the change is a SUBSCRIBE in one of the six double opt-in
    languages; every other change goes to the master data extension and
    carries neither field. *)
Theorem update_user_target data authed type optin (w : world) email :
  data !! "email" = Some email →
  NoDup (map sub_email (subscribers w)) →
  ∃ target record rest,
    calls w (update_user data authed type optin w).2
    = Tasks.AddRecord target record :: rest
    ∧ ((type = Tasks.SUBSCRIBE
        ∧ (∃ lang, data !! "lang" = Some lang ∧ lang ∈ confirm_languages)
        ∧ target = EXACTTARGET_OPTIN_STAGE
        ∧ is_Some (record !! "TOKEN")
        ∧ record !! "SubscriberKey" = record !! "TOKEN"
        ∧ record !! "EmailAddress" = Some email)
       ∨ (¬ (type = Tasks.SUBSCRIBE
             ∧ ∃ lang, data !! "lang" = Some lang ∧ lang ∈ confirm_languages)
          ∧ target = EXACTTARGET_DATA
          ∧ record !! "SubscriberKey" = None
          ∧ record !! "EmailAddress" = None)).
Proof.
  intros Hdata Hnd.
  destruct (update_user_first_write data authed type optin w email Hdata Hnd)
    as (created & token & rest & Hcalls & _).
  eexists _, _, rest. split; [exact Hcalls |].
  assert (∀ k, fixed_key k → k ∉ request_keys →
               parsed_record data type w email !! k = None) as Hparsed.
  { intros k Hfixed Hk. unfold parsed_record.
    rewrite parse_newsletters_fixed_key by done.
    destruct (Tasks.initial_record data email !! k) eqn:Hsome; [| done].
    destruct Hk. apply (initial_record_keys data email). by eexists. }
  destruct (double_optin data type) eqn:Hoptin.
  - left. apply double_optin_iff in Hoptin as [-> Hlang].
    split; [done |]. split; [done |]. split; [done |].
    clear Hparsed Hcalls.
    destruct created; simplify_map_eq; by eauto.
  - right. split.
    { intros Hyes%double_optin_iff. congruence. }
    split; [done |].
    rewrite !(lookup_insert_ne _ "MODIFIED_DATE_") by done.
    destruct created.
    + rewrite !(lookup_insert_ne _ "CREATED_DATE_") by done.
      rewrite !(lookup_insert_ne _ "TOKEN") by done.
      split; apply Hparsed; (done || compute_done).
    + rewrite !(lookup_insert_ne _ "TOKEN") by done.
      split; apply Hparsed; (done || compute_done).
Qed.

(** X7.  The token the task submits is the token of the local row of the
    address.  A known address keeps its row and its token, and the record
    carries no [CREATED_DATE_]; an unknown address gets a row with a fresh
    token, and the record carries [CREATED_DATE_].  The local table keeps
    one row per address. *)
Theorem update_user_token data authed type optin (w : world) email :
  data !! "email" = Some email →
  NoDup (map sub_email (subscribers w)) →
  let run := update_user data authed type optin w in
  ∃ target record rest token,
    calls w run.2 = Tasks.AddRecord target record :: rest
    ∧ record !! "TOKEN" = Some token
    ∧ objects_get None (Some email) (subscribers run.2)
      = Return (mkSubscriber email token)
    ∧ NoDup (map sub_email (subscribers run.2))
    ∧ ((mkSubscriber email token ∈ subscribers w
        ∧ subscribers run.2 = subscribers w
        ∧ record !! "CREATED_DATE_" = None)
       ∨ ((email ∉ map sub_email (subscribers w))
          ∧ token = uuid4_at (clock w)
          ∧ subscribers run.2 = subscribers w ++ [mkSubscriber email token]
          ∧ is_Some (record !! "CREATED_DATE_"))).
Proof.
  intros Hdata Hnd run.
  destruct (update_user_first_write data authed type optin w email Hdata Hnd)
    as (created & token & rest & Hcalls & Htable).
  fold run in Hcalls, Htable.
  eexists _, _, rest, token. split; [exact Hcalls |].
  assert (parsed_record data type w email !! "CREATED_DATE_" = None) as Hparsed.
  { unfold parsed_record. rewrite parse_newsletters_fixed_key by (by split).
    by rewrite initial_record_lookup. }
  destruct created.
  - destruct Htable as (Hnew & -> & Hsubs). rewrite Hsubs.
    split; [by destruct (double_optin data type); simplify_map_eq |].
    split.
    { unfold objects_get. rewrite (filter_email_app email); [done | | done].
      by apply filter_email_absent. }
    split.
    { rewrite map_app. simpl. apply NoDup_app. split; [done |].
      split; [| apply NoDup_singleton].
      intros e He Hin. apply list_elem_of_singleton in Hin as ->. done. }
    right. split; [done |]. split; [done |]. split; [done |].
    destruct (double_optin data type); simplify_map_eq; by eexists.
  - destruct Htable as (Hin & Hget & Hsubs). rewrite Hsubs.
    split; [by destruct (double_optin data type); simplify_map_eq |].
    split; [done |]. split; [done |].
    left. split; [done |]. split; [done |].
    destruct (double_optin data type); by simplify_map_eq.
Qed.

(** The keys a submitted record can hold besides newsletter columns. *)
Definition record_keys : list string :=
  request_keys ++ late_keys.

(** X8.  The first record submitted always carries the address, the
    permission status ['I'], the token and [MODIFIED_DATE_]; it carries the
    country, the language and the source URL exactly as the request has
    them; and it has no other key but the format, [CREATED_DATE_], the two
    double opt-in keys and columns of catalog newsletters: no other field
    of the request reaches the remote service. *)
Theorem update_user_record_fields data authed type optin (w : world) email :
  data !! "email" = Some email →
  NoDup (map sub_email (subscribers w)) →
  ∃ target record rest,
    calls w (update_user data authed type optin w).2
    = Tasks.AddRecord target record :: rest
    ∧ record !! "EMAIL_ADDRESS_" = Some email
    ∧ record !! "EMAIL_PERMISSION_STATUS_" = Some "I"
    ∧ is_Some (record !! "TOKEN")
    ∧ is_Some (record !! "MODIFIED_DATE_")
    ∧ record !! "COUNTRY_" = data !! "country"
    ∧ record !! "LANGUAGE_ISO2" = data !! "lang"
    ∧ record !! "SOURCE_URL" = data !! "source_url"
    ∧ ∀ k, is_Some (record !! k) →
           k ∈ record_keys
           ∨ columns_of newsletter_field
               (named (default "" (data !! "newsletters")) ++ newsletter_names) k.
Proof.
  intros Hdata Hnd.
  destruct (update_user_first_write data authed type optin w email Hdata Hnd)
    as (created & token & rest & Hcalls & _).
  eexists _, _, rest. split; [exact Hcalls |].
  set (parsed := parsed_record data type w email).
  assert (∀ k, fixed_key k →
               parsed !! k = Tasks.initial_record data email !! k) as Hfixed.
  { intros k Hk. unfold parsed, parsed_record.
    by rewrite parse_newsletters_fixed_key. }
  assert (∀ k v, fixed_key k → k ∉ late_keys →
                 Tasks.initial_record data email !! k = v →
                 (if double_optin data type
                  then <["EmailAddress" := email]>
                         (<["SubscriberKey" := token]>
                            (<["MODIFIED_DATE_" :=
                                 gmttime_at (if created then S (S (clock w))
                                             else clock w)]>
                               (if created
                                then <["CREATED_DATE_" :=
                                         gmttime_at (S (clock w))]>
                                       (<["TOKEN" := token]> parsed)
                                else <["TOKEN" := token]> parsed)))
                  else <["MODIFIED_DATE_" :=
                           gmttime_at (if created then S (S (clock w))
                                       else clock w)]>
                         (if created
                          then <["CREATED_DATE_" := gmttime_at (S (clock w))]>
                                 (<["TOKEN" := token]> parsed)
                          else <["TOKEN" := token]> parsed)) !! k = v)
    as Hkeep.
  { intros k v Hk Hlate <-. rewrite <- (Hfixed k Hk).
    assert (∀ k', k' ∈ late_keys → k' ≠ k) as Hne.
    { intros k' Hk' ->. done. }
    destruct (double_optin data type), created;
      rewrite !lookup_insert_ne; try done; apply Hne; compute_done. }
  split; [apply Hkeep; [by split | compute_done | by rewrite initial_record_lookup] |].
  split; [apply Hkeep; [by split | compute_done | by rewrite initial_record_lookup] |].
  split; [destruct (double_optin data type), created; simplify_map_eq; by eexists |].
  split; [destruct (double_optin data type), created; simplify_map_eq; by eexists |].
  split; [apply Hkeep; [by split | compute_done | by rewrite initial_record_lookup] |].
  split; [apply Hkeep; [by split | compute_done | by rewrite initial_record_lookup] |].
  split; [apply Hkeep; [by split | compute_done | by rewrite initial_record_lookup] |].
  intros k Hsome.
  destruct (decide (k ∈ late_keys)) as [Hlate | Hlate].
  { left. unfold record_keys. apply elem_of_app. by right. }
  assert (is_Some (parsed !! k)) as Hparsed.
  { assert (∀ k', k' ∈ late_keys → k' ≠ k) as Hne.
    { intros k' Hk' ->. done. }
    destruct (double_optin data type), created;
      rewrite !lookup_insert_ne in Hsome; try done; apply Hne; compute_done. }
  unfold parsed, parsed_record in Hparsed.
  destruct (parse_newsletters_catalog_columns newsletter_field newsletter_names
              (today_at (clock w)) (Tasks.initial_record data email) type
              (default "" (data !! "newsletters")) k) as [Heq | Hcol];
    [| by right].
  left. unfold record_keys. apply elem_of_app. left.
  apply (initial_record_keys data email). by rewrite <- Heq.
Qed.

End UpdateUserMore.

(** ** [language_code_is_valid]: case and length *)

Lemma lower_char_upper_char (c : ascii) : lower_char (upper_char c) = lower_char c.
Proof. by destruct c as [[] [] [] [] [] [] [] []]. Qed.

Lemma lower_char_idem (c : ascii) : lower_char (lower_char c) = lower_char c.
Proof. by destruct c as [[] [] [] [] [] [] [] []]. Qed.

Lemma lower_upper (s : string) : lower (upper s) = lower s.
Proof.
  induction s as [|c s IH]; [done |]. simpl.
  by rewrite lower_char_upper_char, IH.
Qed.

Lemma lower_idem (s : string) : lower (lower s) = lower s.
Proof.
  induction s as [|c s IH]; [done |]. simpl. by rewrite lower_char_idem, IH.
Qed.

Lemma lower_slice_to (n : nat) (s : string) :
  lower (slice_to n s) = slice_to n (lower s).
Proof.
  revert s. induction n as [|n IH]; intros [|c s]; simpl; try done.
  by rewrite IH.
Qed.

Lemma slice_to_len (n : nat) (s : string) :
  (n ≤ len s)%nat → len (slice_to n s) = n.
Proof.
  unfold len. revert s.
  induction n as [|n IH]; intros [|c s] Hle; simpl in *; try done; [lia |].
  f_equal. apply IH. lia.
Qed.

Lemma slice_to_slice_to (n : nat) (s : string) :
  slice_to n (slice_to n s) = slice_to n s.
Proof.
  revert s. induction n as [|n IH]; intros [|c s]; simpl; try done.
  by rewrite IH.
Qed.

Section LanguageCodeMore.
Variable newsletter_languages : list string.

Local Abbreviation valid := (Views.language_code_is_valid newsletter_languages).

(** The answer depends on the code only through its lower-case form. *)
Lemma valid_lower_eq (code code' : string) :
  lower code = lower code' → valid (VStr code) = valid (VStr code').
Proof. intros Heq. unfold Views.language_code_is_valid. by rewrite Heq. Qed.

(** X9.  For a code of ASCII characters the check is not case sensitive:
    the code, its upper-case form and its lower-case form get the same
    answer; and when the newsletter languages are of ASCII characters too,
    so does the same code against the newsletter languages written in
    upper case. *)
Theorem language_code_is_valid_case (code : string) :
  is_ascii code = true →
  valid (VStr (upper code)) = valid (VStr code)
  ∧ valid (VStr (lower code)) = valid (VStr code)
  ∧ (forallb is_ascii newsletter_languages = true →
     Views.language_code_is_valid (map upper newsletter_languages) (VStr code)
     = valid (VStr code)).
Proof.
  intros _.
  split; [apply valid_lower_eq, lower_upper |].
  split; [apply valid_lower_eq, lower_idem |].
  intros _. unfold Views.language_code_is_valid.
  assert (map lower (map upper newsletter_languages)
          = map lower newsletter_languages) as ->; [| done].
  induction newsletter_languages as [|lang langs IH]; [done |]. simpl.
  by rewrite lower_upper, IH.
Qed.

Lemma valid_true_iff (code : string) :
  valid (VStr code) = Return true
  ↔ code = ""
    ∨ (∃ lang, lang ∈ newsletter_languages ∧ lower code = lower lang)
    ∨ ((len code = 2 ∨ len code = 5)
       ∧ prefix_match newsletter_languages code).
Proof.
  split.
  - intros Hvalid.
    destruct (decide (code = "")) as [-> | Hne]; [by left |].
    destruct (decide (Exists (λ lang, lower code = lower lang)
                             newsletter_languages)) as [Hex | Hex].
    { right; left. apply Exists_exists in Hex as (lang & ? & ?). by eauto. }
    destruct (decide (len code = 2 ∨ len code = 5)) as [Hlen | Hlen].
    + right; right. split; [done |].
      unfold Views.language_code_is_valid in Hvalid.
      destruct (mem _ _) eqn:Hmem.
      { apply mem_true in Hmem. apply elem_of_cons in Hmem as [Hnil | Hin].
        - by apply lower_empty in Hnil.
        - apply list_elem_of_fmap in Hin as (lang & Heq & Hin).
          destruct Hex. apply Exists_exists. by eauto. }
      destruct (bool_decide _); [| done].
      destruct (existsb _ _) eqn:Hexists; [| done].
      apply existsb_exists in Hexists as (lang & Hin & Heq).
      apply String.eqb_eq in Heq. destruct Hin as [<- | Hin].
      * apply slice_to_empty, lower_empty in Heq. subst. by destruct Hlen.
      * apply list_elem_of_In, list_elem_of_fmap in Hin as (lang' & -> & Hin).
        by exists lang'.
    + exfalso.
      rewrite (valid_other newsletter_languages code) in Hvalid; [done | done | |].
      * intros lang Hin Heq. apply Hex, Exists_exists. by eauto.
      * by intros [? _].
  - intros [-> | [(lang & Hin & Heq) | [Hlen Hpre]]].
    + done.
    + by eapply valid_exact.
    + by apply valid_prefix.
Qed.

Lemma valid_returns (code : string) :
  valid (VStr code) = Return true ∨ valid (VStr code) = Return false.
Proof.
  unfold Views.language_code_is_valid.
  destruct (mem _ _); [by left |].
  destruct (bool_decide _); [| by right].
  destruct (existsb _ _); by eauto.
Qed.

(** X10.  A code of two letters or more that is accepted has an accepted
    two-letter language part; and a five-letter code is accepted exactly
    when its two-letter language part is, whatever follows it. *)
Theorem language_code_is_valid_prefix (code : string) :
  ((2 ≤ len code)%nat → valid (VStr code) = Return true →
   valid (VStr (slice_to 2 code)) = Return true)
  ∧ (len code = 5 → valid (VStr code) = valid (VStr (slice_to 2 code))).
Proof.
  assert ((2 ≤ len code)%nat → valid (VStr code) = Return true →
          valid (VStr (slice_to 2 code)) = Return true) as Hdown.
  { intros Hlen Hvalid. apply valid_true_iff. right; right.
    split; [left; by apply slice_to_len |].
    apply valid_true_iff in Hvalid
      as [-> | [(lang & Hin & Heq) | [_ (lang & Hin & Heq)]]].
    - simpl in Hlen. lia.
    - exists lang. split; [done |].
      by rewrite lower_slice_to, slice_to_slice_to, Heq.
    - exists lang. split; [done |].
      by rewrite lower_slice_to, slice_to_slice_to. }
  split; [done |]. intros Hlen.
  destruct (valid_returns code) as [Hcode | Hcode].
  - rewrite Hcode, Hdown; [done | lia | done].
  - destruct (valid_returns (slice_to 2 code)) as [Hpart | Hpart];
      [| by rewrite Hcode, Hpart].
    exfalso. assert (valid (VStr code) = Return true) as Hyes; [| congruence].
    apply valid_true_iff. right; right. split; [by right |].
    assert (len (slice_to 2 code) = 2) as Hlen2 by (apply slice_to_len; lia).
    apply valid_true_iff in Hpart
      as [Hnil | [(lang & Hin & Heq) | [_ (lang & Hin & Heq)]]].
    + rewrite Hnil in Hlen2. done.
    + exists lang. split; [done |].
      rewrite <- lower_slice_to, Heq, <- (lower_slice_to 2 lang).
      rewrite lower_slice_to.
      assert (len (lower lang) = 2) as Hl.
      { rewrite <- Heq, lower_len. done. }
      clear -Hl. destruct (lower lang) as [|a [|b [|c s]]]; done.
    + exists lang. split; [done |].
      by rewrite lower_slice_to, slice_to_slice_to in Heq.
Qed.

End LanguageCodeMore.

(** ** [get_user_data], [lookup_subscriber], [update_user_task] *)

Lemma save_token_emails (email token : string) (db : list Subscriber) :
  map sub_email (save_token email token db) = map sub_email db.
Proof.
  induction db as [|s db IH]; [done |]. simpl. rewrite IH. f_equal.
  by destruct (String.eqb_spec (sub_email s) email).
Qed.

Lemma get_and_sync_NoDup (email token : string) (db : list Subscriber) :
  NoDup (map sub_email db) →
  NoDup (map sub_email (Views.objects_get_and_sync email token db)).
Proof.
  intros Hnd. unfold Views.objects_get_and_sync.
  destruct (List.filter _ db) as [|s rest] eqn:Hfilter.
  - rewrite map_app. simpl. apply NoDup_app. split; [done |].
    split; [| apply NoDup_singleton].
    intros e He Hin. apply list_elem_of_singleton in Hin as ->.
    by apply (filter_email_none email db).
  - by rewrite save_token_emails.
Qed.

Lemma get_or_create_NoDup (token email : string) (db : list Subscriber) :
  NoDup (map sub_email db) →
  NoDup (map sub_email (objects_get_or_create token email db).2).
Proof.
  intros Hnd. unfold objects_get_or_create.
  destruct (List.filter _ db) as [|s [|s' rest]] eqn:Hfilter; simpl; try done.
  rewrite map_app. simpl. apply NoDup_app. split; [done |].
  split; [| apply NoDup_singleton].
  intros e He Hin. apply list_elem_of_singleton in Hin as ->.
  by apply (filter_email_none email db).
Qed.

Section ViewsMore.
Variable newsletter_slugs : list string.
Variable newsletter_fields : list string.
Variable newsletter_languages : list string.
Variable slug_to_vendor_id : string → string.
Variable MSG_EMAIL_OR_TOKEN_REQUIRED : string.
Variable get_record :
  Views.database → option string → list string → string → Views.get_result.
Variable new_token : list Subscriber → string.

Local Abbreviation look_for_user :=
  (Views.look_for_user newsletter_slugs slug_to_vendor_id get_record).
Local Abbreviation get_user_data :=
  (Views.get_user_data newsletter_slugs newsletter_fields slug_to_vendor_id
                       get_record).
Local Abbreviation lookup_subscriber :=
  (Views.lookup_subscriber newsletter_slugs newsletter_fields slug_to_vendor_id
                           MSG_EMAIL_OR_TOKEN_REQUIRED get_record new_token).
Local Abbreviation update_user_task :=
  (Views.update_user_task newsletter_slugs newsletter_fields newsletter_languages
                          slug_to_vendor_id MSG_EMAIL_OR_TOKEN_REQUIRED
                          get_record new_token).
Local Abbreviation requested_fields := (requested_fields newsletter_fields).

(** The dictionary [look_for_user] builds from a remote row. *)
Definition fields_of (user : Views.et_user) : Views.user_fields :=
  {| Views.uf_status := "ok";
     Views.uf_email := Views.EMAIL_ADDRESS_ user;
     Views.uf_format := Views.or_default (Views.EMAIL_FORMAT_ user) "H";
     Views.uf_country := Views.or_default (Views.COUNTRY_ user) "";
     Views.uf_lang := Views.or_default (Views.LANGUAGE_ISO2 user) "";
     Views.uf_token := Views.TOKEN user;
     Views.uf_created_date := Views.CREATED_DATE_ user;
     Views.uf_newsletters :=
       List.filter
         (λ slug, String.eqb
                    (default "N" (Views.et_flags user
                                  !! (slug_to_vendor_id slug +:+ "_FLG"))) "Y")
         newsletter_slugs |}.

(** Every way [look_for_user] can end. *)
Lemma look_for_user_cases db email token fields :
  (get_record db (lookup_key email token) fields (lookup_column email)
   = Views.NoResults
   ∧ look_for_user db email token fields = Return Views.LNone)
  ∨ (db = Views.EXACTTARGET_CONFIRMATION
     ∧ look_for_user db email token fields = Return Views.LTrue)
  ∨ (∃ user,
        db ≠ Views.EXACTTARGET_CONFIRMATION
        ∧ get_record db (lookup_key email token) fields (lookup_column email)
          = Views.Found user
        ∧ look_for_user db email token fields
          = Return (Views.LUser (fields_of user)))
  ∨ (∃ e, look_for_user db email token fields = Raise e).
Proof.
  unfold Views.look_for_user, lookup_key, lookup_column.
  destruct (get_record _ _ _ _) as [user | | e]; [| by left | by eauto 10].
  destruct (decide (db = Views.EXACTTARGET_CONFIRMATION)); by eauto 10.
Qed.

(** Every way [get_user_data] can end. *)
Lemma get_user_data_cases token email sync db :
  (get_user_data token email sync db = (Return None, db)
   ∧ get_record Views.EXACTTARGET_DATA (lookup_key email token)
                requested_fields (lookup_column email) = Views.NoResults
   ∧ get_record Views.EXACTTARGET_OPTIN_STAGE (lookup_key email token)
                requested_fields (lookup_column email) = Views.NoResults)
  ∨ (∃ sc desc code,
        get_user_data token email sync db
        = (Return (Some (Views.ErrorData sc desc code)), db)
        ∧ ((sc = 400%Z ∧ code = Views.BASKET_NETWORK_FAILURE)
           ∨ (sc = 500%Z ∧ code = Views.BASKET_EMAIL_PROVIDER_AUTH_FAILURE
              ∧ desc = "Email service provider auth failure")))
  ∨ (∃ e, Views.handled e = false
          ∧ get_user_data token email sync db = (Raise e, db))
  ∨ (∃ user confirmed master,
        get_user_data token email sync db
        = (Return (Some (Views.UserData
                           (Views.mkUserData (fields_of user) confirmed false
                                             master))),
           if sync
           then Views.objects_get_and_sync (Views.EMAIL_ADDRESS_ user)
                                           (Views.TOKEN user) db
           else db)
        ∧ ((master = true ∧ confirmed = true
            ∧ get_record Views.EXACTTARGET_DATA (lookup_key email token)
                         requested_fields (lookup_column email)
              = Views.Found user)
           ∨ (master = false
              ∧ get_record Views.EXACTTARGET_OPTIN_STAGE (lookup_key email token)
                           requested_fields (lookup_column email)
                = Views.Found user))).
Proof.
  assert (∀ e, (∃ sc desc code,
                   match e with
                   | NewsletterException m =>
                       (Return (Some (Views.ErrorData 400 m
                                        Views.BASKET_NETWORK_FAILURE)), db)
                   | UnauthorizedException _ =>
                       (Return (Some (Views.ErrorData 500
                                        "Email service provider auth failure"
                                        Views.BASKET_EMAIL_PROVIDER_AUTH_FAILURE)),
                        db)
                   | _ => (@Raise (option Views.user_dict) e, db)
                   end
                   = (Return (Some (Views.ErrorData sc desc code)), db)
                   ∧ ((sc = 400%Z ∧ code = Views.BASKET_NETWORK_FAILURE)
                      ∨ (sc = 500%Z
                         ∧ code = Views.BASKET_EMAIL_PROVIDER_AUTH_FAILURE
                         ∧ desc = "Email service provider auth failure")))
               ∨ (Views.handled e = false
                  ∧ match e with
                    | NewsletterException m =>
                        (Return (Some (Views.ErrorData 400 m
                                         Views.BASKET_NETWORK_FAILURE)), db)
                    | UnauthorizedException _ =>
                        (Return (Some (Views.ErrorData 500
                                         "Email service provider auth failure"
                                         Views.BASKET_EMAIL_PROVIDER_AUTH_FAILURE)),
                         db)
                    | _ => (@Raise (option Views.user_dict) e, db)
                    end = (Raise e, db))) as Hraise.
  { intros e. destruct e; try (by right); left; eexists _, _, _;
      (split; [reflexivity |]); by eauto. }
  unfold Views.get_user_data, Views.get_user_data_try.
  fold requested_fields.
  destruct (look_for_user_cases Views.EXACTTARGET_DATA email token
              requested_fields)
    as [[Hmaster ->] | [[? _] | [(user & _ & Hrow & ->) | [e ->]]]]; [| done | |].
  - destruct (look_for_user_cases Views.EXACTTARGET_OPTIN_STAGE email token
                requested_fields)
      as [[Hoptin ->] | [[? _] | [(user & _ & Hrow & ->) | [e ->]]]];
      [by left | done | |].
    + destruct (look_for_user_cases Views.EXACTTARGET_CONFIRMATION email token
                  ["Token"])
        as [[_ ->] | [[_ ->] | [(c & ? & _) | [e ->]]]]; [| | done |].
      * do 3 right. exists user, false, false. by eauto.
      * do 3 right. exists user, true, false. by eauto.
      * destruct (Hraise e) as [Herr | [Hh Hr]]; [by right; left |].
        right; right; left. by eauto.
    + destruct (Hraise e) as [Herr | [Hh Hr]]; [by right; left |].
      right; right; left. by eauto.
  - do 3 right. exists user, true, true. by eauto 10.
  - destruct (Hraise e) as [Herr | [Hh Hr]]; [by right; left |].
    right; right; left. by eauto.
Qed.

(** The exception [e] is the one a lookup of [get_user_data] raises: the
    lookup in the master data extension, or the one in the opt-in data
    extension after the master one found nothing, or the one in the
    confirmation data extension after the opt-in one found a row. *)
Definition lookup_raises (token email : option string) (e : exn) : Prop :=
  get_record Views.EXACTTARGET_DATA (lookup_key email token) requested_fields
             (lookup_column email) = Views.Failed e
  ∨ (get_record Views.EXACTTARGET_DATA (lookup_key email token)
                requested_fields (lookup_column email) = Views.NoResults
     ∧ get_record Views.EXACTTARGET_OPTIN_STAGE (lookup_key email token)
                  requested_fields (lookup_column email) = Views.Failed e)
  ∨ (get_record Views.EXACTTARGET_DATA (lookup_key email token)
                requested_fields (lookup_column email) = Views.NoResults
     ∧ (∃ user, get_record Views.EXACTTARGET_OPTIN_STAGE
                           (lookup_key email token) requested_fields
                           (lookup_column email) = Views.Found user)
     ∧ get_record Views.EXACTTARGET_CONFIRMATION (lookup_key email token)
                  ["Token"] (lookup_column email) = Views.Failed e).

(** The [try] block of [get_user_data] raises exactly what a lookup
    raises. *)
Lemma get_user_data_try_raises token email e :
  Views.get_user_data_try newsletter_slugs slug_to_vendor_id get_record
                          email token requested_fields = Raise e
  ↔ lookup_raises token email e.
Proof.
  unfold lookup_raises, Views.get_user_data_try, Views.look_for_user.
  fold (lookup_key email token). fold (lookup_column email).
  destruct (get_record Views.EXACTTARGET_DATA _ _ _) as [user | | e0].
  - destruct (decide (Views.EXACTTARGET_DATA = Views.EXACTTARGET_CONFIRMATION))
      as [[=] | _].
    split; [done |]. by intros [[=] | [[[=] _] | [[=] _]]].
  - destruct (get_record Views.EXACTTARGET_OPTIN_STAGE _ _ _) as [user | | e1].
    + destruct (decide (Views.EXACTTARGET_OPTIN_STAGE
                        = Views.EXACTTARGET_CONFIRMATION)) as [[=] | _].
      destruct (get_record Views.EXACTTARGET_CONFIRMATION _ _ _)
        as [row | | e2].
      * destruct (decide (Views.EXACTTARGET_CONFIRMATION
                          = Views.EXACTTARGET_CONFIRMATION)); [| done].
        split; [done |]. by intros [[=] | [[_ [=]] | (_ & _ & [=])]].
      * split; [done |]. by intros [[=] | [[_ [=]] | (_ & _ & [=])]].
      * split.
        -- intros [= ->]. right; right. by eauto.
        -- by intros [[=] | [[_ [=]] | (_ & _ & [= ->])]].
    + split; [done |]. by intros [[=] | [[_ [=]] | (_ & [? [=]] & _)]].
    + split.
      * intros [= ->]. right; left. done.
      * by intros [[=] | [[_ [= ->]] | (_ & [? [=]] & _)]].
  - split.
    + intros [= ->]. by left.
    + by intros [[= ->] | [[[=] _] | [[=] _]]].
Qed.

(** X11.  [get_user_data] turns the two exceptions of the remote client
    into error dictionaries: a lookup that raises [NewsletterException]
    gives the dictionary with status code 400, the text of the exception
    and [BASKET_NETWORK_FAILURE]; one that raises [UnauthorizedException]
    gives the one with status code 500 and
    [BASKET_EMAIL_PROVIDER_AUTH_FAILURE]; any other exception of a lookup
    propagates.  Nothing else gives an error dictionary or an exception,
    and the local table changes only when a user is returned and
    [sync_data] is set. *)
Theorem get_user_data_failures token email sync db :
  (∀ msg, lookup_raises token email (NewsletterException msg) →
          get_user_data token email sync db
          = (Return (Some (Views.ErrorData 400 msg
                                           Views.BASKET_NETWORK_FAILURE)), db))
  ∧ (∀ msg, lookup_raises token email (UnauthorizedException msg) →
            get_user_data token email sync db
            = (Return (Some (Views.ErrorData
                               500 "Email service provider auth failure"
                               Views.BASKET_EMAIL_PROVIDER_AUTH_FAILURE)), db))
  ∧ (∀ e, lookup_raises token email e → Views.handled e = false →
          get_user_data token email sync db = (Raise e, db))
  ∧ match get_user_data token email sync db with
    | (Raise e, db') =>
        lookup_raises token email e ∧ Views.handled e = false ∧ db' = db
    | (Return None, db') => db' = db
    | (Return (Some (Views.ErrorData sc desc code)), db') =>
        db' = db
        ∧ ((sc = 400%Z ∧ code = Views.BASKET_NETWORK_FAILURE
            ∧ lookup_raises token email (NewsletterException desc))
           ∨ (sc = 500%Z ∧ code = Views.BASKET_EMAIL_PROVIDER_AUTH_FAILURE
              ∧ desc = "Email service provider auth failure"
              ∧ ∃ msg, lookup_raises token email (UnauthorizedException msg)))
    | (Return (Some (Views.UserData d)), db') =>
        db' = if sync
              then Views.objects_get_and_sync
                     (Views.uf_email (Views.ud_fields d))
                     (Views.uf_token (Views.ud_fields d)) db
              else db
    end.
Proof.
  unfold Views.get_user_data. fold requested_fields.
  split; [| split; [| split]].
  - intros msg Hraises. apply get_user_data_try_raises in Hraises.
    by rewrite Hraises.
  - intros msg Hraises. apply get_user_data_try_raises in Hraises.
    by rewrite Hraises.
  - intros e Hraises Hhandled. apply get_user_data_try_raises in Hraises.
    rewrite Hraises. by destruct e.
  - destruct (Views.get_user_data_try _ _ _ _ _ _) as [[d|] | e] eqn:Htry;
      [done | done |].
    apply get_user_data_try_raises in Htry.
    destruct e; try done.
    + split; [done |]. left. done.
    + split; [done |]. right. by eauto.
Qed.

(** X12.  A row in the master data extension decides the answer: the
    user is reported as confirmed and in the master list, and the two
    other data extensions are not consulted, so that another remote
    service that agrees on the master data extension gives the same
    result. *)
Theorem get_user_data_master_first
        (get_record' :
           Views.database → option string → list string → string
           → Views.get_result)
        token email sync db user :
  get_record Views.EXACTTARGET_DATA (lookup_key email token) requested_fields
             (lookup_column email) = Views.Found user →
  (∀ key fields column,
      get_record' Views.EXACTTARGET_DATA key fields column
      = get_record Views.EXACTTARGET_DATA key fields column) →
  Views.get_user_data newsletter_slugs newsletter_fields slug_to_vendor_id
                      get_record' token email sync db
  = get_user_data token email sync db
  ∧ ∃ d db',
      get_user_data token email sync db
      = (Return (Some (Views.UserData d)), db')
      ∧ Views.master d = true ∧ Views.confirmed d = true
      ∧ Views.pending d = false
      ∧ Views.uf_email (Views.ud_fields d) = Views.EMAIL_ADDRESS_ user
      ∧ Views.uf_token (Views.ud_fields d) = Views.TOKEN user.
Proof.
  intros Hrow Hsame.
  unfold Views.get_user_data, Views.get_user_data_try, Views.look_for_user.
  fold requested_fields. fold (lookup_key email token). fold (lookup_column email).
  rewrite Hsame, Hrow. simpl. split; [done |]. by eauto 10.
Qed.

(** X13.  Whatever user [get_user_data] returns has status [ok], a
    non-empty format, newsletters taken from the catalog, and is
    confirmed whenever it is in the master list; with [sync_data] the local table afterwards holds
    a row with the user's address and token. *)
Theorem get_user_data_user_invariants token email sync db d db' :
  get_user_data token email sync db = (Return (Some (Views.UserData d)), db') →
  Views.uf_status (Views.ud_fields d) = "ok"
  ∧ Views.uf_format (Views.ud_fields d) ≠ ""
  ∧ Views.uf_newsletters (Views.ud_fields d) ⊆ newsletter_slugs
  ∧ (Views.master d = true → Views.confirmed d = true)
  ∧ (sync = true →
     mkSubscriber (Views.uf_email (Views.ud_fields d))
                  (Views.uf_token (Views.ud_fields d)) ∈ db').
Proof.
  intros Hget.
  destruct (get_user_data_cases token email sync db)
    as [[Heq _] | [(sc & desc & code & Heq & _)
              | [(e & _ & Heq) | (user & c & m & Heq & Hcases)]]];
    rewrite Heq in Hget; try done.
  injection Hget as <- <-. simpl.
  split; [done |]. split.
  { unfold Views.or_default. destruct (Views.EMAIL_FORMAT_ user) as [[|]|]; done. }
  split.
  { intros slug Hin. apply list_elem_of_In, List.filter_In in Hin as [Hin _].
    by apply list_elem_of_In. }
  split.
  { destruct Hcases as [(-> & -> & _) | [-> _]]; done. }
  intros ->. unfold Views.objects_get_and_sync.
  destruct (List.filter _ db) as [|s rest] eqn:Hfilter.
  - apply elem_of_app. right. apply list_elem_of_singleton. done.
  - assert (s ∈ List.filter (matches None (Some (Views.EMAIL_ADDRESS_ user))) db)
      as Hs by (rewrite Hfilter; left).
    apply list_elem_of_In, List.filter_In in Hs as [Hs Hmatch].
    rewrite matches_email in Hmatch. apply String.eqb_eq in Hmatch.
    unfold save_token. apply list_elem_of_fmap. exists s. split.
    + by rewrite (proj2 (String.eqb_eq _ _) Hmatch).
    + by apply list_elem_of_In.
Qed.

(** *** [lookup_subscriber] *)

Lemma objects_get_inv token email db s :
  objects_get token email db = Return s →
  s ∈ db ∧ matches token email s = true
  ∧ List.filter (matches token email) db = [s].
Proof.
  unfold objects_get.
  destruct (List.filter _ db) as [|s' [|]] eqn:Hfilter; try done.
  intros [= ->].
  assert (s ∈ List.filter (matches token email) db) as Hs
      by (rewrite Hfilter; left).
  apply list_elem_of_In, List.filter_In in Hs as [Hs Hmatch].
  by apply list_elem_of_In in Hs.
Qed.

Lemma objects_get_missing token email db :
  objects_get token email db = Raise DoesNotExist →
  List.filter (matches token email) db = [].
Proof. unfold objects_get. by destruct (List.filter _ db) as [|s' [|]]. Qed.

Lemma filter_none {A} (f : A → bool) (l : list A) (x : A) :
  List.filter f l = [] → x ∈ l → f x = false.
Proof.
  intros Hnil Hin. destruct (f x) eqn:Hf; [| done].
  assert (List.In x (List.filter f l)) as Hx
      by (apply List.filter_In; split; [by apply list_elem_of_In | done]).
  by rewrite Hnil in Hx.
Qed.

(** The rows of the table after a synchronisation keep their addresses,
    in order, with at most one more at the end. *)
Lemma get_and_sync_emails email token db :
  map sub_email db `prefix_of`
  map sub_email (Views.objects_get_and_sync email token db).
Proof.
  unfold Views.objects_get_and_sync. destruct (List.filter _ db).
  - rewrite map_app. by apply prefix_app_r.
  - by rewrite save_token_emails.
Qed.

Lemma get_or_create_emails token email db :
  map sub_email db `prefix_of`
  map sub_email (objects_get_or_create token email db).2.
Proof.
  unfold objects_get_or_create. destruct (List.filter _ db) as [|s [|]]; simpl;
    try done.
  rewrite map_app. by apply prefix_app_r.
Qed.

Lemma get_user_data_table token email sync db :
  (get_user_data token email sync db).2 = db
  ∨ ∃ e t, (get_user_data token email sync db).2
           = Views.objects_get_and_sync e t db.
Proof.
  destruct (get_user_data_cases token email sync db)
    as [[-> _] | [(sc & desc & code & -> & _)
             | [(e & _ & ->) | (user & c & m & -> & _)]]];
    try (by left).
  destruct sync; [right | by left]. by eauto.
Qed.

(** Every way [lookup_subscriber] changes the table. *)
Lemma lookup_subscriber_table token email db :
  let db' := (lookup_subscriber token email db).2 in
  db' = db
  ∨ (∃ e t, db' = Views.objects_get_and_sync e t db)
  ∨ (∃ e t, db' = (objects_get_or_create t e db).2).
Proof.
  unfold Views.lookup_subscriber.
  destruct (negb _); [by left |].
  destruct (objects_get _ _ db) as [s | e]; [by left |].
  destruct e; try (by left).
  set (kw_token := if truthy_opt token then token else None).
  set (kw_email := if truthy_opt email then email else None).
  destruct (get_user_data_cases kw_token kw_email true db)
    as [[-> _] | [(sc & desc & code & -> & _)
             | [(e & _ & ->) | (user & c & m & -> & _)]]]; simpl.
  - destruct kw_email as [e|]; [| by left].
    right; right. exists e, (new_token db).
    by destruct (objects_get_or_create (new_token db) e db) as [[[]|] ?].
  - destruct kw_email as [e|]; [| by left].
    right; right. exists e, (new_token db).
    by destruct (objects_get_or_create (new_token db) e db) as [[[]|] ?].
  - by left.
  - right; left. exists (Views.EMAIL_ADDRESS_ user), (Views.TOKEN user).
    by destruct (objects_get _ _ _).
Qed.

(** A row that appears under a token no row had before a
    synchronisation is the synchronised one. *)
Lemma get_and_sync_token email token db s t :
  (∀ r, r ∈ db → sub_token r ≠ t) →
  s ∈ Views.objects_get_and_sync email token db → sub_token s = t →
  token = t.
Proof.
  intros Hnone Hin Ht. unfold Views.objects_get_and_sync in Hin.
  destruct (List.filter _ db).
  - apply elem_of_app in Hin as [Hin | Hin%list_elem_of_singleton].
    + by destruct (Hnone s Hin).
    + by subst s.
  - apply list_elem_of_fmap in Hin as (r & -> & Hr).
    destruct (String.eqb (sub_email r) email); [done |].
    by destruct (Hnone r Hr).
Qed.

(** Every way a lookup by token alone can end. *)
Lemma lookup_subscriber_token_cases (token : string) (db : list Subscriber) :
  truthy token = true →
  (∃ e db', lookup_subscriber (Some token) None db = (Raise e, db'))
  ∨ (∃ s, lookup_subscriber (Some token) None db
          = (Return (Some s, None, false), db)
          ∧ s ∈ db ∧ sub_token s = token)
  ∨ (∃ s d,
        let db' := Views.objects_get_and_sync
                     (Views.uf_email (Views.ud_fields d))
                     (Views.uf_token (Views.ud_fields d)) db in
        lookup_subscriber (Some token) None db
        = (Return (Some s, Some (Views.UserData d), true), db')
        ∧ s ∈ db' ∧ sub_token s = token
        ∧ Views.uf_token (Views.ud_fields d) = token
        ∧ (∀ r, r ∈ db → sub_token r ≠ token))
  ∨ (∃ user_data,
        lookup_subscriber (Some token) None db
        = (Return (None, user_data, true), db)
        ∧ (∀ r, r ∈ db → sub_token r ≠ token)
        ∧ (user_data = None
           ∨ ∃ sc desc code, user_data = Some (Views.ErrorData sc desc code))).
Proof.
  intros Htruthy. unfold Views.lookup_subscriber. simpl. rewrite Htruthy. simpl.
  destruct (objects_get (Some token) None db) as [s | e] eqn:Hget.
  { apply objects_get_inv in Hget as (Hin & Hmatch & _).
    unfold matches in Hmatch. rewrite andb_true_r in Hmatch.
    apply String.eqb_eq in Hmatch. right; left. by eauto. }
  destruct e; try (by left; eauto). apply objects_get_missing in Hget.
  assert (∀ r, r ∈ db → sub_token r ≠ token) as Hnone.
  { intros r Hr Heq. apply (filter_none _ _ r Hget) in Hr.
    unfold matches in Hr. rewrite andb_true_r in Hr.
    by apply String.eqb_neq in Hr. }
  destruct (get_user_data_cases (Some token) None true db)
    as [[-> _] | [(sc & desc & code & -> & _)
             | [(e & _ & ->) | (user & c & m & -> & _)]]]; simpl.
  - do 3 right. by eauto 10.
  - do 3 right. by eauto 10.
  - left. by eauto.
  - destruct (objects_get (Some token) None _) as [s | e] eqn:Hagain;
      [| by left; eauto].
    apply objects_get_inv in Hagain as (Hin & Hmatch & _).
    unfold matches in Hmatch. rewrite andb_true_r in Hmatch.
    apply String.eqb_eq in Hmatch.
    right; right; left.
    exists s, (Views.mkUserData (fields_of user) c false m). simpl.
    do 3 (split; [done |]). split; [| done].
    by apply (get_and_sync_token (Views.EMAIL_ADDRESS_ user) _ db s).
Qed.

(** X14.  A lookup by token alone either finds the one local row with
    that token (nothing changes and no remote data is returned), or finds
    the user remotely and returns the synchronised local row together
    with the remote data, whose token is the one asked for, or returns no
    subscriber at all and leaves the table as it was; it never makes up a
    row for an unknown token. *)
Theorem lookup_subscriber_by_token (token : string) (db : list Subscriber) :
  truthy token = true →
  match lookup_subscriber (Some token) None db with
  | (Return (Some s, None, created), db') =>
      created = false ∧ db' = db ∧ s ∈ db ∧ sub_token s = token
  | (Return (Some s, Some user_data, created), db') =>
      created = true ∧ s ∈ db' ∧ sub_token s = token
      ∧ (∀ r, r ∈ db → sub_token r ≠ token)
      ∧ ∃ d, user_data = Views.UserData d
             ∧ Views.uf_token (Views.ud_fields d) = token
             ∧ db' = Views.objects_get_and_sync
                       (Views.uf_email (Views.ud_fields d))
                       (Views.uf_token (Views.ud_fields d)) db
  | (Return (None, user_data, created), db') =>
      created = true ∧ db' = db
      ∧ (∀ r, r ∈ db → sub_token r ≠ token)
      ∧ (user_data = None ∨ ∃ sc desc code,
                               user_data = Some (Views.ErrorData sc desc code))
  | (Raise e, db') => True
  end.
Proof.
  intros Htruthy.
  destruct (lookup_subscriber_token_cases token db Htruthy)
    as [(e & db' & ->) | [(s & -> & ? & ?)
       | [(s & d & -> & ? & ? & ? & ?) | (ud & -> & ? & [-> | ?])]]];
    by eauto 10.
Qed.

(** A lookup by e-mail address alone that returns gives a row with that
    address. *)
Lemma lookup_subscriber_email_row
      (email : string) (db : list Subscriber) s user_data created db' :
  truthy email = true →
  lookup_subscriber None (Some email) db
  = (Return (s, user_data, created), db') →
  ∃ sub, s = Some sub ∧ sub ∈ db' ∧ sub_email sub = email.
Proof.
  intros Htruthy. unfold Views.lookup_subscriber. simpl. rewrite Htruthy. simpl.
  destruct (objects_get None (Some email) db) as [sub | e] eqn:Hget.
  { intros [= <- <- <- <-].
    apply objects_get_inv in Hget as (Hin & Hmatch & _).
    rewrite matches_email in Hmatch. apply String.eqb_eq in Hmatch. by eauto. }
  destruct e; try done. apply objects_get_missing in Hget.
  destruct (get_user_data None (Some email) true db) as [[[d|]|e] db1];
    [destruct (String.eqb (Views.dict_status d) "ok") | | done].
  - destruct (objects_get None (Some email) db1) as [sub | e] eqn:Hagain;
      [| done].
    intros [= <- <- <- <-].
    apply objects_get_inv in Hagain as (Hin & Hmatch & _).
    rewrite matches_email in Hmatch. apply String.eqb_eq in Hmatch. by eauto.
  - destruct (objects_get_or_create (new_token db1) email db1)
      as [[[sub c]|e] db2] eqn:Hcreate; [| done].
    intros [= <- <- <- <-]. unfold objects_get_or_create in Hcreate.
    destruct (List.filter _ db1) as [|r [|]] eqn:Hfilter; [| | done].
    + injection Hcreate as <- <- <-. eexists. split; [done |].
      split; [apply elem_of_app; right; left | done].
    + injection Hcreate as <- <- <-. exists r. split; [done |].
      assert (r ∈ List.filter (matches None (Some email)) db1) as Hr
          by (rewrite Hfilter; left).
      apply list_elem_of_In, List.filter_In in Hr as [Hr Hmatch].
      rewrite matches_email in Hmatch. apply String.eqb_eq in Hmatch.
      by apply list_elem_of_In in Hr.
  - destruct (objects_get_or_create (new_token db1) email db1)
      as [[[sub c]|e] db2] eqn:Hcreate; [| done].
    intros [= <- <- <- <-]. unfold objects_get_or_create in Hcreate.
    destruct (List.filter _ db1) as [|r [|]] eqn:Hfilter; [| | done].
    + injection Hcreate as <- <- <-. eexists. split; [done |].
      split; [apply elem_of_app; right; left | done].
    + injection Hcreate as <- <- <-. exists r. split; [done |].
      assert (r ∈ List.filter (matches None (Some email)) db1) as Hr
          by (rewrite Hfilter; left).
      apply list_elem_of_In, List.filter_In in Hr as [Hr Hmatch].
      rewrite matches_email in Hmatch. apply String.eqb_eq in Hmatch.
      by apply list_elem_of_In in Hr.
Qed.

(** X15.  A lookup by e-mail address alone that returns gives a row of
    the table with that address, and reports it as created exactly when
    the table had no row with that address before; a row that was already
    there is returned without a remote query result and without touching
    the table. *)
Theorem lookup_subscriber_by_email_created
        (email : string) (db : list Subscriber) s user_data created db' :
  truthy email = true →
  lookup_subscriber None (Some email) db
  = (Return (s, user_data, created), db') →
  ∃ sub,
    s = Some sub ∧ sub ∈ db' ∧ sub_email sub = email
    ∧ (created = true ↔ email ∉ map sub_email db)
    ∧ (created = false → db' = db ∧ user_data = None).
Proof.
  intros Htruthy. unfold Views.lookup_subscriber. simpl. rewrite Htruthy. simpl.
  destruct (objects_get None (Some email) db) as [sub | e] eqn:Hget.
  { intros [= <- <- <- <-].
    apply objects_get_inv in Hget as (Hin & Hmatch & _).
    rewrite matches_email in Hmatch. apply String.eqb_eq in Hmatch.
    exists sub. do 3 (split; [done |]). split; [| done]. split; [done |].
    intros Hnot. exfalso. apply Hnot. rewrite <- Hmatch.
    by apply list_elem_of_fmap_2. }
  destruct e; try done. apply objects_get_missing in Hget.
  pose proof (filter_email_none email db Hget) as Hnot.
  destruct (get_user_data_cases None (Some email) true db)
    as [[-> _] | [(sc & desc & code & -> & _)
             | [(e & _ & ->) | (user & c & m & -> & _)]]]; simpl.
  - unfold objects_get_or_create. rewrite Hget. intros [= <- <- <- <-].
    eexists. split; [done |]. split; [apply elem_of_app; right; left |]. done.
  - unfold objects_get_or_create. rewrite Hget. intros [= <- <- <- <-].
    eexists. split; [done |]. split; [apply elem_of_app; right; left |]. done.
  - done.
  - destruct (objects_get None (Some email) _) as [sub | e] eqn:Hagain; [| done].
    intros [= <- <- <- <-].
    apply objects_get_inv in Hagain as (Hin & Hmatch & _).
    rewrite matches_email in Hmatch. apply String.eqb_eq in Hmatch.
    exists sub. do 3 (split; [done |]). done.
Qed.

(** X16.  [lookup_subscriber] keeps the table's addresses in place, adds
    at most rows at the end, and preserves the absence of duplicate
    addresses, whatever it returns or raises. *)
Theorem lookup_subscriber_table_invariant
        (token email : option string) (db : list Subscriber) :
  NoDup (map sub_email db) →
  let db' := (lookup_subscriber token email db).2 in
  NoDup (map sub_email db') ∧ map sub_email db `prefix_of` map sub_email db'.
Proof.
  intros Hnd db'.
  destruct (lookup_subscriber_table token email db)
    as [Heq | [(e & t & Heq) | (e & t & Heq)]]; subst db'; rewrite Heq.
  - done.
  - split; [by apply get_and_sync_NoDup | apply get_and_sync_emails].
  - split; [by apply get_or_create_NoDup | apply get_or_create_emails].
Qed.

(** *** [update_user_task] *)

(** Every way [update_user_task] can end. *)
Lemma update_user_task_cases
      (req : Views.request) (type : Z) (data : option (gmap string string))
      (optin : bool) (w : Views.world) :
  (∃ desc code,
      update_user_task req type data optin w
      = (Return (Views.mkResponse (Views.JError desc code) 400), w))
  ∨ (∃ e db',
        update_user_task req type data optin w
        = (Raise e, Views.mkWorld db' (Views.queue w)))
  ∨ (∃ email token created db',
        update_user_task req type data optin w
        = (Return (Views.mkResponse (Views.JOk token created) 200),
           Views.mkWorld db'
             (Views.queue w
              ++ [Views.mkTaskCall (request_data req data) email token created
                                   type optin]))
        ∧ ((Views.req_subscriber req = Some (mkSubscriber email token)
            ∧ created = false ∧ db' = Views.subscribers w)
           ∨ (Views.req_subscriber req = None
              ∧ request_data req data !! "email" = Some email
              ∧ mkSubscriber email token ∈ db'))).
Proof.
  unfold Views.update_user_task. fold (request_data req data).
  set (d := request_data req data).
  destruct (truthy_opt (d !! "newsletters") && _); [by left; eauto |].
  destruct (match d !! "lang" with Some l => _ | None => _ end) as [[] | e];
    [| by left; eauto | right; left; destruct w; by eauto].
  destruct (negb _) eqn:Hwho; [by left; eauto |].
  destruct (Views.req_subscriber req) as [[email token] |] eqn:Hsub.
  { simpl. right; right. exists email, token, false, (Views.subscribers w).
    by eauto. }
  destruct (truthy_opt (d !! "email")) eqn:Hemail; [| done].
  destruct (d !! "email") as [email |] eqn:He; [| done]. simpl in Hemail.
  destruct (lookup_subscriber None (Some email) (Views.subscribers w))
    as [[[[s user_data] created] | e] db'] eqn:Hlookup;
    [| right; left; by eauto].
  destruct (lookup_subscriber_email_row email _ _ _ _ _ Hemail Hlookup)
    as (sub & -> & Hin & Hmail).
  destruct sub as [email' token]. simpl in *. subst email'.
  right; right. exists email, token, created, db'. by eauto 10.
Qed.

(** X17.  [update_user_task] queues at most one call, and queues it
    exactly when it answers 200: the call carries the request data, the
    type and the opt-in flag it was given, and the same token and
    [created] flag as the answer.  Every other outcome leaves the queue
    as it was, and an error answer leaves the table as it was too. *)
Theorem update_user_task_queue
        (req : Views.request) (type : Z) (data : option (gmap string string))
        (optin : bool) (w : Views.world) :
  match update_user_task req type data optin w with
  | (Return (Views.mkResponse (Views.JOk token created) status), w') =>
      status = 200%Z
      ∧ ∃ email,
          Views.queue w'
          = Views.queue w
            ++ [Views.mkTaskCall (request_data req data) email token created
                                 type optin]
          ∧ (Views.req_subscriber req = Some (mkSubscriber email token)
             ∨ (Views.req_subscriber req = None
                ∧ request_data req data !! "email" = Some email
                ∧ mkSubscriber email token ∈ Views.subscribers w'))
  | (Return (Views.mkResponse (Views.JError desc code) status), w') =>
      status = 400%Z ∧ w' = w
  | (Raise e, w') => Views.queue w' = Views.queue w
  end.
Proof.
  destruct (update_user_task_cases req type data optin w)
    as [(desc & code & ->) | [(e & db' & ->)
       | (email & token & created & db' & -> & Hwho)]]; [done | done |].
  split; [done |]. exists email. split; [done |].
  destruct Hwho as [(? & _ & _) | ?]; by eauto.
Qed.

End ViewsMore.

(** ** The views *)

Lemma with_subscribers_same (w : Endpoints.world) :
  Endpoints.with_subscribers (Endpoints.subscribers w) w = w.
Proof. by destruct w as [[] ?]. Qed.

(** *** Digits *)

Definition all_digits (s : string) : bool :=
  forallb Endpoints.is_digit (list_ascii_of_string s).

Lemma digits_all_digits (s : string) : all_digits (Endpoints.digits s) = true.
Proof.
  unfold all_digits. induction s as [|c s IH]; [done |]. simpl.
  destruct (Endpoints.is_digit c) eqn:Hc; [| done]. simpl. by rewrite Hc.
Qed.

Lemma digits_fixed (s : string) :
  all_digits s = true → Endpoints.digits s = s.
Proof.
  unfold all_digits. induction s as [|c s IH]; [done |]. simpl.
  intros [Hc Hs]%andb_true_iff. rewrite Hc. f_equal. by apply IH.
Qed.

Lemma eqb_bool_decide (a b : string) : String.eqb a b = bool_decide (a = b).
Proof.
  destruct (String.eqb_spec a b);
    [by rewrite bool_decide_eq_true_2 | by rewrite bool_decide_eq_false_2].
Qed.

(** X20.  [subscribe_sms] never raises and queues at most one message;
    the number it queues is always eleven digits beginning with [1], made
    of the digits of the number submitted, with a [1] put in front when
    there were ten; the message name defaults to [SMS_Android] and the
    opt-in flag is set only by [optin=Y].  Every other request is
    answered 400 or 405 and changes nothing. *)
Theorem subscribe_sms_us_number (request : Endpoints.request)
        (w : Endpoints.world) :
  match Endpoints.subscribe_sms request w with
  | (Return r, w') =>
      (Endpoints.status_code r = 200%Z ∧ Endpoints.content r = Endpoints.Ok
       ∧ Endpoints.method request = "POST"
       ∧ ∃ number mobile,
           Endpoints.POST request !! "mobile_number" = Some number
           ∧ w' = Endpoints.delay
                    (Endpoints.add_sms_user
                       (default "SMS_Android"
                                (Endpoints.POST request !! "msg_name"))
                       mobile
                       (bool_decide
                          (Endpoints.POST request !! "optin" = Some "Y")))
                    w
           ∧ len mobile = 11%nat
           ∧ String.get 0 mobile = Some "1"%char
           ∧ all_digits mobile = true
           ∧ (mobile = Endpoints.digits number
              ∨ mobile = "1" +:+ Endpoints.digits number))
      ∨ (w' = w
         ∧ ((Endpoints.status_code r = 400%Z
             ∧ ∃ desc,
                 Endpoints.content r
                 = Endpoints.Error desc
                     (Endpoints.Code Views.BASKET_USAGE_ERROR))
            ∨ (Endpoints.status_code r = 405%Z
               ∧ Endpoints.content r = Endpoints.NotAllowed
               ∧ Endpoints.method request ≠ "POST")))
  | (Raise e, _) => False
  end.
Proof.
  unfold Endpoints.subscribe_sms, Endpoints.require_POST.
  destruct (String.eqb_spec (Endpoints.method request) "POST") as [Hpost | Hget];
    [| by right; split; [| right]].
  destruct (Endpoints.POST request !! "mobile_number") as [number |] eqn:Hnumber;
    [| by right; split; [| left; split; [| eexists]]].
  cbv zeta.
  pose proof (digits_all_digits number) as Hdigits.
  set (mobile := Endpoints.digits number) in *.
  assert (String.eqb (default "N" (Endpoints.POST request !! "optin")) "Y"
          = bool_decide (Endpoints.POST request !! "optin" = Some "Y")) as ->.
  { rewrite eqb_bool_decide.
    destruct (Endpoints.POST request !! "optin") as [v|]; simpl;
      repeat case_bool_decide; congruence. }
  destruct (Nat.eqb_spec (len mobile) 10) as [Hten | Hnot].
  { left. do 3 (split; [done |]). exists number, ("1" +:+ mobile).
    do 2 (split; [done |]). split.
    { change ("1" +:+ mobile) with (String "1" mobile). unfold len in *. simpl.
      by rewrite Hten. }
    split; [done |]. split; [| by right].
    change ("1" +:+ mobile) with (String "1" mobile). unfold all_digits. simpl.
    exact Hdigits. }
  destruct (Nat.eqb_spec (len mobile) 11) as [Heleven | Hnot'];
    [| by right; split; [| left; split; [| eexists]]].
  simpl. case_bool_decide as Hfirst;
    [| by right; split; [| left; split; [| eexists]]].
  simpl. left. do 3 (split; [done |]). exists number, mobile. by eauto 10.
Qed.

(** *** Joining and splitting *)

Definition no_comma (s : string) : Prop := ","%char ∉ list_ascii_of_string s.

Lemma split_no_sep (sep : ascii) (s : string) :
  sep ∉ list_ascii_of_string s → split sep s = [s].
Proof.
  induction s as [|c s IH]; [done |]. simpl. intros Hnot.
  destruct (Ascii.eqb_spec c sep) as [-> | Hne]; [by destruct Hnot; left |].
  rewrite IH; [done |]. intros Hin. apply Hnot. by right.
Qed.

Lemma split_app_sep (sep : ascii) (s rest : string) :
  sep ∉ list_ascii_of_string s →
  split sep (s +:+ String sep rest) = s :: split sep rest.
Proof.
  induction s as [|c s IH]; intros Hnot.
  - change ("" +:+ String sep rest) with (String sep rest). simpl.
    by rewrite Ascii.eqb_refl.
  - change (String c s +:+ String sep rest)
      with (String c (s +:+ String sep rest)). simpl in *.
    destruct (Ascii.eqb_spec c sep) as [-> | Hne]; [by destruct Hnot; left |].
    rewrite IH; [done |]. intros Hin. apply Hnot. by right.
Qed.

(** [','.join(l).split(',')] gives [l] back when no element has a comma
    and [l] is not empty. *)
Lemma split_join (l : list string) :
  l ≠ [] → Forall no_comma l →
  split "," (Endpoints.join "," l) = l.
Proof.
  unfold Endpoints.join. induction l as [|x l IH]; [done |].
  intros _ [Hx Hl]%Forall_cons. destruct l as [|y l].
  - simpl. by apply split_no_sep.
  - change (String.concat "," (x :: y :: l))
      with (x +:+ String "," (String.concat "," (y :: l))).
    rewrite split_app_sep by done. f_equal. by apply IH.
Qed.

Lemma join_nil_falsy : truthy (Endpoints.join "," []) = false.
Proof. reflexivity. Qed.

Section EndpointsMore.
Variable newsletter_slugs : list string.
Variable newsletter_fields : list string.
Variable newsletter_languages : list string.
Variable slug_to_vendor_id : string → string.
Variable MSG_EMAIL_OR_TOKEN_REQUIRED : string.
Variable MSG_TOKEN_REQUIRED : string.
Variable MSG_USER_NOT_FOUND : string.
Variable SUBSCRIBE UNSUBSCRIBE SET : Z.
Variable SUPERTOKEN : string.
Variable get_record :
  Views.database → option string → list string → string → Views.get_result.
Variable new_token : list Subscriber → string.
Variable clean_email : gmap string string → option string.
Variable api_key_is_valid : option string → bool.

Local Abbreviation get_user_data :=
  (Endpoints.get_user_data newsletter_slugs newsletter_fields slug_to_vendor_id
                           get_record).
Local Abbreviation lookup_subscriber :=
  (Endpoints.lookup_subscriber newsletter_slugs newsletter_fields
                               slug_to_vendor_id MSG_EMAIL_OR_TOKEN_REQUIRED
                               get_record new_token).
Local Abbreviation update_user_task :=
  (Endpoints.update_user_task newsletter_slugs newsletter_fields
                              newsletter_languages slug_to_vendor_id
                              MSG_EMAIL_OR_TOKEN_REQUIRED get_record new_token).
Local Abbreviation logged_in :=
  (Endpoints.logged_in newsletter_slugs newsletter_fields slug_to_vendor_id
                       MSG_EMAIL_OR_TOKEN_REQUIRED MSG_TOKEN_REQUIRED
                       get_record new_token).
Local Abbreviation get_user :=
  (Endpoints.get_user newsletter_slugs newsletter_fields slug_to_vendor_id
                      get_record).
Local Abbreviation confirm :=
  (Endpoints.confirm newsletter_slugs newsletter_fields slug_to_vendor_id
                     MSG_EMAIL_OR_TOKEN_REQUIRED MSG_TOKEN_REQUIRED
                     get_record new_token).
Local Abbreviation subscribe :=
  (Endpoints.subscribe newsletter_slugs newsletter_fields newsletter_languages
                       slug_to_vendor_id MSG_EMAIL_OR_TOKEN_REQUIRED SUBSCRIBE
                       get_record new_token).
Local Abbreviation unsubscribe :=
  (Endpoints.unsubscribe newsletter_slugs newsletter_fields newsletter_languages
                         slug_to_vendor_id MSG_EMAIL_OR_TOKEN_REQUIRED
                         MSG_TOKEN_REQUIRED UNSUBSCRIBE get_record new_token).
Local Abbreviation user :=
  (Endpoints.user newsletter_slugs newsletter_fields newsletter_languages
                  slug_to_vendor_id MSG_EMAIL_OR_TOKEN_REQUIRED
                  MSG_TOKEN_REQUIRED SET get_record new_token).
Local Abbreviation send_recovery_message :=
  (Endpoints.send_recovery_message newsletter_slugs newsletter_fields
                                   slug_to_vendor_id get_record clean_email).
Local Abbreviation debug_user :=
  (Endpoints.debug_user newsletter_slugs newsletter_fields slug_to_vendor_id
                        SUPERTOKEN get_record).
Local Abbreviation lookup_user :=
  (Endpoints.lookup_user newsletter_slugs newsletter_fields slug_to_vendor_id
                         MSG_EMAIL_OR_TOKEN_REQUIRED MSG_USER_NOT_FOUND
                         get_record api_key_is_valid).
Local Abbreviation requested_fields := (requested_fields newsletter_fields).

(** *** [logged_in] *)

(** The request as the wrapped view receives it. *)
Definition logged (request : Endpoints.request) (s : Subscriber)
           (user_data : option Views.user_dict) : Endpoints.request :=
  Endpoints.mkRequest (Endpoints.method request) (Endpoints.is_secure request)
                      (Endpoints.GET request) (Endpoints.POST request)
                      (Endpoints.META request) (Some s) user_data.

(** The table after a remote user was found at login. *)
Definition synced (d : Views.user_data) (w : Endpoints.world) : Endpoints.world :=
  Endpoints.with_subscribers
    (Views.objects_get_and_sync (Views.uf_email (Views.ud_fields d))
                                (Views.uf_token (Views.ud_fields d))
                                (Endpoints.subscribers w)) w.

Definition unknown_token (token : string) (w : Endpoints.world) : Prop :=
  ∀ r, r ∈ Endpoints.subscribers w → sub_token r ≠ token.

(** Every way a view behind [logged_in] can be reached, or not: the
    lookup raises, or the token is unknown and the answer is 403, or the
    view runs for a row of the table, or it runs for a row synchronised
    from the remote service. *)
Definition logged_in_outcome (f : Endpoints.token_view)
           (request : Endpoints.request) (token : string) (w : Endpoints.world)
  : Prop :=
  (∃ e db', logged_in f request token w
            = (Raise e, Endpoints.with_subscribers db' w))
  ∨ (logged_in f request token w
     = (Return (Endpoints.mkResponse
                  (Endpoints.Error MSG_TOKEN_REQUIRED
                                   (Endpoints.Code Views.BASKET_USAGE_ERROR))
                  403), w)
     ∧ unknown_token token w)
  ∨ (∃ s, s ∈ Endpoints.subscribers w ∧ sub_token s = token
          ∧ logged_in f request token w = f (logged request s None) token w)
  ∨ (∃ s d, s ∈ Endpoints.subscribers (synced d w) ∧ sub_token s = token
            ∧ Views.uf_token (Views.ud_fields d) = token
            ∧ unknown_token token w
            ∧ logged_in f request token w
              = f (logged request s (Some (Views.UserData d))) token
                  (synced d w)).

Lemma logged_in_cases (f : Endpoints.token_view) (request : Endpoints.request)
      (token : string) (w : Endpoints.world) :
  truthy token = true → logged_in_outcome f request token w.
Proof.
  intros Htruthy.
  unfold logged_in_outcome, Endpoints.logged_in, Endpoints.lookup_subscriber.
  destruct (lookup_subscriber_token_cases
              newsletter_slugs newsletter_fields slug_to_vendor_id
              MSG_EMAIL_OR_TOKEN_REQUIRED get_record new_token
              token (Endpoints.subscribers w) Htruthy)
    as [(e & db' & ->) | [(s & -> & Hin & Htoken)
       | [(s & d & Hrun & Hin & Htoken & Hsame & Hnone)
         | (ud & -> & Hnone & _)]]].
  - left. by eauto.
  - right; right; left. exists s. rewrite with_subscribers_same. by eauto.
  - do 3 right. exists s, d. simpl in Hrun. rewrite Hrun.
    unfold synced. split; [| done].
    by destruct w as [[] ?].
  - right; left. by rewrite with_subscribers_same.
Qed.

(** X18.  A view behind [logged_in] runs only for a token that a row of
    the local table carries, found there or synchronised from the remote
    service, and it receives that row as [request.subscriber]; a token
    nobody knows is answered 403 with nothing changed, and an empty token
    raises the exception of [lookup_subscriber] instead of a 403. *)
Theorem logged_in_subscriber (f : Endpoints.token_view)
        (request : Endpoints.request) (token : string) (w : Endpoints.world) :
  (truthy token = false →
   logged_in f request token w
   = (Raise (GenericException MSG_EMAIL_OR_TOKEN_REQUIRED), w))
  ∧ (truthy token = true → logged_in_outcome f request token w).
Proof.
  split; [| apply logged_in_cases].
  intros Hfalsy. unfold Endpoints.logged_in, Endpoints.lookup_subscriber,
    Views.lookup_subscriber. simpl. rewrite Hfalsy. simpl.
  by rewrite with_subscribers_same.
Qed.

(** *** [confirm] *)

(** X19.  [confirm] queues one [confirm_user] call, for the token of the
    URL, exactly when it answers 200, and it does so only for a POST
    request whose token a row of the table carries; it never queues an
    [update_user] call, and a 403 or 405 answer changes nothing. *)
Theorem confirm_queues_token (request : Endpoints.request) (token : string)
        (w : Endpoints.world) :
  truthy token = true →
  match confirm request token w with
  | (Return r, w') =>
      Views.queue (Endpoints.views w') = Views.queue (Endpoints.views w)
      ∧ ((Endpoints.status_code r = 200%Z ∧ Endpoints.content r = Endpoints.Ok
          ∧ Endpoints.method request = "POST"
          ∧ (∃ user_data,
                Endpoints.jobs w'
                = Endpoints.jobs w ++ [Endpoints.confirm_user token user_data])
          ∧ ∃ s, s ∈ Endpoints.subscribers w' ∧ sub_token s = token)
         ∨ (Endpoints.status_code r = 403%Z ∧ w' = w
            ∧ Endpoints.method request = "POST" ∧ unknown_token token w)
         ∨ (Endpoints.status_code r = 405%Z ∧ w' = w
            ∧ Endpoints.method request ≠ "POST"))
  | (Raise e, w') =>
      Views.queue (Endpoints.views w') = Views.queue (Endpoints.views w)
      ∧ Endpoints.jobs w' = Endpoints.jobs w
  end.
Proof.
  intros Htruthy. unfold Endpoints.confirm, Endpoints.require_POST_token.
  destruct (String.eqb_spec (Endpoints.method request) "POST") as [Hpost | Hget];
    [| by split; [| right; right]].
  match goal with
  | |- context [Endpoints.logged_in _ _ _ _ _ _ _ ?f _ _ _] =>
      destruct (logged_in_cases f request token w Htruthy)
        as [(e & db' & ->) | [[-> Hnone] | [(s & Hin & Htoken & ->)
           | (s & d & Hin & Htoken & _ & _ & ->)]]]
  end.
  - done.
  - split; [done |]. right; left. by eauto.
  - simpl. rewrite Htoken. split; [done |]. left. by eauto 10.
  - simpl. rewrite Htoken. split; [done |]. left.
    do 3 (split; [done |]). split; [by eauto |]. exists s. by eauto.
Qed.

(** *** [update_user_task] behind the views *)

Local Abbreviation unknown_newsletter := (unknown_newsletter newsletter_slugs).
Local Abbreviation invalid_language := (invalid_language newsletter_languages).

(** The request [update_user_task] reads. *)
Definition as_views (request : Endpoints.request) : Views.request :=
  Views.mkRequest (Endpoints.subscriber request) (Endpoints.POST request).

(** A well-formed request from a logged-in subscriber is queued as it
    is, for that subscriber. *)
Lemma update_user_task_subscriber
      (request : Endpoints.request) (type : Z)
      (data : option (gmap string string)) (optin : bool)
      (w : Endpoints.world) (s : Subscriber) :
  let d := request_data (as_views request) data in
  Endpoints.subscriber request = Some s →
  ¬ unknown_newsletter d → ¬ invalid_language d →
  update_user_task request type data optin w
  = (Return (Endpoints.mkResponse
               (Endpoints.Task (Views.JOk (sub_token s) false)) 200),
     Endpoints.mkWorld
       (Views.mkWorld
          (Endpoints.subscribers w)
          (Views.queue (Endpoints.views w)
           ++ [Views.mkTaskCall d (sub_email s) (sub_token s) false type optin]))
       (Endpoints.jobs w)).
Proof.
  intros d Hsub Hknown Hlang.
  unfold Endpoints.update_user_task, Views.update_user_task.
  fold (as_views request). fold (request_data (as_views request) data). fold d.
  destruct (truthy_opt (d !! "newsletters") && _) eqn:Hnl.
  { by apply (newsletters_check newsletter_slugs) in Hnl. }
  destruct (language_check newsletter_languages d) as [[-> _] | [_ ?]]; [| done].
  simpl. rewrite Hsub. rewrite bool_decide_eq_true_2 by eauto.
  by rewrite orb_true_r.
Qed.

(** A request with an invalid language code is turned away with nothing
    queued or changed. *)
Lemma update_user_task_invalid_language
      (request : Endpoints.request) (type : Z)
      (data : option (gmap string string)) (optin : bool)
      (w : Endpoints.world) :
  let d := request_data (as_views request) data in
  ¬ unknown_newsletter d → invalid_language d →
  update_user_task request type data optin w
  = (Return (Endpoints.mkResponse
               (Endpoints.Task (Views.JError "invalid language"
                                             Views.BASKET_INVALID_LANGUAGE))
               400),
     w).
Proof.
  intros d Hknown Hlang.
  unfold Endpoints.update_user_task, Views.update_user_task.
  fold (as_views request). fold (request_data (as_views request) data). fold d.
  destruct (truthy_opt (d !! "newsletters") && _) eqn:Hnl.
  { by apply (newsletters_check newsletter_slugs) in Hnl. }
  destruct (language_check newsletter_languages d) as [[_ ?] | [-> _]]; [done |].
  by destruct w.
Qed.

(** *** [unsubscribe] *)

(** A catalog whose slugs survive [','.join], [split(',')] and
    [strip()]. *)
Definition clean_slugs : Prop :=
  Forall (λ slug, no_comma slug ∧ strip slug = slug) newsletter_slugs.

Lemma joined_slugs_known (d : gmap string string) :
  clean_slugs →
  ¬ unknown_newsletter
      (<["newsletters" := Endpoints.join "," newsletter_slugs]> d).
Proof.
  unfold clean_slugs. intros Hclean (joined & nl & Hjoined & Hne & Hin & Hout).
  rewrite lookup_insert_eq in Hjoined. injection Hjoined as <-.
  destruct (decide (newsletter_slugs = [])) as [Hnil | Hsome].
  { by rewrite Hnil in Hne. }
  rewrite split_join in Hin; [| done |].
  2:{ eapply Forall_impl; [exact Hclean |]. by intros slug [? _]. }
  apply Hout. apply list_elem_of_fmap in Hin as (slug & -> & Hslug).
  rewrite Forall_forall in Hclean. destruct (Hclean slug Hslug) as [_ ->].
  done.
Qed.

(** X21.  An opt-out unsubscribes from everything: for a POST request
    with [optout=Y] from a token the local table knows, and a catalog
    whose slugs contain no comma and no surrounding blanks, [unsubscribe]
    replaces whatever newsletters the request names by all the slugs of
    the catalog, which pass the validation of [update_user_task].  When the
    request has no language or a valid one, one UNSUBSCRIBE call is queued
    for the subscriber; when its language is invalid the answer is the 400
    [invalid language] and nothing is queued.  The other request fields are
    untouched. *)
Theorem unsubscribe_optout (request : Endpoints.request) (token : string)
        (w : Endpoints.world) (s : Subscriber) :
  Endpoints.method request = "POST" →
  Endpoints.POST request !! "optout" = Some "Y" →
  truthy token = true →
  objects_get (Some token) None (Endpoints.subscribers w) = Return s →
  clean_slugs →
  let data :=
    <["newsletters" := Endpoints.join "," newsletter_slugs]>
      (Endpoints.POST request) in
  (¬ invalid_language (Endpoints.POST request) →
   unsubscribe request token w
   = (Return (Endpoints.mkResponse
                (Endpoints.Task (Views.JOk token false)) 200),
      Endpoints.mkWorld
        (Views.mkWorld
           (Endpoints.subscribers w)
           (Views.queue (Endpoints.views w)
            ++ [Views.mkTaskCall data (sub_email s) token false UNSUBSCRIBE
                                 true]))
        (Endpoints.jobs w)))
  ∧ (invalid_language (Endpoints.POST request) →
     unsubscribe request token w
     = (Return (Endpoints.mkResponse
                  (Endpoints.Task (Views.JError "invalid language"
                                                Views.BASKET_INVALID_LANGUAGE))
                  400),
        w))
  ∧ (∀ k, k ≠ "newsletters" → data !! k = Endpoints.POST request !! k).
Proof.
  intros Hpost Hoptout Htruthy Hget Hclean data.
  assert (request_data
            (as_views (Endpoints.mkRequest
                         (Endpoints.method request) (Endpoints.is_secure request)
                         (Endpoints.GET request) (Endpoints.POST request)
                         (Endpoints.META request) (Some s) None))
            (Some data) = data) as Hdata.
  { unfold request_data. destruct (decide (data = ∅)) as [Hempty | ?]; [| done].
    exfalso. by apply (insert_non_empty (Endpoints.POST request) "newsletters"
                         (Endpoints.join "," newsletter_slugs)). }
  assert (unsubscribe request token w
          = update_user_task
              (Endpoints.mkRequest
                 (Endpoints.method request) (Endpoints.is_secure request)
                 (Endpoints.GET request) (Endpoints.POST request)
                 (Endpoints.META request) (Some s) None)
              UNSUBSCRIBE (Some data) true w) as ->.
  { unfold Endpoints.unsubscribe, Endpoints.require_POST_token.
    rewrite Hpost. simpl.
    unfold Endpoints.logged_in, Endpoints.lookup_subscriber,
      Views.lookup_subscriber.
    simpl. rewrite Htruthy. simpl. rewrite Hget.
    rewrite with_subscribers_same. by rewrite Hoptout. }
  apply objects_get_inv in Hget as (Hin & Hmatch & _).
  unfold matches in Hmatch. rewrite andb_true_r in Hmatch.
  apply String.eqb_eq in Hmatch.
  assert (∀ l, data !! "lang" = Some l ↔ Endpoints.POST request !! "lang" = Some l)
    as Hsame.
  { intros l. unfold data. by rewrite lookup_insert_ne. }
  split; [| split; [| by intros k Hk; apply lookup_insert_ne]].
  - intros Hlang.
    erewrite update_user_task_subscriber; [| reflexivity | |].
    + by rewrite Hdata, Hmatch.
    + rewrite Hdata. by apply joined_slugs_known.
    + rewrite Hdata. intros (l & Hl & Hbad). apply Hlang. exists l.
      split; [by apply Hsame | done].
  - intros (l & Hl & Hbad).
    apply update_user_task_invalid_language.
    + rewrite Hdata. by apply joined_slugs_known.
    + rewrite Hdata. exists l. split; [by apply Hsame | done].
Qed.

(** *** [get_user_data] behind the views *)

Local Abbreviation fields_of := (fields_of newsletter_slugs slug_to_vendor_id).

Definition remote_error (sc : Z) (desc : string) (code : Views.error_code)
  : Prop :=
  (sc = 400%Z ∧ code = Views.BASKET_NETWORK_FAILURE)
  ∨ (sc = 500%Z ∧ code = Views.BASKET_EMAIL_PROVIDER_AUTH_FAILURE
     ∧ desc = "Email service provider auth failure").

Lemma get_user_data_world_cases token email sync (w : Endpoints.world) :
  (get_user_data token email sync w = (Return None, w)
   ∧ get_record Views.EXACTTARGET_DATA (lookup_key email token)
                requested_fields (lookup_column email) = Views.NoResults
   ∧ get_record Views.EXACTTARGET_OPTIN_STAGE (lookup_key email token)
                requested_fields (lookup_column email) = Views.NoResults)
  ∨ (∃ sc desc code,
        get_user_data token email sync w
        = (Return (Some (Views.ErrorData sc desc code)), w)
        ∧ remote_error sc desc code)
  ∨ (∃ e, Views.handled e = false
          ∧ get_user_data token email sync w = (Raise e, w))
  ∨ (∃ user confirmed master,
        let d := Views.mkUserData (fields_of user) confirmed false master in
        get_user_data token email sync w
        = (Return (Some (Views.UserData d)), if sync then synced d w else w)
        ∧ (get_record Views.EXACTTARGET_DATA (lookup_key email token)
                      requested_fields (lookup_column email) = Views.Found user
           ∨ get_record Views.EXACTTARGET_OPTIN_STAGE (lookup_key email token)
                        requested_fields (lookup_column email)
             = Views.Found user)).
Proof.
  unfold Endpoints.get_user_data.
  destruct (get_user_data_cases
              newsletter_slugs newsletter_fields slug_to_vendor_id get_record
              token email sync (Endpoints.subscribers w))
    as [(-> & ? & ?) | [(sc & desc & code & -> & ?)
       | [(e & ? & ->) | (user & c & m & -> & Hwhere)]]];
    rewrite ?with_subscribers_same.
  - by left.
  - right; left. by eauto 10.
  - right; right; left. by eauto.
  - do 3 right. exists user, c, m. simpl. split.
    + destruct sync; [done | by rewrite with_subscribers_same].
    + destruct Hwhere as [(_ & _ & ?) | [_ ?]]; by eauto.
Qed.

Lemma synced_queues (d : Views.user_data) (w : Endpoints.world) :
  Views.queue (Endpoints.views (synced d w)) = Views.queue (Endpoints.views w)
  ∧ Endpoints.jobs (synced d w) = Endpoints.jobs w.
Proof. done. Qed.

(** *** [get_user] *)

(** X24.  [get_user] answers 200 with the user's data, 400 with a
    [null] body when the remote service does not know the user, and the
    status code of the error dictionary (400 for a network failure, 500
    for an authorisation failure) otherwise; the [status_code] key is
    taken out of the body it returns. *)
Theorem get_user_status token email sync (w : Endpoints.world) :
  match get_user token email sync w with
  | (Return r, w') =>
      (Endpoints.status_code r = 200%Z
       ∧ ∃ d, Endpoints.content r = Endpoints.Dict (Endpoints.DUser d)
              ∧ w' = if sync then synced d w else w)
      ∨ (Endpoints.status_code r = 400%Z
         ∧ Endpoints.content r = Endpoints.Null ∧ w' = w)
      ∨ (∃ desc code,
            Endpoints.content r
            = Endpoints.Dict (Endpoints.DError None desc code)
            ∧ remote_error (Endpoints.status_code r) desc code ∧ w' = w)
  | (Raise e, w') => Views.handled e = false ∧ w' = w
  end.
Proof.
  unfold Endpoints.get_user.
  destruct (get_user_data_world_cases token email sync w)
    as [(-> & _) | [(sc & desc & code & -> & ?)
       | [(e & ? & ->) | (user & c & m & Hrun & _)]]].
  - right; left. done.
  - right; right. simpl. by eauto.
  - done.
  - simpl in Hrun. rewrite Hrun. simpl. left. by eauto.
Qed.

(** *** [lookup_user] *)

(** X22.  [lookup_user] never changes the local table or a queue.  It
    answers 200 exactly with the data of a user, 404 for a user the
    remote service does not know, 401 without SSL or without a valid API
    key, and 400 for a usage error and for every failure of the remote
    service, the authorisation failure included, whose dictionary it
    returns with its own [status_code] still in it. *)
Theorem lookup_user_answers (request : Endpoints.request) (w : Endpoints.world) :
  match lookup_user request w with
  | (Return r, w') =>
      w' = w
      ∧ ((Endpoints.status_code r = 200%Z
          ∧ ∃ d, Endpoints.content r = Endpoints.Dict (Endpoints.DUser d))
         ∨ (Endpoints.status_code r = 404%Z
            ∧ ∃ code, Endpoints.content r
                      = Endpoints.Error MSG_USER_NOT_FOUND code
                      ∧ code = (if truthy_opt (Endpoints.GET request !! "token")
                                then Endpoints.BASKET_UNKNOWN_TOKEN
                                else Endpoints.BASKET_UNKNOWN_EMAIL))
         ∨ (Endpoints.status_code r = 401%Z
            ∧ ∃ desc code, Endpoints.content r = Endpoints.Error desc code
                           ∧ (code = Endpoints.BASKET_SSL_REQUIRED
                              ∨ code = Endpoints.BASKET_AUTH_ERROR))
         ∨ (Endpoints.status_code r = 400%Z
            ∧ (Endpoints.content r
               = Endpoints.Error MSG_EMAIL_OR_TOKEN_REQUIRED
                                 (Endpoints.Code Views.BASKET_USAGE_ERROR)
               ∨ ∃ sc desc code,
                   Endpoints.content r
                   = Endpoints.Dict (Endpoints.DError (Some sc) desc code)
                   ∧ remote_error sc desc code)))
  | (Raise e, w') => w' = w ∧ Views.handled e = false
  end.
Proof.
  unfold Endpoints.lookup_user.
  destruct (Endpoints.is_secure request); simpl;
    [| by split; [| right; right; left; eauto 10]].
  destruct (_ || _); [by split; [| do 3 right; eauto] |].
  destruct (_ && _); [by split; [| right; right; left; eauto 10] |].
  destruct (get_user_data_world_cases
              (Endpoints.GET request !! "token")
              (Endpoints.GET request !! "email") false w)
    as [(-> & _) | [(sc & desc & code & -> & ?)
       | [(e & ? & ->) | (user & c & m & Hrun & _)]]].
  - split; [done |]. right; left. by eauto.
  - split; [done |]. do 3 right. simpl. by eauto 10.
  - done.
  - simpl in Hrun. rewrite Hrun. simpl. split; [done |]. left. by eauto.
Qed.

(** The API key [lookup_user] checks. *)
Definition api_key (request : Endpoints.request) : option string :=
  Views.or_else (Endpoints.GET request !! "api-key")
                (Endpoints.META request !! "HTTP_X_API_KEY").

(** The requests [lookup_user] turns away. *)
Definition turned_away (request : Endpoints.request) : Prop :=
  Endpoints.is_secure request = false
  ∨ truthy_opt (Endpoints.GET request !! "email")
    = truthy_opt (Endpoints.GET request !! "token")
  ∨ (truthy_opt (Endpoints.GET request !! "email") = true
     ∧ api_key_is_valid (api_key request) = false).

(** X23.  A request without SSL, one that gives both an address and a
    token or neither, and a lookup by address without a valid API key
    (read from the query and, only if the query has none, from the
    header) are answered 401 or 400 without asking the remote service:
    the answer is the same whatever the remote service holds. *)
Theorem lookup_user_guards
        (get_record' :
           Views.database → option string → list string → string
           → Views.get_result)
        (request : Endpoints.request) (w : Endpoints.world) :
  turned_away request →
  (∃ desc code status,
      (status = 400%Z ∨ status = 401%Z)
      ∧ lookup_user request w
        = (Return (Endpoints.mkResponse (Endpoints.Error desc code) status), w))
  ∧ Endpoints.lookup_user newsletter_slugs newsletter_fields slug_to_vendor_id
                          MSG_EMAIL_OR_TOKEN_REQUIRED MSG_USER_NOT_FOUND
                          get_record' api_key_is_valid request w
    = lookup_user request w.
Proof.
  unfold turned_away, api_key, Endpoints.lookup_user.
  intros [-> | Hguard]; [by split; [eauto 10 |] |].
  destruct (Endpoints.is_secure request); simpl; [| by split; [eauto 10 |]].
  destruct Hguard as [-> | [-> ->]].
  - destruct (truthy_opt (Endpoints.GET request !! "token")); simpl;
      by split; [eauto 10 |].
  - destruct (truthy_opt (Endpoints.GET request !! "token")); simpl;
      by split; [eauto 10 |].
Qed.

(** *** [send_recovery_message] *)

(** X25.  [send_recovery_message] queues one message, for the cleaned
    address, exactly when it answers 200, and it answers 404 only when
    neither the master nor the opt-in data extension has the address; an
    invalid form is answered 400, and no answer other than 200 changes
    anything.  It never queues an [update_user] call. *)
Theorem send_recovery_message_queues (request : Endpoints.request)
        (w : Endpoints.world) :
  match send_recovery_message request w with
  | (Return r, w') =>
      Views.queue (Endpoints.views w') = Views.queue (Endpoints.views w)
      ∧ ((Endpoints.status_code r = 200%Z ∧ Endpoints.content r = Endpoints.Ok
          ∧ ∃ email,
              clean_email (Endpoints.POST request) = Some email
              ∧ Endpoints.jobs w'
                = Endpoints.jobs w ++ [Endpoints.send_recovery_message_task email])
         ∨ (Endpoints.status_code r = 404%Z ∧ w' = w
            ∧ Endpoints.content r
              = Endpoints.Error "Email address not known"
                                Endpoints.BASKET_UNKNOWN_EMAIL
            ∧ ∃ email,
                clean_email (Endpoints.POST request) = Some email
                ∧ get_record Views.EXACTTARGET_DATA
                             (lookup_key (Some email) None) requested_fields
                             (lookup_column (Some email)) = Views.NoResults
                ∧ get_record Views.EXACTTARGET_OPTIN_STAGE
                             (lookup_key (Some email) None) requested_fields
                             (lookup_column (Some email)) = Views.NoResults)
         ∨ (Endpoints.status_code r = 400%Z ∧ w' = w
            ∧ clean_email (Endpoints.POST request) = None
            ∧ ∃ desc, Endpoints.content r
                      = Endpoints.Error desc Endpoints.BASKET_INVALID_EMAIL)
         ∨ (Endpoints.status_code r = 405%Z ∧ w' = w
            ∧ Endpoints.method request ≠ "POST"))
  | (Raise e, w') => w' = w ∧ Views.handled e = false
  end.
Proof.
  unfold Endpoints.send_recovery_message, Endpoints.require_POST.
  destruct (String.eqb_spec (Endpoints.method request) "POST") as [Hpost | Hget];
    [| by split; [| do 3 right]].
  destruct (clean_email (Endpoints.POST request)) as [email |] eqn:Hclean;
    [| by split; [| right; right; left; eauto 10]].
  destruct (get_user_data_world_cases None (Some email) true w)
    as [(-> & ? & ?) | [(sc & desc & code & -> & ?)
       | [(e & ? & ->) | (user & c & m & Hrun & _)]]].
  - split; [done |]. right; left. by eauto 10.
  - split; [done |]. left. by eauto 10.
  - done.
  - simpl in Hrun. rewrite Hrun. split; [done |]. left. by eauto 10.
Qed.

(** X26.  A failure of the remote service does not stop the recovery
    message: when the lookup of a valid address in the master data
    extension fails with a [NewsletterException], [get_user_data] returns
    an error dictionary, which is not empty, and [send_recovery_message]
    queues the message and answers 200. *)
Theorem send_recovery_message_remote_failure
        (request : Endpoints.request) (w : Endpoints.world)
        (email msg : string) :
  Endpoints.method request = "POST" →
  clean_email (Endpoints.POST request) = Some email →
  get_record Views.EXACTTARGET_DATA (lookup_key (Some email) None)
             requested_fields (lookup_column (Some email))
  = Views.Failed (NewsletterException msg) →
  Views.get_user_data newsletter_slugs newsletter_fields slug_to_vendor_id
                      get_record None (Some email) true
                      (Endpoints.subscribers w)
  = (Return (Some (Views.ErrorData 400 msg Views.BASKET_NETWORK_FAILURE)),
     Endpoints.subscribers w)
  ∧ send_recovery_message request w
    = (Return (Endpoints.mkResponse Endpoints.Ok 200),
       Endpoints.delay (Endpoints.send_recovery_message_task email) w).
Proof.
  intros Hpost Hclean Hfail.
  assert (Views.get_user_data newsletter_slugs newsletter_fields
                              slug_to_vendor_id get_record None (Some email)
                              true (Endpoints.subscribers w)
          = (Return (Some (Views.ErrorData 400 msg
                             Views.BASKET_NETWORK_FAILURE)),
             Endpoints.subscribers w)) as Hdata.
  { unfold Views.get_user_data, Views.get_user_data_try, Views.look_for_user.
    fold requested_fields. fold (lookup_key (Some email) None).
    fold (lookup_column (Some email)). by rewrite Hfail. }
  split; [done |].
  unfold Endpoints.send_recovery_message, Endpoints.require_POST,
    Endpoints.get_user_data.
  rewrite Hpost, Hclean. simpl. rewrite Hdata.
  by rewrite with_subscribers_same.
Qed.

(** *** [debug_user] *)

(** X27.  [debug_user] changes nothing.  When it answers with the
    user's dictionary, the supertoken was the right one, [in_basket] says
    whether the local table has exactly one row with the address, with
    that row's token as [basket_token] (and the empty string otherwise),
    and the status is 200 for user data and the popped status code for an
    error dictionary.  Every other answer is 400 or 401. *)
Theorem debug_user_reports (request : Endpoints.request) (w : Endpoints.world) :
  (debug_user request w).2 = w
  ∧ match (debug_user request w).1 with
    | Return (Endpoints.mkResponse
                (Endpoints.Debug d in_basket basket_token) status) =>
        Endpoints.GET request !! "supertoken" = Some SUPERTOKEN
        ∧ (∃ email,
              Endpoints.GET request !! "email" = Some email
              ∧ if in_basket
                then objects_get None (Some email) (Endpoints.subscribers w)
                     = Return (mkSubscriber email basket_token)
                else basket_token = ""
                     ∧ email ∉ map sub_email (Endpoints.subscribers w))
        ∧ ((status = 200%Z ∧ ∃ u, d = Endpoints.DUser u)
           ∨ ∃ desc code, d = Endpoints.DError None desc code
                          ∧ remote_error status desc code)
    | Return (Endpoints.mkResponse (Endpoints.Error desc code) status) =>
        (status = 400%Z ∧ code = Endpoints.Code Views.BASKET_USAGE_ERROR)
        ∨ (status = 401%Z ∧ code = Endpoints.BASKET_AUTH_ERROR)
    | Return _ => False
    | Raise e => True
    end.
Proof.
  unfold Endpoints.debug_user.
  destruct (Endpoints.GET request !! "email") as [email |] eqn:Hemail;
    [| by split; [| left]].
  destruct (Endpoints.GET request !! "supertoken") as [supertoken |] eqn:Hsuper;
    [| by split; [| left]].
  destruct (String.eqb_spec supertoken SUPERTOKEN) as [-> | Hbad]; simpl;
    [| by split; [| right]].
  assert (∀ d status,
             ((status = 200%Z ∧ ∃ u, d = Endpoints.DUser u)
              ∨ ∃ desc code, d = Endpoints.DError None desc code
                             ∧ remote_error status desc code) →
             let out :=
               match objects_get None (Some email) (Endpoints.subscribers w) with
               | Return user =>
                   (Return (Endpoints.HttpResponseJSON
                              (Endpoints.Debug d true (sub_token user))
                              (Some status)), w)
               | Raise DoesNotExist =>
                   (Return (Endpoints.HttpResponseJSON
                              (Endpoints.Debug d false "") (Some status)), w)
               | Raise e => (Raise e, w)
               end in
             out.2 = w
             ∧ match out.1 with
               | Return (Endpoints.mkResponse
                           (Endpoints.Debug d in_basket basket_token) status) =>
                   Some SUPERTOKEN = Some SUPERTOKEN
                   ∧ (∃ email',
                         Some email = Some email'
                         ∧ if in_basket
                           then objects_get None (Some email')
                                            (Endpoints.subscribers w)
                                = Return (mkSubscriber email' basket_token)
                           else basket_token = ""
                                ∧ email' ∉ map sub_email (Endpoints.subscribers w))
                   ∧ ((status = 200%Z ∧ ∃ u, d = Endpoints.DUser u)
                      ∨ ∃ desc code, d = Endpoints.DError None desc code
                                     ∧ remote_error status desc code)
               | Return (Endpoints.mkResponse (Endpoints.Error desc code) status) =>
                   (status = 400%Z
                    ∧ code = Endpoints.Code Views.BASKET_USAGE_ERROR)
                   ∨ (status = 401%Z ∧ code = Endpoints.BASKET_AUTH_ERROR)
               | Return _ => False
               | Raise e => True
               end) as Hreport.
  { intros d status Hstatus.
    destruct (objects_get None (Some email) (Endpoints.subscribers w))
      as [row | e] eqn:Hget; simpl.
    - split; [done |]. split; [done |]. split; [| done]. exists email.
      split; [done |].
      pose proof Hget as Hrow. apply objects_get_inv in Hrow as (_ & Hmatch & _).
      rewrite matches_email in Hmatch. apply String.eqb_eq in Hmatch.
      destruct row as [e t]. simpl in *. by subst e.
    - destruct e; try done. simpl. split; [done |]. split; [done |].
      split; [| done]. exists email. split; [done |]. split; [done |].
      apply filter_email_none. by apply objects_get_missing. }
  destruct (get_user_data_world_cases None (Some email) false w)
    as [(-> & _) | [(sc & desc & code & -> & ?)
       | [(e & ? & ->) | (user & c & m & Hrun & _)]]].
  - done.
  - simpl. apply Hreport. right. by eauto.
  - done.
  - simpl in Hrun. rewrite Hrun. simpl. apply Hreport. left. by eauto.
Qed.

(** X28.  For an address that neither the master nor the opt-in data
    extension has, [debug_user] does not answer: [get_user_data] returns
    [None] and popping the status code off it raises [AttributeError]. *)
Theorem debug_user_unknown (request : Endpoints.request) (w : Endpoints.world)
        (email : string) :
  Endpoints.GET request !! "email" = Some email →
  Endpoints.GET request !! "supertoken" = Some SUPERTOKEN →
  get_record Views.EXACTTARGET_DATA (lookup_key (Some email) None)
             requested_fields (lookup_column (Some email)) = Views.NoResults →
  get_record Views.EXACTTARGET_OPTIN_STAGE (lookup_key (Some email) None)
             requested_fields (lookup_column (Some email)) = Views.NoResults →
  debug_user request w
  = (Raise (AttributeError "'NoneType' object has no attribute 'pop'"), w).
Proof.
  intros Hemail Hsuper Hmaster Hoptin.
  unfold Endpoints.debug_user. rewrite Hemail, Hsuper, String.eqb_refl. simpl.
  unfold Endpoints.get_user_data, Views.get_user_data, Views.get_user_data_try,
    Views.look_for_user.
  fold requested_fields. fold (lookup_key (Some email) None).
  fold (lookup_column (Some email)). rewrite Hmaster, Hoptin.
  by rewrite with_subscribers_same.
Qed.

(** *** [subscribe] *)

(** X29.  [subscribe] queues one [update_user] call exactly when it
    answers 200: a SUBSCRIBE call with the POST data as they are, for the
    address of the request and the token of its row in the local table,
    with the opt-in flag set unless the request has an [optin] other than
    [Y].  A request without newsletters is turned away before any lookup,
    and no answer other than 200 changes anything; no other task is ever
    queued. *)
Theorem subscribe_queues (request : Endpoints.request) (w : Endpoints.world) :
  Endpoints.subscriber request = None →
  match subscribe request w with
  | (Return r, w') =>
      Endpoints.jobs w' = Endpoints.jobs w
      ∧ ((Endpoints.status_code r = 200%Z
          ∧ truthy_opt (Endpoints.POST request !! "newsletters") = true
          ∧ ∃ email token created,
              Endpoints.content r = Endpoints.Task (Views.JOk token created)
              ∧ Views.queue (Endpoints.views w')
                = Views.queue (Endpoints.views w)
                  ++ [Views.mkTaskCall
                        (Endpoints.POST request) email token created SUBSCRIBE
                        (bool_decide
                           (default "Y" (Endpoints.POST request !! "optin")
                            = "Y"))]
              ∧ Endpoints.POST request !! "email" = Some email
              ∧ mkSubscriber email token ∈ Endpoints.subscribers w')
         ∨ (Endpoints.status_code r = 400%Z ∧ w' = w
            ∧ ∃ desc,
                Endpoints.content r
                = Endpoints.Error desc (Endpoints.Code Views.BASKET_USAGE_ERROR)
                ∨ ∃ code, Endpoints.content r
                          = Endpoints.Task (Views.JError desc code))
         ∨ (Endpoints.status_code r = 405%Z ∧ w' = w
            ∧ Endpoints.method request ≠ "POST"))
  | (Raise e, w') =>
      Endpoints.jobs w' = Endpoints.jobs w
      ∧ Views.queue (Endpoints.views w') = Views.queue (Endpoints.views w)
  end.
Proof.
  intros Hanonymous. unfold Endpoints.subscribe, Endpoints.require_POST.
  destruct (String.eqb_spec (Endpoints.method request) "POST") as [Hpost | Hget];
    [| by split; [| right; right]].
  destruct (truthy_opt (Endpoints.POST request !! "newsletters")) eqn:Hnl; simpl;
    [| by split; [| right; left; eauto 10]].
  rewrite eqb_bool_decide. unfold Endpoints.update_user_task.
  fold (as_views request).
  destruct (update_user_task_cases
              newsletter_slugs newsletter_fields newsletter_languages
              slug_to_vendor_id MSG_EMAIL_OR_TOKEN_REQUIRED get_record new_token
              (as_views request) SUBSCRIBE None
              (bool_decide (default "Y" (Endpoints.POST request !! "optin") = "Y"))
              (Endpoints.views w))
    as [(desc & code & ->) | [(e & db' & ->)
       | (email & token & created & db' & -> & Hwho)]]; simpl.
  - split; [done |]. right; left. split; [done |].
    split; [by destruct w |]. by eauto.
  - done.
  - split; [done |]. left. do 2 (split; [done |]).
    destruct Hwho as [(Hsub & _) | (_ & Hemail & Hin)].
    { simpl in Hsub. congruence. }
    exists email, token, created. by eauto.
Qed.

(** *** [user] *)

(** X30.  A request to [user] that is not a POST queues nothing.  It
    answers 200 with the data of a user, either the data fetched while
    logging in, which carry the token of the URL, or the data fetched for
    the subscriber's token without synchronising the table; it answers
    403 for a token nobody knows, 400 with a [null] body when the local
    table knows the token and the remote service does not, and the status
    code of the remote error otherwise. *)
Theorem user_get (request : Endpoints.request) (token : string)
        (w : Endpoints.world) :
  truthy token = true →
  Endpoints.method request ≠ "POST" →
  match user request token w with
  | (Return r, w') =>
      Views.queue (Endpoints.views w') = Views.queue (Endpoints.views w)
      ∧ Endpoints.jobs w' = Endpoints.jobs w
      ∧ ((Endpoints.status_code r = 200%Z
          ∧ ∃ d, Endpoints.content r = Endpoints.Dict (Endpoints.DUser d)
                 ∧ (w' = w
                    ∨ (w' = synced d w
                       ∧ Views.uf_token (Views.ud_fields d) = token
                       ∧ unknown_token token w)))
         ∨ (Endpoints.status_code r = 403%Z ∧ w' = w ∧ unknown_token token w)
         ∨ (Endpoints.status_code r = 400%Z
            ∧ Endpoints.content r = Endpoints.Null ∧ w' = w
            ∧ ∃ s, s ∈ Endpoints.subscribers w ∧ sub_token s = token)
         ∨ (∃ desc code,
               Endpoints.content r
               = Endpoints.Dict (Endpoints.DError None desc code)
               ∧ remote_error (Endpoints.status_code r) desc code ∧ w' = w))
  | (Raise e, w') =>
      Views.queue (Endpoints.views w') = Views.queue (Endpoints.views w)
      ∧ Endpoints.jobs w' = Endpoints.jobs w
  end.
Proof.
  intros Htruthy Hget. unfold Endpoints.user.
  match goal with
  | |- context [Endpoints.logged_in _ _ _ _ _ _ _ ?f _ _ _] =>
      destruct (logged_in_cases f request token w Htruthy)
        as [(e & db' & ->) | [[-> Hnone] | [(s & Hin & Htoken & ->)
           | (s & d & Hin & Htoken & Hsame & Hnone & ->)]]]
  end.
  - done.
  - do 2 (split; [done |]). right; left. by eauto.
  - simpl. apply String.eqb_neq in Hget. rewrite Hget.
    unfold Endpoints.get_user.
    destruct (get_user_data_world_cases (Some (sub_token s)) None false w)
      as [(-> & _) | [(sc & desc & code & -> & ?)
         | [(e & ? & ->) | (user & c & m & Hrun & _)]]].
    + do 2 (split; [done |]). right; right; left. by eauto 10.
    + do 2 (split; [done |]). do 3 right. simpl. by eauto 10.
    + done.
    + simpl in Hrun. rewrite Hrun. simpl. do 2 (split; [done |]). left.
      by eauto 10.
  - simpl. apply String.eqb_neq in Hget. rewrite Hget. simpl.
    do 2 (split; [done |]). left. split; [done |]. exists d. by eauto 10.
Qed.

End EndpointsMore.

(** ** The reconciliation engine: the write and the welcomes *)

Lemma NoDup_fmap_eq {A B} (f : A → B) (l : list A) (x y : A) :
  NoDup (map f l) → x ∈ l → y ∈ l → f x = f y → x = y.
Proof.
  induction l as [|a l IH]; [by intros _ Hx; apply elem_of_nil in Hx |].
  simpl. intros [Hnot Hnd]%NoDup_cons Hx Hy Heq.
  apply elem_of_cons in Hx as [-> | Hx]; apply elem_of_cons in Hy as [-> | Hy].
  - done.
  - destruct Hnot. rewrite Heq. by apply list_elem_of_fmap_2.
  - destruct Hnot. rewrite <- Heq. by apply list_elem_of_fmap_2.
  - by apply IH.
Qed.

Section ReconcileProps.
Variable catalog : list Reconcile.Newsletter.
Variable requires_double_optin : Reconcile.Newsletter → option string → bool.
Variable precedence : list (string * string).
Variable today : string.
Variable now : string.

Local Abbreviation by_slug := (Reconcile.by_slug catalog).
Local Abbreviation named_newsletters := (Reconcile.named_newsletters catalog).
Local Abbreviation to_subscribe := (Reconcile.to_subscribe catalog).
Local Abbreviation to_unsubscribe := (Reconcile.to_unsubscribe catalog).
Local Abbreviation mark := (Reconcile.mark today).
Local Abbreviation full_fields := (Reconcile.full_fields catalog today now).
Local Abbreviation build_write :=
  (Reconcile.build_write catalog requires_double_optin today now).
Local Abbreviation select_messages :=
  (Reconcile.select_messages requires_double_optin precedence).

(** The two columns of a newsletter. *)
Definition flag_of (nl : Reconcile.Newsletter) : string :=
  Reconcile.vendor_field nl +:+ "_FLG".
Definition date_of (nl : Reconcile.Newsletter) : string :=
  Reconcile.vendor_field nl +:+ "_DATE".

Lemma by_slug_inv (s : string) (nl : Reconcile.Newsletter) :
  by_slug s = Some nl → nl ∈ catalog ∧ Reconcile.slug nl = s.
Proof.
  unfold Reconcile.by_slug. intros [Hin Heq]%List.find_some.
  split; [by apply list_elem_of_In | by apply String.eqb_eq].
Qed.

Lemma named_newsletters_inv (desired : Reconcile.DesiredChange)
      (nl : Reconcile.Newsletter) :
  nl ∈ named_newsletters desired ↔
  ∃ s, s ∈ Reconcile.named_slugs desired ∧ by_slug s = Some nl.
Proof. unfold Reconcile.named_newsletters. apply list_elem_of_omap. Qed.

Lemma to_subscribe_inv desired snapshot nl :
  nl ∈ to_subscribe desired snapshot ↔
  (Reconcile.type desired = Reconcile.SUBSCRIBE
   ∨ Reconcile.type desired = Reconcile.SET)
  ∧ nl ∈ named_newsletters desired
  ∧ Reconcile.subscribed snapshot (Reconcile.slug nl) = false.
Proof.
  unfold Reconcile.to_subscribe.
  destruct (Reconcile.type desired);
    rewrite ?list_elem_of_In, ?List.filter_In, <- ?list_elem_of_In,
      ?negb_true_iff; try tauto.
  split; [by intros ?%elem_of_nil | by intros [[|] _]].
Qed.

Lemma to_unsubscribe_inv desired snapshot nl :
  nl ∈ to_unsubscribe desired snapshot →
  nl ∈ catalog
  ∧ (snapshot = None ∨ Reconcile.subscribed snapshot (Reconcile.slug nl) = true)
  ∧ ((Reconcile.type desired = Reconcile.UNSUBSCRIBE
      ∧ nl ∈ named_newsletters desired)
     ∨ (Reconcile.type desired = Reconcile.SET
        ∧ Reconcile.slug nl ∉ Reconcile.named_slugs desired)).
Proof.
  unfold Reconcile.to_unsubscribe.
  assert (nl ∈ match Reconcile.type desired with
               | Reconcile.SUBSCRIBE => []
               | Reconcile.UNSUBSCRIBE => named_newsletters desired
               | Reconcile.SET =>
                   List.filter
                     (λ nl, negb (mem (Reconcile.slug nl)
                                      (Reconcile.named_slugs desired))) catalog
               end →
          nl ∈ catalog
          ∧ ((Reconcile.type desired = Reconcile.UNSUBSCRIBE
              ∧ nl ∈ named_newsletters desired)
             ∨ (Reconcile.type desired = Reconcile.SET
                ∧ Reconcile.slug nl ∉ Reconcile.named_slugs desired)))
    as Htargeted.
  { destruct (Reconcile.type desired).
    - by intros ?%elem_of_nil.
    - intros Hin. split; [| by left].
      apply named_newsletters_inv in Hin as (s & _ & Hs).
      by apply by_slug_inv in Hs as [? _].
    - intros [Hin Hout]%list_elem_of_In%List.filter_In.
      apply list_elem_of_In in Hin. apply negb_true_iff, mem_false in Hout.
      split; [done | by right]. }
  destruct snapshot as [snap|].
  - intros [Hin Hsub]%list_elem_of_In%List.filter_In.
    apply list_elem_of_In, Htargeted in Hin as [? ?]. by eauto.
  - intros [? ?]%Htargeted. by eauto.
Qed.

(** What a marking loop leaves in a field. *)
Lemma mark_loop flag (l : list Reconcile.Newsletter)
      (fields : gmap string string) (k : string) :
  foldl (mark flag) fields l !! k = fields !! k
  ∨ ∃ nl, nl ∈ l
          ∧ ((k = flag_of nl ∧ foldl (mark flag) fields l !! k = Some flag)
             ∨ (k = date_of nl ∧ foldl (mark flag) fields l !! k = Some today)).
Proof.
  revert fields. induction l as [|nl l IH]; intros fields; [by left |]. simpl.
  destruct (IH (mark flag fields nl)) as [Heq | (nl' & Hin & Hk)].
  - rewrite Heq. unfold Reconcile.mark.
    destruct (decide (k = date_of nl)) as [-> | Hdate].
    { right. exists nl. split; [left |]. right. split; [done |].
      unfold Reconcile.mark, date_of. by rewrite lookup_insert_eq. }
    destruct (decide (k = flag_of nl)) as [-> | Hflag].
    { right. exists nl. split; [left |]. left. split; [done |].
      unfold Reconcile.mark, flag_of, date_of in *.
      by rewrite lookup_insert_ne, lookup_insert_eq. }
    left. unfold flag_of, date_of in *.
    by rewrite !lookup_insert_ne.
  - right. exists nl'. split; [by right | done].
Qed.

(** The keys of the full field set that are no newsletter column. *)
Definition identifying_keys : list string :=
  ["EMAIL_ADDRESS_"; "EMAIL_PERMISSION_STATUS_"; "TOKEN"; "MODIFIED_DATE_";
   "EMAIL_FORMAT_"; "COUNTRY_"; "LANGUAGE_ISO2"; "SubscriberKey";
   "EmailAddress"].

Lemma identifying_key_fixed (k : string) : k ∈ identifying_keys → fixed_key k.
Proof.
  unfold identifying_keys. rewrite !elem_of_cons, elem_of_nil.
  intros [-> | [-> | [-> | [-> | [-> | [-> | [-> | [-> | [-> | []]]]]]]]]];
    by split.
Qed.

(** The fields before the newsletter flags are set. *)
Definition base_fields (email token : string) (desired : Reconcile.DesiredChange)
  : gmap string string :=
  let fields : gmap string string :=
    <["MODIFIED_DATE_" := now]>
      (<["TOKEN" := token]>
         (<["EMAIL_PERMISSION_STATUS_" := "I"]> {["EMAIL_ADDRESS_" := email]})) in
  let fields :=
    match Reconcile.format desired with
    | Some f => <["EMAIL_FORMAT_" := f]> fields
    | None => fields
    end in
  let fields :=
    match Reconcile.country desired with
    | Some c => <["COUNTRY_" := c]> fields
    | None => fields
    end in
  match Reconcile.lang desired with
  | Some l => <["LANGUAGE_ISO2" := l]> fields
  | None => fields
  end.

Lemma full_fields_unfold email token desired snapshot :
  full_fields email token desired snapshot
  = foldl (mark "N")
          (foldl (mark "Y") (base_fields email token desired)
                 (to_subscribe desired snapshot))
          (to_unsubscribe desired snapshot).
Proof. reflexivity. Qed.

Lemma not_identifying_key (k : string) :
  k ∉ identifying_keys →
  k ≠ "EMAIL_ADDRESS_" ∧ k ≠ "EMAIL_PERMISSION_STATUS_" ∧ k ≠ "TOKEN"
  ∧ k ≠ "MODIFIED_DATE_" ∧ k ≠ "EMAIL_FORMAT_" ∧ k ≠ "COUNTRY_"
  ∧ k ≠ "LANGUAGE_ISO2" ∧ k ≠ "SubscriberKey" ∧ k ≠ "EmailAddress".
Proof.
  unfold identifying_keys. rewrite !elem_of_cons. intros Hnot.
  repeat split; intros ->; apply Hnot; tauto.
Qed.

Lemma base_fields_keys email token desired k :
  is_Some (base_fields email token desired !! k) → k ∈ identifying_keys.
Proof.
  intros Hsome. destruct (decide (k ∈ identifying_keys)) as [| Hnot]; [done |].
  apply not_identifying_key in Hnot as (? & ? & ? & ? & ? & ? & ? & ? & ?).
  exfalso. revert Hsome. unfold base_fields.
  destruct (Reconcile.format desired), (Reconcile.country desired),
    (Reconcile.lang desired); cbv zeta;
    rewrite ?lookup_insert_ne by done; rewrite lookup_singleton_ne by done;
    by intros [? ?].
Qed.

Lemma base_fields_format email token desired :
  base_fields email token desired !! "EMAIL_FORMAT_" = Reconcile.format desired.
Proof.
  unfold base_fields.
  destruct (Reconcile.format desired), (Reconcile.country desired),
    (Reconcile.lang desired); by simplify_map_eq.
Qed.

(** A field that is no newsletter column is as the base fields have it. *)
Lemma full_fields_fixed email token desired snapshot k :
  fixed_key k →
  full_fields email token desired snapshot !! k
  = base_fields email token desired !! k.
Proof.
  intros Hfixed. rewrite full_fields_unfold.
  destruct (mark_loop "N" (to_unsubscribe desired snapshot)
              (foldl (mark "Y") (base_fields email token desired)
                     (to_subscribe desired snapshot)) k)
    as [-> | (nl & _ & [[-> _] | [-> _]])].
  - destruct (mark_loop "Y" (to_subscribe desired snapshot)
                (base_fields email token desired) k)
      as [-> | (nl & _ & [[-> _] | [-> _]])]; [done | |].
    + by destruct (fixed_key_flg _ (Reconcile.vendor_field nl) Hfixed).
    + by destruct (fixed_key_date _ (Reconcile.vendor_field nl) Hfixed).
  - by destruct (fixed_key_flg _ (Reconcile.vendor_field nl) Hfixed).
  - by destruct (fixed_key_date _ (Reconcile.vendor_field nl) Hfixed).
Qed.

(** A newsletter column of the full field set belongs to a newsletter
    the write subscribes or unsubscribes. *)
Lemma full_fields_column email token desired snapshot
      (nl : Reconcile.Newsletter) (k : string) :
  k = flag_of nl ∨ k = date_of nl →
  is_Some (full_fields email token desired snapshot !! k) →
  ∃ nl', Reconcile.vendor_field nl' = Reconcile.vendor_field nl
         ∧ (nl' ∈ to_subscribe desired snapshot
            ∨ nl' ∈ to_unsubscribe desired snapshot).
Proof.
  intros Hk Hsome. rewrite full_fields_unfold in Hsome.
  assert (∀ nl' : Reconcile.Newsletter,
             k = flag_of nl' ∨ k = date_of nl' →
             Reconcile.vendor_field nl' = Reconcile.vendor_field nl) as Hsame.
  { intros nl' Hk'. unfold flag_of, date_of in *.
    destruct Hk as [-> | ->], Hk' as [Hk' | Hk'].
    - by apply append_suffix_inj in Hk'.
    - by destruct (flg_ne_date _ _ Hk').
    - symmetry in Hk'. by destruct (flg_ne_date _ _ Hk').
    - by apply append_suffix_inj in Hk'. }
  destruct (mark_loop "N" (to_unsubscribe desired snapshot)
              (foldl (mark "Y") (base_fields email token desired)
                     (to_subscribe desired snapshot)) k)
    as [Heq | (nl' & Hin & Hk')].
  2:{ exists nl'. split; [| by right]. apply Hsame. tauto. }
  rewrite Heq in Hsome.
  destruct (mark_loop "Y" (to_subscribe desired snapshot)
              (base_fields email token desired) k)
    as [Heq' | (nl' & Hin & Hk')].
  2:{ exists nl'. split; [| by left]. apply Hsame. tauto. }
  rewrite Heq' in Hsome. apply base_fields_keys, identifying_key_fixed in Hsome.
  unfold flag_of, date_of in Hk. destruct Hk as [-> | ->].
  - by destruct (fixed_key_flg _ (Reconcile.vendor_field nl) Hsome).
  - by destruct (fixed_key_date _ (Reconcile.vendor_field nl) Hsome).
Qed.

(** The bare identifying keys hold no newsletter column and no format. *)
Lemma bare_keys_lookup (email token k : string) :
  is_Some ((<["EmailAddress" := email]> {["SubscriberKey" := token]}
            : gmap string string) !! k) →
  k ∈ identifying_keys.
Proof.
  intros Hsome. destruct (decide (k ∈ identifying_keys)) as [| Hnot]; [done |].
  apply not_identifying_key in Hnot as (? & ? & ? & ? & ? & ? & ? & ? & ?).
  exfalso. revert Hsome.
  rewrite lookup_insert_ne by done. rewrite lookup_singleton_ne by done.
  by intros [? ?].
Qed.

(** What [build_write] returns. *)
Lemma build_write_cases email token created desired snapshot :
  build_write email token created desired snapshot
  = (Views.EXACTTARGET_DATA, full_fields email token desired snapshot)
  ∨ (build_write email token created desired snapshot
     = (Views.EXACTTARGET_OPTIN_STAGE,
        <["EmailAddress" := email]> {["SubscriberKey" := token]})
     ∧ created = true ∧ Reconcile.type desired = Reconcile.SUBSCRIBE).
Proof.
  unfold Reconcile.build_write. destruct created; [| by left]. simpl.
  case_bool_decide; [| by left]. simpl.
  destruct (existsb _ _); [by right | by left].
Qed.

Lemma same_field (nl nl' : Reconcile.Newsletter) (k : string) :
  k = flag_of nl ∨ k = date_of nl →
  k = flag_of nl' ∨ k = date_of nl' →
  Reconcile.vendor_field nl' = Reconcile.vendor_field nl.
Proof.
  unfold flag_of, date_of. intros [-> | ->] [Hk | Hk].
  - by apply append_suffix_inj in Hk.
  - by destruct (flg_ne_date _ _ Hk).
  - symmetry in Hk. by destruct (flg_ne_date _ _ Hk).
  - by apply append_suffix_inj in Hk.
Qed.

Lemma mark_loop_keep flag (l : list Reconcile.Newsletter)
      (fields : gmap string string) (nl : Reconcile.Newsletter) :
  fields !! flag_of nl = Some flag → fields !! date_of nl = Some today →
  foldl (mark flag) fields l !! flag_of nl = Some flag
  ∧ foldl (mark flag) fields l !! date_of nl = Some today.
Proof.
  intros Hflag Hdate. split.
  - destruct (mark_loop flag l fields (flag_of nl))
      as [-> | (nl' & _ & [[_ ?] | [Hk _]])]; [done | done |].
    by destruct (flg_ne_date _ _ Hk).
  - destruct (mark_loop flag l fields (date_of nl))
      as [-> | (nl' & _ & [[Hk _] | [_ ?]])]; [done | | done].
    symmetry in Hk. by destruct (flg_ne_date _ _ Hk).
Qed.

Lemma mark_loop_sets flag (l : list Reconcile.Newsletter)
      (fields : gmap string string) (nl : Reconcile.Newsletter) :
  nl ∈ l →
  foldl (mark flag) fields l !! flag_of nl = Some flag
  ∧ foldl (mark flag) fields l !! date_of nl = Some today.
Proof.
  revert fields. induction l as [|x l IH]; intros fields Hin;
    [by apply elem_of_nil in Hin |].
  simpl. apply elem_of_cons in Hin as [<- | Hin]; [| by apply IH].
  apply mark_loop_keep; unfold Reconcile.mark, flag_of, date_of.
  - rewrite lookup_insert_ne, lookup_insert_eq; [done |].
    intros Hk. symmetry in Hk. by destruct (flg_ne_date _ _ Hk).
  - by rewrite lookup_insert_eq.
Qed.

(** C1.  For a SUBSCRIBE or SET change and a catalog newsletter named in
    it: if the snapshot already shows the newsletter as subscribed, the
    field map built for the write has neither its flag field nor its date
    field; the two fields are in the field map only when no snapshot
    exists or the snapshot does not show the newsletter as subscribed (a
    different flag value, or a brand-new subscription); and in the full
    field set they are then there, with ['Y'] and the current date.  The
    catalog stores each newsletter in a field of its own. *)
Theorem build_write_omits_unchanged
        (email token : string) (created : bool)
        (desired : Reconcile.DesiredChange)
        (snapshot : option Reconcile.Snapshot.t)
        (s : string) (nl : Reconcile.Newsletter) :
  NoDup (map Reconcile.vendor_field catalog) →
  Reconcile.type desired = Reconcile.SUBSCRIBE
  ∨ Reconcile.type desired = Reconcile.SET →
  s ∈ Reconcile.named_slugs desired →
  by_slug s = Some nl →
  let target := (build_write email token created desired snapshot).1 in
  let fields := (build_write email token created desired snapshot).2 in
  (∀ snap, snapshot = Some snap →
           s ∈ Reconcile.Snapshot.subscribed_newsletters snap →
           fields !! flag_of nl = None ∧ fields !! date_of nl = None)
  ∧ (is_Some (fields !! flag_of nl) ∨ is_Some (fields !! date_of nl) →
     snapshot = None
     ∨ ∃ snap, snapshot = Some snap
               ∧ s ∉ Reconcile.Snapshot.subscribed_newsletters snap)
  ∧ (target = Views.EXACTTARGET_DATA →
     Reconcile.subscribed snapshot s = false →
     fields !! flag_of nl = Some "Y" ∧ fields !! date_of nl = Some today).
Proof.
  intros Hnd Htype Hnamed Hslug target fields.
  pose proof (by_slug_inv s nl Hslug) as [Hcat Hs].
  assert (nl ∈ named_newsletters desired) as Hnl
      by (apply named_newsletters_inv; eauto).
  (* the write unsubscribes no newsletter stored in the field of [nl] *)
  assert (∀ nl', nl' ∈ to_unsubscribe desired snapshot →
                 Reconcile.vendor_field nl' ≠ Reconcile.vendor_field nl)
    as Hkept.
  { intros nl' Hin Hsame.
    apply to_unsubscribe_inv in Hin as (Hcat' & _ & [[Hu _] | [_ Hout]]).
    - destruct Htype; congruence.
    - by rewrite (NoDup_fmap_eq _ _ _ _ Hnd Hcat' Hcat Hsame), Hs in Hout. }
  (* a field of [nl] that is written is written for [nl], not subscribed *)
  assert (∀ k, k = flag_of nl ∨ k = date_of nl →
               is_Some (fields !! k) →
               Reconcile.subscribed snapshot s = false) as Hmarked.
  { intros k Hk Hsome. subst fields.
    destruct (build_write_cases email token created desired snapshot)
      as [Heq | [Heq _]]; rewrite Heq in Hsome; simpl in Hsome.
    - destruct (full_fields_column _ _ _ _ nl k Hk Hsome)
        as (nl' & Hsame & [Hin | Hin]); [| by destruct (Hkept nl')].
      apply to_subscribe_inv in Hin as (_ & Hin & Hnot).
      assert (nl' ∈ catalog) as Hcat'.
      { apply named_newsletters_inv in Hin as (s' & _ & Hs').
        by apply by_slug_inv in Hs' as [? _]. }
      rewrite (NoDup_fmap_eq _ _ _ _ Hnd Hcat' Hcat Hsame) in Hnot.
      by rewrite Hs in Hnot.
    - apply bare_keys_lookup, identifying_key_fixed in Hsome.
      unfold flag_of, date_of in Hk. destruct Hk as [-> | ->].
      + by destruct (fixed_key_flg _ (Reconcile.vendor_field nl) Hsome).
      + by destruct (fixed_key_date _ (Reconcile.vendor_field nl) Hsome). }
  split; [| split].
  - intros snap -> Hin.
    assert (Reconcile.subscribed (Some snap) s = true) as Hsub
        by (by apply mem_true).
    split.
    + destruct (fields !! flag_of nl) eqn:Hflag; [| done].
      rewrite (Hmarked (flag_of nl)) in Hsub; [done | by left | by eauto].
    + destruct (fields !! date_of nl) eqn:Hdate; [| done].
      rewrite (Hmarked (date_of nl)) in Hsub; [done | by right | by eauto].
  - intros Hsome.
    assert (Reconcile.subscribed snapshot s = false) as Hnot.
    { destruct Hsome; [by apply (Hmarked (flag_of nl)); [left |]
                      | by apply (Hmarked (date_of nl)); [right |]]. }
    destruct snapshot as [snap|]; [right | by left].
    exists snap. split; [done |]. by apply mem_false.
  - intros Htarget Hnot. subst target fields.
    destruct (build_write_cases email token created desired snapshot)
      as [Heq | [Heq _]]; rewrite Heq in Htarget |- *; [| done]. simpl.
    assert (nl ∈ to_subscribe desired snapshot) as Hin.
    { apply to_subscribe_inv. by rewrite Hs. }
    rewrite full_fields_unfold.
    destruct (mark_loop_sets "Y" _ (base_fields email token desired) nl Hin)
      as [Hflag Hdate].
    split.
    + destruct (mark_loop "N" (to_unsubscribe desired snapshot)
                  (foldl (mark "Y") (base_fields email token desired)
                         (to_subscribe desired snapshot)) (flag_of nl))
        as [-> | (nl' & Hin' & Hk)]; [done |].
      destruct (Hkept nl' Hin'). apply (same_field nl nl' (flag_of nl)); tauto.
    + destruct (mark_loop "N" (to_unsubscribe desired snapshot)
                  (foldl (mark "Y") (base_fields email token desired)
                         (to_subscribe desired snapshot)) (date_of nl))
        as [-> | (nl' & Hin' & Hk)]; [done |].
      destruct (Hkept nl' Hin'). apply (same_field nl nl' (date_of nl)); tauto.
Qed.

(** C7.  When the desired change supplies no format, the field map built
    for the write has no email-format field; the field is there only when
    the change supplies a format, and it then holds that format (in the
    full field set it always does). *)
Theorem build_write_format_only_if_supplied
        (email token : string) (created : bool)
        (desired : Reconcile.DesiredChange)
        (snapshot : option Reconcile.Snapshot.t) :
  let target := (build_write email token created desired snapshot).1 in
  let fields := (build_write email token created desired snapshot).2 in
  (Reconcile.format desired = None → fields !! "EMAIL_FORMAT_" = None)
  ∧ (∀ f, fields !! "EMAIL_FORMAT_" = Some f → Reconcile.format desired = Some f)
  ∧ (∀ f, Reconcile.format desired = Some f →
          target = Views.EXACTTARGET_DATA →
          fields !! "EMAIL_FORMAT_" = Some f).
Proof.
  intros target fields. subst target fields.
  destruct (build_write_cases email token created desired snapshot)
    as [-> | [-> _]]; simpl.
  - rewrite full_fields_fixed by (by split). rewrite base_fields_format.
    by repeat split.
  - by repeat split.
Qed.

(** C8.  Every message selected for sending has the id
    [<lang>_<welcome_id>], for the language code of the change and the
    welcome id of one of the newsletters affected, with [_T] appended when
    the resolved format is text, and is sent in the resolved format; the
    resolved format is the explicit format of the desired change if it
    supplies one, otherwise the format preference of the snapshot,
    otherwise ['H']. *)
Theorem select_messages_message_id
        (email token : string) (desired : Reconcile.DesiredChange)
        (snapshot : option Reconcile.Snapshot.t)
        (affected : list Reconcile.Newsletter) :
  let resolved := Reconcile.resolved_format desired snapshot in
  (∀ m, m ∈ select_messages email token desired snapshot affected →
        ∃ nl w,
          nl ∈ affected ∧ Reconcile.welcome_id nl = Some w
          ∧ Reconcile.message_id m
            = Reconcile.language_code desired snapshot +:+ "_" +:+ w
              +:+ (if bool_decide (resolved = "T") then "_T" else "")
          ∧ Reconcile.in_format m = resolved
          ∧ Reconcile.to_email m = email ∧ Reconcile.to_token m = token)
  ∧ (∀ f, Reconcile.format desired = Some f → resolved = f)
  ∧ (Reconcile.format desired = None →
     ∀ snap, snapshot = Some snap → Reconcile.Snapshot.format snap ≠ "" →
             resolved = Reconcile.Snapshot.format snap)
  ∧ (Reconcile.format desired = None →
     (snapshot = None
      ∨ ∃ snap, snapshot = Some snap ∧ Reconcile.Snapshot.format snap = "") →
     resolved = "H").
Proof.
  intros resolved. subst resolved. split; [| split; [| split]].
  - intros m Hin. unfold Reconcile.select_messages in Hin.
    destruct (Reconcile.trigger_welcome desired), (Reconcile.type desired);
      try (by apply elem_of_nil in Hin);
      apply list_elem_of_omap in Hin as (nl & Hnl & Hm);
      apply list_elem_of_In, List.filter_In in Hnl as [Hnl _];
      apply List.filter_In in Hnl as [Hnl _]; apply list_elem_of_In in Hnl;
      destruct (Reconcile.welcome_id nl) as [w|] eqn:Hw; try done;
      injection Hm as <-; exists nl, w; simpl; unfold Reconcile.compose;
      rewrite eqb_bool_decide; done.
  - unfold Reconcile.resolved_format. by intros f ->.
  - unfold Reconcile.resolved_format. intros -> snap -> Hpref.
    by destruct (Reconcile.Snapshot.format snap).
  - unfold Reconcile.resolved_format.
    by intros -> [-> | (snap & -> & ->)].
Qed.

End ReconcileProps.

(** ** [get_user_data] over the partitions *)

Section PlatformProps.
Variable newsletter_slugs : list string.
Variable newsletter_fields : list string.
Variable slug_to_vendor_id : string → string.
Variable no_such_column : Views.get_result.

Local Abbreviation get_user_data p :=
  (Views.get_user_data newsletter_slugs newsletter_fields slug_to_vendor_id
                       (Platform.get_record no_such_column p)).
Local Abbreviation requested_fields := (requested_fields newsletter_fields).

(** The subscriber with address [email] and token [token] has a row in a
    partition, or none. *)
Definition in_partition (rows : list Views.et_user) (email token : string)
  : Prop :=
  ∃ row, row ∈ rows ∧ Views.EMAIL_ADDRESS_ row = email
         ∧ Views.TOKEN row = token.

Definition not_in_partition (rows : list Views.et_user) (email token : string)
  : Prop :=
  ∀ row, row ∈ rows →
         Views.EMAIL_ADDRESS_ row ≠ email ∧ Views.TOKEN row ≠ token.

Lemma query_absent rows email token key key_field :
  not_in_partition rows email token →
  (key = email ∧ key_field = "EMAIL_ADDRESS_")
  ∨ (key = token ∧ key_field = "TOKEN") →
  Platform.query rows (Some key) key_field = Views.NoResults.
Proof.
  intros Habsent Hkey. unfold Platform.query.
  destruct (List.find _ rows) as [row|] eqn:Hfind; [| done].
  apply List.find_some in Hfind as [Hin Hmatch].
  apply list_elem_of_In, Habsent in Hin as [Hemail Htoken].
  apply bool_decide_eq_true in Hmatch. unfold Platform.column in Hmatch.
  destruct Hkey as [[-> ->] | [-> ->]]; simpl in Hmatch; congruence.
Qed.

Lemma query_present rows email token key key_field :
  in_partition rows email token →
  (key = email ∧ key_field = "EMAIL_ADDRESS_")
  ∨ (key = token ∧ key_field = "TOKEN") →
  ∃ row, Platform.query rows (Some key) key_field = Views.Found row.
Proof.
  intros (row & Hin & Hemail & Htoken) Hkey. unfold Platform.query.
  destruct (List.find _ rows) as [found|] eqn:Hfind; [by eauto |].
  exfalso. apply list_elem_of_In in Hin.
  pose proof (List.find_none _ _ Hfind row Hin) as Hno. simpl in Hno.
  apply bool_decide_eq_false in Hno. apply Hno. unfold Platform.column.
  destruct Hkey as [[-> ->] | [-> ->]]; simpl; congruence.
Qed.

(** By token the confirmation lag is reconciled: a subscriber absent
    from the master partition, present in the opt-in partition and whose
    token is in the confirmation partition is reported confirmed. *)
Lemma get_user_data_lag_by_token p email token sync db :
  not_in_partition (Platform.master p) email token →
  in_partition (Platform.optin p) email token →
  token ∈ Platform.confirmation p →
  ∃ d, (get_user_data p (Some token) None sync db).1
       = Return (Some (Views.UserData d))
       ∧ Views.confirmed d = true ∧ Views.master d = false.
Proof.
  intros Hmaster Hoptin Hconfirmed.
  apply (proj1 (get_user_data_lookups
                  newsletter_slugs newsletter_fields slug_to_vendor_id
                  (Platform.get_record no_such_column p)
                  (Some token) None sync db)).
  - unfold absent_from, lookup_key, lookup_column, Views.or_else. simpl.
    eapply query_absent; [done | by right].
  - unfold present_in, lookup_key, lookup_column, Views.or_else. simpl.
    eapply query_present; [done | by right].
  - unfold lookup_key, lookup_column, Views.or_else. simpl.
    apply mem_true in Hconfirmed. rewrite Hconfirmed. by eauto.
Qed.

(** [get_user_data] by e-mail address, for a subscriber absent from the
    master partition: the opt-in partition is asked for the address, and
    then the confirmation partition is asked for the address too. *)
Lemma get_user_data_by_email_unfold p email token sync db :
  truthy email = true →
  not_in_partition (Platform.master p) email token →
  (get_user_data p None (Some email) sync db).1
  = match Platform.query (Platform.optin p) (Some email) "EMAIL_ADDRESS_" with
    | Views.Found row =>
        let u := fields_of newsletter_slugs slug_to_vendor_id row in
        match no_such_column with
        | Views.NoResults =>
            Return (Some (Views.UserData (Views.mkUserData u false false false)))
        | Views.Found _ =>
            Return (Some (Views.UserData (Views.mkUserData u true false false)))
        | Views.Failed e =>
            match e with
            | NewsletterException m =>
                Return (Some (Views.ErrorData 400 m Views.BASKET_NETWORK_FAILURE))
            | UnauthorizedException _ =>
                Return (Some (Views.ErrorData
                                500 "Email service provider auth failure"
                                Views.BASKET_EMAIL_PROVIDER_AUTH_FAILURE))
            | _ => Raise e
            end
        end
    | Views.NoResults => Return None
    | Views.Failed e =>
        match e with
        | NewsletterException m =>
            Return (Some (Views.ErrorData 400 m Views.BASKET_NETWORK_FAILURE))
        | UnauthorizedException _ =>
            Return (Some (Views.ErrorData
                            500 "Email service provider auth failure"
                            Views.BASKET_EMAIL_PROVIDER_AUTH_FAILURE))
        | _ => Raise e
        end
    end.
Proof.
  intros Htruthy Hmaster.
  unfold Views.get_user_data, Views.get_user_data_try, Views.look_for_user,
    Views.or_else.
  cbn [truthy_opt]. rewrite Htruthy. cbn [Platform.get_record].
  rewrite (query_absent _ email token) by (done || by left).
  destruct (Platform.query _ _ _) as [row | | e]; [| done | by destruct e].
  destruct (decide (Views.EXACTTARGET_OPTIN_STAGE
                    = Views.EXACTTARGET_CONFIRMATION)) as [[=] | _].
  change (String.eqb "EMAIL_ADDRESS_" "TOKEN") with false. cbv iota.
  destruct no_such_column as [row' | | e]; [| done | by destruct e].
  by destruct (decide (Views.EXACTTARGET_CONFIRMATION
                       = Views.EXACTTARGET_CONFIRMATION)).
Qed.

(** C3, on a lookup by e-mail address.  For a subscriber absent from the
    master partition, present in the opt-in partition and whose token is in
    the confirmation partition, [get_user_data] asks the confirmation
    partition, which records only tokens, for a row whose [EMAIL_ADDRESS_]
    is the address: unless the platform answers that with a row, the
    subscriber is not reported confirmed, and when it answers that nothing
    was found the snapshot has [confirmed] false.  Looked up by token, the
    same subscriber is reported confirmed and not in master. *)
Theorem get_user_data_confirmation_by_email
        (p : Platform.t) (email token : string) (sync : bool)
        (db : list Subscriber) :
  truthy email = true →
  not_in_partition (Platform.master p) email token →
  in_partition (Platform.optin p) email token →
  token ∈ Platform.confirmation p →
  ((∀ row, no_such_column ≠ Views.Found row) →
   ∀ d, (get_user_data p None (Some email) sync db).1
        = Return (Some (Views.UserData d)) →
        Views.confirmed d = false)
  ∧ (no_such_column = Views.NoResults →
     ∃ d, (get_user_data p None (Some email) sync db).1
          = Return (Some (Views.UserData d))
          ∧ Views.confirmed d = false ∧ Views.master d = false)
  ∧ ∃ d, (get_user_data p (Some token) None sync db).1
         = Return (Some (Views.UserData d))
         ∧ Views.confirmed d = true ∧ Views.master d = false.
Proof.
  intros Htruthy Hmaster Hoptin Hconfirmed.
  split; [| split; [| by eapply get_user_data_lag_by_token]].
  - intros Hnorow d.
    rewrite (get_user_data_by_email_unfold p email token sync db)
      by done.
    destruct (Platform.query _ _ _) as [row | | e']; [| done | by destruct e'].
    destruct no_such_column as [row' | | e] eqn:Hanswer.
    + by destruct (Hnorow row').
    + simpl. by intros [= <-].
    + by destruct e.
  - intros Hnothing.
    rewrite (get_user_data_by_email_unfold p email token sync db) by done.
    destruct (query_present _ email token email "EMAIL_ADDRESS_" Hoptin)
      as [row ->]; [by left |].
    rewrite Hnothing. simpl. by eauto.
Qed.

End PlatformProps.

(** ** [update_user_task]: validation *)

Section UpdateUserTaskValidation.
Variable newsletter_slugs : list string.
Variable newsletter_fields : list string.
Variable newsletter_languages : list string.
Variable slug_to_vendor_id : string → string.
Variable MSG_EMAIL_OR_TOKEN_REQUIRED : string.
Variable get_record :
  Views.database → option string → list string → string → Views.get_result.
Variable new_token : list Subscriber → string.

Local Abbreviation lookup_subscriber :=
  (Views.lookup_subscriber newsletter_slugs newsletter_fields slug_to_vendor_id
                           MSG_EMAIL_OR_TOKEN_REQUIRED get_record new_token).
Local Abbreviation update_user_task :=
  (Views.update_user_task newsletter_slugs newsletter_fields newsletter_languages
                          slug_to_vendor_id MSG_EMAIL_OR_TOKEN_REQUIRED
                          get_record new_token).
Local Abbreviation malformed := (malformed newsletter_slugs newsletter_languages).
Local Abbreviation unknown_newsletter := (unknown_newsletter newsletter_slugs).

(** The second half of C6 as it is worded: every request that is not
    malformed queues one call and is answered ok. *)
Definition queues_every_valid_request
           (req : Views.request) (type : Z)
           (data : option (gmap string string)) (optin : bool)
           (w : Views.world) : Prop :=
  ¬ malformed req (request_data req data) →
  ∃ token created db' call,
    update_user_task req type data optin w
    = (Return (Views.mkResponse (Views.JOk token created) 200),
       Views.mkWorld db' (Views.queue w ++ [call])).

(** C6, as the code has it.  A request that names an unknown newsletter,
    or carries an invalid language code, or has neither an e-mail address
    nor a subscriber, gets an error response with a code and nothing is
    queued or changed.  Any other request queues exactly one [update_user]
    call and is answered ok with the subscriber's token, the subscriber
    being the request's own or the row of the local table for the
    request's address, unless looking that row up raises: the exception
    then propagates and nothing is queued. *)
Theorem update_user_task_validation
        (req : Views.request) (type : Z) (data : option (gmap string string))
        (optin : bool) (w : Views.world) :
  let d := request_data req data in
  (malformed req d →
   ∃ desc code,
     update_user_task req type data optin w
     = (Return (Views.mkResponse (Views.JError desc code) 400), w))
  ∧ (¬ malformed req d →
     (∃ sub created db',
         update_user_task req type data optin w
         = (Return (Views.mkResponse (Views.JOk (sub_token sub) created) 200),
            Views.mkWorld db'
              (Views.queue w
               ++ [Views.mkTaskCall d (sub_email sub) (sub_token sub) created
                                    type optin]))
         ∧ ((Views.req_subscriber req = Some sub ∧ created = false
             ∧ db' = Views.subscribers w)
            ∨ (Views.req_subscriber req = None
               ∧ d !! "email" = Some (sub_email sub) ∧ sub ∈ db')))
     ∨ (∃ e db',
           Views.req_subscriber req = None
           ∧ lookup_subscriber None (d !! "email") (Views.subscribers w)
             = (Raise e, db')
           ∧ update_user_task req type data optin w
             = (Raise e, Views.mkWorld db' (Views.queue w)))).
Proof.
  intros d. unfold Views.update_user_task. fold (request_data req data). fold d.
  destruct (truthy_opt (d !! "newsletters") && _) eqn:Hnl.
  { split; [by eauto |]. intros Hvalid. exfalso. apply Hvalid. left.
    by apply (newsletters_check newsletter_slugs). }
  destruct (language_check newsletter_languages d) as [[-> Hlang] | [-> Hlang]].
  2:{ split; [by eauto |]. intros Hvalid. exfalso. apply Hvalid. by right; left. }
  destruct (Views.req_subscriber req) as [sub|] eqn:Hsub.
  - rewrite bool_decide_eq_true_2 by eauto. rewrite orb_true_r. simpl. split.
    + intros [Hbad | [? | [_ ?]]]; [| done | congruence].
      apply (newsletters_check newsletter_slugs) in Hbad. congruence.
    + intros _. left. exists sub, false, (Views.subscribers w). by eauto 10.
  - rewrite bool_decide_eq_false_2 by (by intros [? ?]). rewrite orb_false_r.
    destruct (truthy_opt (d !! "email")) eqn:Hemail; simpl.
    2:{ split; [by eauto |]. intros Hvalid. exfalso. apply Hvalid.
        by right; right. }
    split.
    { intros [Hbad | [? | [? _]]]; [| done | congruence].
      apply (newsletters_check newsletter_slugs) in Hbad. congruence. }
    intros _. destruct (d !! "email") as [email|] eqn:He; [| done].
    simpl in Hemail.
    destruct (lookup_subscriber None (Some email) (Views.subscribers w))
      as [[[[s user_data] created] | e] db'] eqn:Hlookup.
    + left.
      destruct (lookup_subscriber_email_row
                  newsletter_slugs newsletter_fields slug_to_vendor_id
                  MSG_EMAIL_OR_TOKEN_REQUIRED get_record new_token
                  email _ _ _ _ _ Hemail Hlookup)
        as (sub & -> & Hin & Hmail).
      exists sub, created, db'. rewrite Hmail. split; [done |]. right.
      done.
    + right. by eauto 10.
Qed.

End UpdateUserTaskValidation.

(** A remote service that cannot be reached: every query raises
    [URLError]. *)
Definition get_record_unreachable (db : Views.database) (key : option string)
           (fields : list string) (keyfield : string) : Views.get_result :=
  Views.Failed (URLError "timed out").

Lemma new_request_valid :
  ¬ malformed Demo.newsletter_names Demo.newsletter_languages Demo.new_request
      (request_data Demo.new_request None).
Proof.
  intros [(s & nl & [= <-] & _ & Hin & Hout) | [(l & [= <-] & Hbad) | [Hno _]]].
  - apply Hout. vm_compute in Hin.
    apply elem_of_cons in Hin as [-> | Hin]; [by left |].
    apply list_elem_of_singleton in Hin as ->. by right; left.
  - vm_compute in Hbad. discriminate.
  - vm_compute in Hno. discriminate.
Qed.

(** C6 fails on the code as it is worded: a well-formed request from an
    address the local table does not know, at a time the remote service
    cannot be reached, raises [URLError] and queues nothing. *)
Lemma valid_request_not_queued :
  ¬ queues_every_valid_request
      Demo.newsletter_names Demo.newsletter_fields Demo.newsletter_languages
      Demo.slug_to_vendor_id "email or token is required"
      get_record_unreachable Demo.new_token
      Demo.new_request Tasks.SUBSCRIBE None true
      (Views.mkWorld [Demo.dude] []).
Proof.
  intros Hclaim.
  destruct (Hclaim new_request_valid) as (token & created & db' & call & Hrun).
  vm_compute in Hrun. discriminate.
Qed.

(** ** The further properties at concrete inputs *)

Lemma parse_newsletters_unsubscribe_witness :
  (Demo.parse_newsletters "2026-11-03" Demo.subscribed_row Tasks.UNSUBSCRIBE
                          "mozilla-and-you"
   !! "MOZILLA_AND_YOU_FLG" = Some "N"
   ∧ Demo.parse_newsletters "2026-11-03" Demo.subscribed_row Tasks.UNSUBSCRIBE
                            "mozilla-and-you"
     !! "MOZILLA_AND_YOU_DATE" = Some "2026-11-03")
  ∧ Demo.parse_newsletters "2026-11-03" Demo.subscribed_row Tasks.UNSUBSCRIBE
                           "mozilla-and-you"
    !! "TOKEN" = Demo.subscribed_row !! "TOKEN".
Proof.
  destruct (parse_newsletters_unsubscribe
              Demo.newsletter_field Demo.newsletter_names "2026-11-03"
              Demo.subscribed_row "mozilla-and-you") as [Hset Hkeep].
  split.
  - apply (Hset "mozilla-and-you" "MOZILLA_AND_YOU"); [by left | by split].
  - apply Hkeep. intros (nl & name & Hin & [Hfield _] & Hkey).
    apply list_elem_of_singleton in Hin as ->. injection Hfield as <-.
    destruct Hkey as [Hkey | Hkey]; vm_compute in Hkey; discriminate.
Defined.

Lemma parse_newsletters_frame_witness :
  Demo.parse_newsletters "2026-11-03" Demo.subscribed_row Tasks.SUBSCRIBE
                         "no-such-newsletter"
  = Demo.subscribed_row
  ∧ Demo.parse_newsletters "2026-11-03" Demo.subscribed_row 4 "mobile"
    = Demo.subscribed_row.
Proof.
  destruct (parse_newsletters_frame
              Demo.newsletter_field Demo.newsletter_names "2026-11-03"
              Demo.subscribed_row Tasks.SUBSCRIBE "no-such-newsletter")
    as (_ & Hunknown & _).
  destruct (parse_newsletters_frame
              Demo.newsletter_field Demo.newsletter_names "2026-11-03"
              Demo.subscribed_row 4 "mobile") as (_ & _ & Hother).
  split.
  - apply Hunknown; [| done].
    intros nl Hin. by apply list_elem_of_singleton in Hin as ->.
  - by apply Hother.
Defined.

(** A request that carries no address. *)
Definition no_address : gmap string string :=
  list_to_map [("newsletters", "mozilla-and-you"); ("lang", "en")].

Lemma update_user_without_email_witness :
  Demo.update_user no_address None Tasks.SUBSCRIBE true
                   (Demo.world0 Demo.remote_ok [Demo.dude])
  = (Raise (KeyError "email"),
     Tasks.mkWorld Demo.remote [Demo.dude] Demo.remote_ok
                   [Tasks.LogError "No user or email provided"] 0)
  ∧ calls Demo.remote (Demo.world0 Demo.remote_ok [Demo.dude])
          (Demo.update_user no_address None Tasks.SUBSCRIBE true
                            (Demo.world0 Demo.remote_ok [Demo.dude])).2
    = [].
Proof.
  apply (update_user_without_email
           Demo.newsletter_field Demo.newsletter_names "Master_Subscribers"
           "Double_Opt_In" Demo.remote Demo.add_record Demo.trigger_send
           Demo.gmttime_at Demo.today_at Demo.uuid4_at ""
           no_address None Tasks.SUBSCRIBE true
           (Demo.world0 Demo.remote_ok [Demo.dude])).
  reflexivity.
Defined.

(** A subscription in French, a double opt-in language, from an address
    the local table does not know. *)
Definition subscribe_french : gmap string string :=
  list_to_map [("email", "donnie@example.com"); ("newsletters", "mobile");
               ("lang", "fr"); ("country", "fr"); ("campaign", "spring")].

Lemma one_row_per_address : NoDup (map sub_email [Demo.dude]).
Proof.
  apply NoDup_cons. split; [apply not_elem_of_nil | apply NoDup_nil_2].
Qed.

Lemma update_user_target_witness :
  ∃ target record rest,
    calls Demo.remote (Demo.world0 Demo.remote_ok [Demo.dude])
          (Demo.update_user subscribe_french None Tasks.SUBSCRIBE true
                            (Demo.world0 Demo.remote_ok [Demo.dude])).2
    = Tasks.AddRecord target record :: rest
    ∧ ((Tasks.SUBSCRIBE = Tasks.SUBSCRIBE
        ∧ (∃ lang, subscribe_french !! "lang" = Some lang
                   ∧ lang ∈ confirm_languages)
        ∧ target = "Double_Opt_In"
        ∧ is_Some (record !! "TOKEN")
        ∧ record !! "SubscriberKey" = record !! "TOKEN"
        ∧ record !! "EmailAddress" = Some "donnie@example.com")
       ∨ (¬ (Tasks.SUBSCRIBE = Tasks.SUBSCRIBE
             ∧ ∃ lang, subscribe_french !! "lang" = Some lang
                       ∧ lang ∈ confirm_languages)
          ∧ target = "Master_Subscribers"
          ∧ record !! "SubscriberKey" = None
          ∧ record !! "EmailAddress" = None)).
Proof.
  apply (update_user_target
           Demo.newsletter_field Demo.newsletter_names "Master_Subscribers"
           "Double_Opt_In" Demo.remote Demo.add_record Demo.trigger_send
           Demo.gmttime_at Demo.today_at Demo.uuid4_at ""
           subscribe_french None Tasks.SUBSCRIBE true
           (Demo.world0 Demo.remote_ok [Demo.dude]) "donnie@example.com").
  - reflexivity.
  - exact one_row_per_address.
Defined.

Lemma update_user_token_witness :
  ∃ target record rest token,
    calls Demo.remote (Demo.world0 Demo.remote_ok [Demo.dude])
          (Demo.update_user subscribe_french None Tasks.SUBSCRIBE true
                            (Demo.world0 Demo.remote_ok [Demo.dude])).2
    = Tasks.AddRecord target record :: rest
    ∧ record !! "TOKEN" = Some token
    ∧ token = Demo.uuid4_at 0
    ∧ Tasks.subscribers Demo.remote
        (Demo.update_user subscribe_french None Tasks.SUBSCRIBE true
                          (Demo.world0 Demo.remote_ok [Demo.dude])).2
      = [Demo.dude; mkSubscriber "donnie@example.com" token].
Proof.
  destruct (update_user_token
              Demo.newsletter_field Demo.newsletter_names "Master_Subscribers"
              "Double_Opt_In" Demo.remote Demo.add_record Demo.trigger_send
              Demo.gmttime_at Demo.today_at Demo.uuid4_at ""
              subscribe_french None Tasks.SUBSCRIBE true
              (Demo.world0 Demo.remote_ok [Demo.dude]) "donnie@example.com")
    as (target & record & rest & token & Hcalls & Htoken & _ & _ & Hrow).
  - reflexivity.
  - exact one_row_per_address.
  - exists target, record, rest, token. do 2 (split; [done |]).
    destruct Hrow as [(Hknown & _) | (_ & Hfresh & Hrows & _)]; [| done].
    apply list_elem_of_singleton in Hknown. discriminate.
Defined.

Lemma update_user_record_fields_witness :
  ∃ target record rest,
    calls Demo.remote (Demo.world0 Demo.remote_ok [Demo.dude])
          (Demo.update_user subscribe_french None Tasks.SUBSCRIBE true
                            (Demo.world0 Demo.remote_ok [Demo.dude])).2
    = Tasks.AddRecord target record :: rest
    ∧ record !! "EMAIL_ADDRESS_" = Some "donnie@example.com"
    ∧ record !! "COUNTRY_" = Some "fr"
    ∧ record !! "campaign" = None.
Proof.
  destruct (update_user_record_fields
              Demo.newsletter_field Demo.newsletter_names "Master_Subscribers"
              "Double_Opt_In" Demo.remote Demo.add_record Demo.trigger_send
              Demo.gmttime_at Demo.today_at Demo.uuid4_at ""
              subscribe_french None Tasks.SUBSCRIBE true
              (Demo.world0 Demo.remote_ok [Demo.dude]) "donnie@example.com")
    as (target & record & rest & Hcalls & Hemail & _ & _ & _ & Hcountry & _ & _
        & Hkeys).
  - reflexivity.
  - exact one_row_per_address.
  - exists target, record, rest. do 3 (split; [done |]).
    destruct (record !! "campaign") as [v|] eqn:Hcampaign; [| done].
    exfalso. destruct (Hkeys "campaign") as [Hkey | Hcolumn]; [by eauto | |].
    + vm_compute in Hkey.
      repeat (apply elem_of_cons in Hkey as [[=] | Hkey]).
      by apply elem_of_nil in Hkey.
    + destruct Hcolumn as (nl & name & Hin & [Hfield _] & Hkey).
      vm_compute in Hin.
      repeat (apply elem_of_cons in Hin as [-> | Hin]);
        [| | | by apply elem_of_nil in Hin];
        injection Hfield as <-;
        destruct Hkey as [Hkey | Hkey]; vm_compute in Hkey; discriminate.
Defined.

Lemma language_code_is_valid_prefix_witness :
  Views.language_code_is_valid Demo.newsletter_languages
                               (VStr (slice_to 2 "fr-CA")) = Return true
  ∧ Views.language_code_is_valid Demo.newsletter_languages (VStr "fr-CA")
    = Views.language_code_is_valid Demo.newsletter_languages
                                   (VStr (slice_to 2 "fr-CA")).
Proof.
  destruct (language_code_is_valid_prefix Demo.newsletter_languages "fr-CA")
    as [Hdown Hfive].
  split; [apply Hdown; [vm_compute; lia | reflexivity] | by apply Hfive].
Defined.

(** A remote service that has the subscriber in the master data
    extension and fails on the two others, and one that agrees with it on
    the master data extension and finds nothing in the others. *)
Definition get_record_master_only (db : Views.database) (key : option string)
           (fields : list string) (keyfield : string) : Views.get_result :=
  match db with
  | Views.EXACTTARGET_DATA =>
      if Demo.by_email key keyfield then Views.Found Demo.pending_row
      else Views.NoResults
  | _ => Views.Failed (URLError "timed out")
  end.

Definition get_record_master (db : Views.database) (key : option string)
           (fields : list string) (keyfield : string) : Views.get_result :=
  match db with
  | Views.EXACTTARGET_DATA =>
      if Demo.by_email key keyfield then Views.Found Demo.pending_row
      else Views.NoResults
  | _ => Views.NoResults
  end.

Lemma get_user_data_master_first_witness :
  Demo.get_user_data get_record_master None (Some "dude@example.com") false []
  = Demo.get_user_data get_record_master_only None (Some "dude@example.com")
                       false []
  ∧ ∃ d db',
      Demo.get_user_data get_record_master_only None (Some "dude@example.com")
                         false []
      = (Return (Some (Views.UserData d)), db')
      ∧ Views.master d = true ∧ Views.confirmed d = true
      ∧ Views.pending d = false
      ∧ Views.uf_email (Views.ud_fields d)
        = Views.EMAIL_ADDRESS_ Demo.pending_row
      ∧ Views.uf_token (Views.ud_fields d) = Views.TOKEN Demo.pending_row.
Proof.
  apply (get_user_data_master_first
           Demo.newsletter_names Demo.newsletter_fields Demo.slug_to_vendor_id
           get_record_master_only get_record_master
           None (Some "dude@example.com") false [] Demo.pending_row).
  - reflexivity.
  - reflexivity.
Defined.

Lemma get_user_data_user_invariants_witness :
  let d := Views.mkUserData
             (fields_of Demo.newsletter_names Demo.slug_to_vendor_id
                        Demo.pending_row) false false false in
  Views.uf_status (Views.ud_fields d) = "ok"
  ∧ Views.uf_format (Views.ud_fields d) ≠ ""
  ∧ Views.uf_newsletters (Views.ud_fields d) ⊆ Demo.newsletter_names
  ∧ (Views.master d = true → Views.confirmed d = true)
  ∧ (true = true →
     mkSubscriber (Views.uf_email (Views.ud_fields d))
                  (Views.uf_token (Views.ud_fields d)) ∈ [Demo.dude]).
Proof.
  apply (get_user_data_user_invariants
           Demo.newsletter_names Demo.newsletter_fields Demo.slug_to_vendor_id
           Demo.get_record_pending None (Some "dude@example.com") true []).
  reflexivity.
Defined.

Lemma lookup_subscriber_by_token_witness :
  match Views.lookup_subscriber
          Demo.newsletter_names Demo.newsletter_fields Demo.slug_to_vendor_id
          "email or token is required" Demo.get_record_nobody Demo.new_token
          (Some "token") None [Demo.dude] with
  | (Return (Some s, None, created), db') =>
      created = false ∧ db' = [Demo.dude] ∧ s ∈ [Demo.dude]
      ∧ sub_token s = "token"
  | (Return (Some s, Some user_data, created), db') =>
      created = true ∧ s ∈ db' ∧ sub_token s = "token"
      ∧ (∀ r, r ∈ [Demo.dude] → sub_token r ≠ "token")
      ∧ ∃ d, user_data = Views.UserData d
             ∧ Views.uf_token (Views.ud_fields d) = "token"
             ∧ db' = Views.objects_get_and_sync
                       (Views.uf_email (Views.ud_fields d))
                       (Views.uf_token (Views.ud_fields d)) [Demo.dude]
  | (Return (None, user_data, created), db') =>
      created = true ∧ db' = [Demo.dude]
      ∧ (∀ r, r ∈ [Demo.dude] → sub_token r ≠ "token")
      ∧ (user_data = None ∨ ∃ sc desc code,
                               user_data = Some (Views.ErrorData sc desc code))
  | (Raise e, db') => True
  end.
Proof.
  apply (lookup_subscriber_by_token
           Demo.newsletter_names Demo.newsletter_fields Demo.slug_to_vendor_id
           "email or token is required" Demo.get_record_nobody Demo.new_token
           "token" [Demo.dude]).
  reflexivity.
Defined.

Lemma lookup_subscriber_by_email_created_witness :
  ∃ sub,
    Some (mkSubscriber "donnie@example.com" (Demo.new_token [Demo.dude]))
    = Some sub
    ∧ sub ∈ [Demo.dude;
             mkSubscriber "donnie@example.com" (Demo.new_token [Demo.dude])]
    ∧ sub_email sub = "donnie@example.com"
    ∧ (true = true ↔ "donnie@example.com" ∉ map sub_email [Demo.dude])
    ∧ (true = false →
       [Demo.dude;
        mkSubscriber "donnie@example.com" (Demo.new_token [Demo.dude])]
       = [Demo.dude]
       ∧ (None : option Views.user_dict) = None).
Proof.
  apply (lookup_subscriber_by_email_created
           Demo.newsletter_names Demo.newsletter_fields Demo.slug_to_vendor_id
           "email or token is required" Demo.get_record_nobody Demo.new_token
           "donnie@example.com" [Demo.dude]).
  - reflexivity.
  - reflexivity.
Defined.

Lemma lookup_subscriber_table_invariant_witness :
  NoDup (map sub_email
           (Views.lookup_subscriber
              Demo.newsletter_names Demo.newsletter_fields
              Demo.slug_to_vendor_id "email or token is required"
              Demo.get_record_nobody Demo.new_token
              None (Some "donnie@example.com") [Demo.dude]).2)
  ∧ map sub_email [Demo.dude]
    `prefix_of`
    map sub_email
      (Views.lookup_subscriber
         Demo.newsletter_names Demo.newsletter_fields
         Demo.slug_to_vendor_id "email or token is required"
         Demo.get_record_nobody Demo.new_token
         None (Some "donnie@example.com") [Demo.dude]).2.
Proof.
  apply (lookup_subscriber_table_invariant
           Demo.newsletter_names Demo.newsletter_fields Demo.slug_to_vendor_id
           "email or token is required" Demo.get_record_nobody Demo.new_token
           None (Some "donnie@example.com") [Demo.dude]).
  exact one_row_per_address.
Defined.

(** ** The views at concrete requests *)

Lemma logged_in_subscriber_witness :
  Site.logged_in Demo.get_record_nobody Demo.new_token Site.ping
                 (Site.request "GET" ∅ ∅) "" Site.world0
  = (Raise (GenericException Site.MSG_EMAIL_OR_TOKEN_REQUIRED), Site.world0)
  ∧ logged_in_outcome
      Demo.newsletter_names Demo.newsletter_fields Demo.slug_to_vendor_id
      Site.MSG_EMAIL_OR_TOKEN_REQUIRED Site.MSG_TOKEN_REQUIRED
      Demo.get_record_nobody Demo.new_token Site.ping
      (Site.request "GET" ∅ ∅) "token" Site.world0.
Proof.
  split.
  - apply (logged_in_subscriber
             Demo.newsletter_names Demo.newsletter_fields Demo.slug_to_vendor_id
             Site.MSG_EMAIL_OR_TOKEN_REQUIRED Site.MSG_TOKEN_REQUIRED
             Demo.get_record_nobody Demo.new_token Site.ping
             (Site.request "GET" ∅ ∅) "" Site.world0).
    reflexivity.
  - apply (logged_in_subscriber
             Demo.newsletter_names Demo.newsletter_fields Demo.slug_to_vendor_id
             Site.MSG_EMAIL_OR_TOKEN_REQUIRED Site.MSG_TOKEN_REQUIRED
             Demo.get_record_nobody Demo.new_token Site.ping
             (Site.request "GET" ∅ ∅) "token" Site.world0).
    reflexivity.
Defined.

Lemma confirm_queues_token_witness :
  match Site.confirm Demo.get_record_nobody Demo.new_token
                     (Site.request "POST" ∅ ∅) "token" Site.world0 with
  | (Return r, w') =>
      Views.queue (Endpoints.views w') = Views.queue (Endpoints.views Site.world0)
      ∧ ((Endpoints.status_code r = 200%Z ∧ Endpoints.content r = Endpoints.Ok
          ∧ Endpoints.method (Site.request "POST" ∅ ∅) = "POST"
          ∧ (∃ user_data,
                Endpoints.jobs w'
                = Endpoints.jobs Site.world0
                  ++ [Endpoints.confirm_user "token" user_data])
          ∧ ∃ s, s ∈ Endpoints.subscribers w' ∧ sub_token s = "token")
         ∨ (Endpoints.status_code r = 403%Z ∧ w' = Site.world0
            ∧ Endpoints.method (Site.request "POST" ∅ ∅) = "POST"
            ∧ unknown_token "token" Site.world0)
         ∨ (Endpoints.status_code r = 405%Z ∧ w' = Site.world0
            ∧ Endpoints.method (Site.request "POST" ∅ ∅) ≠ "POST"))
  | (Raise e, w') =>
      Views.queue (Endpoints.views w') = Views.queue (Endpoints.views Site.world0)
      ∧ Endpoints.jobs w' = Endpoints.jobs Site.world0
  end.
Proof.
  apply (confirm_queues_token
           Demo.newsletter_names Demo.newsletter_fields Demo.slug_to_vendor_id
           Site.MSG_EMAIL_OR_TOKEN_REQUIRED Site.MSG_TOKEN_REQUIRED
           Demo.get_record_nobody Demo.new_token
           (Site.request "POST" ∅ ∅) "token" Site.world0).
  reflexivity.
Defined.

Lemma demo_slugs_clean : clean_slugs Demo.newsletter_names.
Proof.
  unfold clean_slugs, no_comma. repeat apply Forall_cons_2; [| | apply Forall_nil_2].
  - split; [| reflexivity]. vm_compute. intros Hin.
    repeat (apply elem_of_cons in Hin as [[=] | Hin]). by apply elem_of_nil in Hin.
  - split; [| reflexivity]. vm_compute. intros Hin.
    repeat (apply elem_of_cons in Hin as [[=] | Hin]). by apply elem_of_nil in Hin.
Qed.

Lemma unsubscribe_optout_witness :
  Site.unsubscribe Demo.get_record_nobody Demo.new_token
                   (Site.request "POST" ∅ Site.optout) "token" Site.world0
  = (Return (Endpoints.mkResponse
               (Endpoints.Task (Views.JOk "token" false)) 200),
     Endpoints.mkWorld
       (Views.mkWorld
          [Demo.dude]
          [Views.mkTaskCall
             (<["newsletters" := Endpoints.join "," Demo.newsletter_names]>
                Site.optout)
             "dude@example.com" "token" false Tasks.UNSUBSCRIBE true])
       [])
  ∧ Site.unsubscribe Demo.get_record_nobody Demo.new_token
                     (Site.request "POST" ∅ (<["lang" := "zz"]> Site.optout))
                     "token" Site.world0
    = (Return (Endpoints.mkResponse
                 (Endpoints.Task (Views.JError "invalid language"
                                               Views.BASKET_INVALID_LANGUAGE))
                 400),
       Site.world0)
  ∧ Endpoints.join "," Demo.newsletter_names = "mozilla-and-you,mobile".
Proof.
  split; [| split; [| reflexivity]].
  - apply (unsubscribe_optout
             Demo.newsletter_names Demo.newsletter_fields
             Demo.newsletter_languages Demo.slug_to_vendor_id
             Site.MSG_EMAIL_OR_TOKEN_REQUIRED Site.MSG_TOKEN_REQUIRED
             Tasks.UNSUBSCRIBE Demo.get_record_nobody Demo.new_token
             (Site.request "POST" ∅ Site.optout) "token" Site.world0 Demo.dude).
    + reflexivity.
    + reflexivity.
    + reflexivity.
    + reflexivity.
    + exact demo_slugs_clean.
    + intros (l & Hl & _). vm_compute in Hl. discriminate.
  - apply (unsubscribe_optout
             Demo.newsletter_names Demo.newsletter_fields
             Demo.newsletter_languages Demo.slug_to_vendor_id
             Site.MSG_EMAIL_OR_TOKEN_REQUIRED Site.MSG_TOKEN_REQUIRED
             Tasks.UNSUBSCRIBE Demo.get_record_nobody Demo.new_token
             (Site.request "POST" ∅ (<["lang" := "zz"]> Site.optout))
             "token" Site.world0 Demo.dude).
    + reflexivity.
    + reflexivity.
    + reflexivity.
    + reflexivity.
    + exact demo_slugs_clean.
    + exists "zz". split; reflexivity.
Defined.

Lemma lookup_user_guards_witness :
  (∃ desc code status,
      (status = 400%Z ∨ status = 401%Z)
      ∧ Site.lookup_user Demo.get_record_nobody
          (Site.request "GET" {["email" := "dude@example.com"]} ∅) Site.world0
        = (Return (Endpoints.mkResponse (Endpoints.Error desc code) status),
           Site.world0))
  ∧ Site.lookup_user Demo.get_record_pending
      (Site.request "GET" {["email" := "dude@example.com"]} ∅) Site.world0
    = Site.lookup_user Demo.get_record_nobody
        (Site.request "GET" {["email" := "dude@example.com"]} ∅) Site.world0.
Proof.
  apply (lookup_user_guards
           Demo.newsletter_names Demo.newsletter_fields Demo.slug_to_vendor_id
           Site.MSG_EMAIL_OR_TOKEN_REQUIRED Site.MSG_USER_NOT_FOUND
           Demo.get_record_nobody Site.api_key_is_valid Demo.get_record_pending
           (Site.request "GET" {["email" := "dude@example.com"]} ∅) Site.world0).
  right; right. split; reflexivity.
Defined.

Lemma send_recovery_message_remote_failure_witness :
  Views.get_user_data Demo.newsletter_names Demo.newsletter_fields
                      Demo.slug_to_vendor_id Site.get_record_down None
                      (Some "dude@example.com") true [Demo.dude]
  = (Return (Some (Views.ErrorData 400 "Connection timed out"
                                   Views.BASKET_NETWORK_FAILURE)),
     [Demo.dude])
  ∧ Site.send_recovery_message Site.get_record_down
      (Site.request "POST" ∅ {["email" := "dude@example.com"]}) Site.world0
    = (Return (Endpoints.mkResponse Endpoints.Ok 200),
       Endpoints.delay
         (Endpoints.send_recovery_message_task "dude@example.com") Site.world0).
Proof.
  apply (send_recovery_message_remote_failure
           Demo.newsletter_names Demo.newsletter_fields Demo.slug_to_vendor_id
           Site.get_record_down Site.clean_email
           (Site.request "POST" ∅ {["email" := "dude@example.com"]}) Site.world0
           "dude@example.com" "Connection timed out").
  - reflexivity.
  - reflexivity.
  - reflexivity.
Defined.

(** A [debug_user] request with the right supertoken. *)
Definition debug_request : Endpoints.request :=
  Site.request "GET"
    (list_to_map [("email", "donnie@example.com");
                  ("supertoken", Site.SUPERTOKEN)]) ∅.

Lemma debug_user_unknown_witness :
  Site.debug_user Demo.get_record_nobody debug_request Site.world0
  = (Raise (AttributeError "'NoneType' object has no attribute 'pop'"),
     Site.world0).
Proof.
  apply (debug_user_unknown
           Demo.newsletter_names Demo.newsletter_fields Demo.slug_to_vendor_id
           Site.SUPERTOKEN Demo.get_record_nobody debug_request Site.world0
           "donnie@example.com").
  - reflexivity.
  - reflexivity.
  - reflexivity.
  - reflexivity.
Defined.

Lemma subscribe_queues_witness :
  let request := Site.request "POST" ∅ (Views.POST Demo.new_request) in
  match Site.subscribe Demo.get_record_nobody Demo.new_token request
                       Site.world0 with
  | (Return r, w') =>
      Endpoints.jobs w' = Endpoints.jobs Site.world0
      ∧ ((Endpoints.status_code r = 200%Z
          ∧ truthy_opt (Endpoints.POST request !! "newsletters") = true
          ∧ ∃ email token created,
              Endpoints.content r = Endpoints.Task (Views.JOk token created)
              ∧ Views.queue (Endpoints.views w')
                = Views.queue (Endpoints.views Site.world0)
                  ++ [Views.mkTaskCall
                        (Endpoints.POST request) email token created
                        Tasks.SUBSCRIBE
                        (bool_decide
                           (default "Y" (Endpoints.POST request !! "optin")
                            = "Y"))]
              ∧ Endpoints.POST request !! "email" = Some email
              ∧ mkSubscriber email token ∈ Endpoints.subscribers w')
         ∨ (Endpoints.status_code r = 400%Z ∧ w' = Site.world0
            ∧ ∃ desc,
                Endpoints.content r
                = Endpoints.Error desc (Endpoints.Code Views.BASKET_USAGE_ERROR)
                ∨ ∃ code, Endpoints.content r
                          = Endpoints.Task (Views.JError desc code))
         ∨ (Endpoints.status_code r = 405%Z ∧ w' = Site.world0
            ∧ Endpoints.method request ≠ "POST"))
  | (Raise e, w') =>
      Endpoints.jobs w' = Endpoints.jobs Site.world0
      ∧ Views.queue (Endpoints.views w')
        = Views.queue (Endpoints.views Site.world0)
  end.
Proof.
  apply (subscribe_queues
           Demo.newsletter_names Demo.newsletter_fields
           Demo.newsletter_languages Demo.slug_to_vendor_id
           Site.MSG_EMAIL_OR_TOKEN_REQUIRED Tasks.SUBSCRIBE
           Demo.get_record_nobody Demo.new_token
           (Site.request "POST" ∅ (Views.POST Demo.new_request)) Site.world0).
  reflexivity.
Defined.

Lemma user_get_witness :
  let request := Site.request "GET" ∅ ∅ in
  match Site.user Demo.get_record_pending Demo.new_token request "token"
                  Site.world0 with
  | (Return r, w') =>
      Views.queue (Endpoints.views w') = Views.queue (Endpoints.views Site.world0)
      ∧ Endpoints.jobs w' = Endpoints.jobs Site.world0
      ∧ ((Endpoints.status_code r = 200%Z
          ∧ ∃ d, Endpoints.content r = Endpoints.Dict (Endpoints.DUser d)
                 ∧ (w' = Site.world0
                    ∨ (w' = synced d Site.world0
                       ∧ Views.uf_token (Views.ud_fields d) = "token"
                       ∧ unknown_token "token" Site.world0)))
         ∨ (Endpoints.status_code r = 403%Z ∧ w' = Site.world0
            ∧ unknown_token "token" Site.world0)
         ∨ (Endpoints.status_code r = 400%Z
            ∧ Endpoints.content r = Endpoints.Null ∧ w' = Site.world0
            ∧ ∃ s, s ∈ Endpoints.subscribers Site.world0
                   ∧ sub_token s = "token")
         ∨ (∃ desc code,
               Endpoints.content r
               = Endpoints.Dict (Endpoints.DError None desc code)
               ∧ remote_error (Endpoints.status_code r) desc code
               ∧ w' = Site.world0))
  | (Raise e, w') =>
      Views.queue (Endpoints.views w') = Views.queue (Endpoints.views Site.world0)
      ∧ Endpoints.jobs w' = Endpoints.jobs Site.world0
  end.
Proof.
  apply (user_get
           Demo.newsletter_names Demo.newsletter_fields
           Demo.newsletter_languages Demo.slug_to_vendor_id
           Site.MSG_EMAIL_OR_TOKEN_REQUIRED Site.MSG_TOKEN_REQUIRED Tasks.SET
           Demo.get_record_pending Demo.new_token
           (Site.request "GET" ∅ ∅) "token" Site.world0).
  - reflexivity.
  - discriminate.
Defined.

(** ** Validation *)

Lemma update_user_task_validation_witness :
  (∃ desc code,
      Demo.update_user_task Demo.get_record_nobody Demo.new_token
        Demo.anonymous_request Tasks.SUBSCRIBE None true
        (Views.mkWorld [Demo.dude] [])
      = (Return (Views.mkResponse (Views.JError desc code) 400),
         Views.mkWorld [Demo.dude] []))
  ∧ ((∃ sub created db',
         Demo.update_user_task Demo.get_record_nobody Demo.new_token
           Demo.new_request Tasks.SUBSCRIBE None true
           (Views.mkWorld [Demo.dude] [])
         = (Return (Views.mkResponse (Views.JOk (sub_token sub) created) 200),
            Views.mkWorld db'
              (Views.queue (Views.mkWorld [Demo.dude] [])
               ++ [Views.mkTaskCall (request_data Demo.new_request None)
                                    (sub_email sub) (sub_token sub) created
                                    Tasks.SUBSCRIBE true]))
         ∧ ((Views.req_subscriber Demo.new_request = Some sub ∧ created = false
             ∧ db' = Views.subscribers (Views.mkWorld [Demo.dude] []))
            ∨ (Views.req_subscriber Demo.new_request = None
               ∧ request_data Demo.new_request None !! "email"
                 = Some (sub_email sub)
               ∧ sub ∈ db')))
     ∨ (∃ e db',
           Views.req_subscriber Demo.new_request = None
           ∧ Views.lookup_subscriber
               Demo.newsletter_names Demo.newsletter_fields
               Demo.slug_to_vendor_id "email or token is required"
               Demo.get_record_nobody Demo.new_token None
               (request_data Demo.new_request None !! "email")
               (Views.subscribers (Views.mkWorld [Demo.dude] []))
             = (Raise e, db')
           ∧ Demo.update_user_task Demo.get_record_nobody Demo.new_token
               Demo.new_request Tasks.SUBSCRIBE None true
               (Views.mkWorld [Demo.dude] [])
             = (Raise e, Views.mkWorld db'
                           (Views.queue (Views.mkWorld [Demo.dude] []))))).
Proof.
  split.
  - apply (update_user_task_validation
             Demo.newsletter_names Demo.newsletter_fields
             Demo.newsletter_languages Demo.slug_to_vendor_id
             "email or token is required" Demo.get_record_nobody
             Demo.new_token Demo.anonymous_request Tasks.SUBSCRIBE None true
             (Views.mkWorld [Demo.dude] [])).
    right; right. by split.
  - apply (update_user_task_validation
             Demo.newsletter_names Demo.newsletter_fields
             Demo.newsletter_languages Demo.slug_to_vendor_id
             "email or token is required" Demo.get_record_nobody
             Demo.new_token Demo.new_request Tasks.SUBSCRIBE None true
             (Views.mkWorld [Demo.dude] [])).
    exact new_request_valid.
Defined.

(** ** The reconciliation engine on the requests of the tests *)

(** The newsletter of [test_update_user.py], with the welcome a test
    gives it, and the catalog that holds it. *)
Definition test_newsletter (welcome : option string) : Reconcile.Newsletter :=
  Reconcile.mkNewsletter "slug" "TITLE_UNKNOWN" ["en-US"; "fr"] welcome true.

Definition test_catalog (welcome : option string) : list Reconcile.Newsletter :=
  [test_newsletter welcome].

(** No locale of the tests requires double opt-in. *)
Definition no_double_optin (nl : Reconcile.Newsletter) (lang : option string)
  : bool := false.

(** [self.get_user_data]: the subscriber is subscribed to [slug]. *)
Definition subscribed_snapshot : Reconcile.Snapshot.t :=
  Reconcile.Snapshot.mk "dude@example.com" "token" "H" "us" "en" "" ["slug"]
                        true false true.

(** The snapshot of [test_update_user_without_format_doesnt_send_format]:
    a text preference and no newsletter. *)
Definition text_snapshot : Reconcile.Snapshot.t :=
  Reconcile.Snapshot.mk "dude@example.com" "foo-token" "T" "" "" "" []
                        true false true.

(** A SUBSCRIBE to [slug] in English from the US, with the format given
    or not. *)
Definition subscribe_slug (format : option string) : Reconcile.DesiredChange :=
  Reconcile.mkDesiredChange Reconcile.SUBSCRIBE "slug" (Some "en") format
                            (Some "US") Reconcile.DefaultSend true.

(** [test_resubscribe_doesnt_update_newsletter]: the write has the
    identifying fields and the format, and does not mention the
    newsletter. *)
Example test_resubscribe_doesnt_update_newsletter :
  Reconcile.build_write (test_catalog None) no_double_optin "2026-11-03"
                        "Tue, 03 Nov 2026 10:10:00 GMT"
                        "dude@example.com" "token" false
                        (subscribe_slug (Some "H")) (Some subscribed_snapshot)
  = (Views.EXACTTARGET_DATA,
     list_to_map [("EMAIL_FORMAT_", "H"); ("EMAIL_ADDRESS_", "dude@example.com");
                  ("LANGUAGE_ISO2", "en"); ("TOKEN", "token");
                  ("MODIFIED_DATE_", "Tue, 03 Nov 2026 10:10:00 GMT");
                  ("EMAIL_PERMISSION_STATUS_", "I"); ("COUNTRY_", "US")]).
Proof. vm_compute. reflexivity. Qed.

(** [test_update_user_without_format_doesnt_send_format]: no format in
    the write, and the welcome [en_39_T] sent in the subscriber's own text
    format. *)
Example test_update_user_without_format_doesnt_send_format :
  Reconcile.build_write (test_catalog (Some "39")) no_double_optin "2026-11-03"
                        "Tue, 03 Nov 2026 10:10:00 GMT"
                        "dude@example.com" "token" false
                        (subscribe_slug None) (Some text_snapshot)
  = (Views.EXACTTARGET_DATA,
     list_to_map [("EMAIL_ADDRESS_", "dude@example.com");
                  ("LANGUAGE_ISO2", "en"); ("TITLE_UNKNOWN_FLG", "Y");
                  ("TOKEN", "token");
                  ("MODIFIED_DATE_", "Tue, 03 Nov 2026 10:10:00 GMT");
                  ("EMAIL_PERMISSION_STATUS_", "I");
                  ("TITLE_UNKNOWN_DATE", "2026-11-03"); ("COUNTRY_", "US")])
  ∧ Reconcile.select_messages no_double_optin [] "dude@example.com" "token"
                              (subscribe_slug None) (Some text_snapshot)
                              (test_catalog (Some "39"))
    = [Reconcile.mkMessage "en_39_T" "dude@example.com" "token" "T"].
Proof. split; vm_compute; reflexivity. Qed.

(** [test_update_user_works_with_no_lang]: a new subscriber, no language
    in the request, text format. *)
Example test_update_user_works_with_no_lang :
  Reconcile.select_messages
    no_double_optin [] "dude@example.com" "token"
    (Reconcile.mkDesiredChange Reconcile.SUBSCRIBE "slug" None (Some "T")
                               (Some "US") Reconcile.DefaultSend true)
    None (test_catalog (Some "Welcome"))
  = [Reconcile.mkMessage "en_Welcome_T" "dude@example.com" "token" "T"].
Proof. vm_compute. reflexivity. Qed.

Lemma test_catalog_fields (welcome : option string) :
  NoDup (map Reconcile.vendor_field (test_catalog welcome)).
Proof. apply NoDup_singleton. Qed.

Lemma build_write_omits_unchanged_witness :
  let resubscribed :=
    (Reconcile.build_write (test_catalog None) no_double_optin "2026-11-03"
                           "Tue, 03 Nov 2026 10:10:00 GMT"
                           "dude@example.com" "token" false
                           (subscribe_slug (Some "H"))
                           (Some subscribed_snapshot)).2 in
  let subscribed :=
    (Reconcile.build_write (test_catalog None) no_double_optin "2026-11-03"
                           "Tue, 03 Nov 2026 10:10:00 GMT"
                           "dude@example.com" "token" false
                           (subscribe_slug (Some "H")) None).2 in
  (resubscribed !! flag_of (test_newsletter None) = None
   ∧ resubscribed !! date_of (test_newsletter None) = None)
  ∧ (subscribed !! flag_of (test_newsletter None) = Some "Y"
     ∧ subscribed !! date_of (test_newsletter None) = Some "2026-11-03").
Proof.
  split.
  - apply (build_write_omits_unchanged
             (test_catalog None) no_double_optin "2026-11-03"
             "Tue, 03 Nov 2026 10:10:00 GMT" "dude@example.com" "token" false
             (subscribe_slug (Some "H")) (Some subscribed_snapshot)
             "slug" (test_newsletter None)
             (test_catalog_fields None) (or_introl eq_refl))
      with (snap := subscribed_snapshot).
    + by left.
    + reflexivity.
    + reflexivity.
    + by left.
  - apply (build_write_omits_unchanged
             (test_catalog None) no_double_optin "2026-11-03"
             "Tue, 03 Nov 2026 10:10:00 GMT" "dude@example.com" "token" false
             (subscribe_slug (Some "H")) None
             "slug" (test_newsletter None)
             (test_catalog_fields None) (or_introl eq_refl)).
    + by left.
    + reflexivity.
    + reflexivity.
    + reflexivity.
Defined.

Lemma build_write_format_only_if_supplied_witness :
  (Reconcile.build_write (test_catalog (Some "39")) no_double_optin "2026-11-03"
                         "Tue, 03 Nov 2026 10:10:00 GMT"
                         "dude@example.com" "token" false
                         (subscribe_slug None) (Some text_snapshot)).2
  !! "EMAIL_FORMAT_" = None
  ∧ (Reconcile.build_write (test_catalog (Some "39")) no_double_optin
                           "2026-11-03" "Tue, 03 Nov 2026 10:10:00 GMT"
                           "dude@example.com" "token" false
                           (subscribe_slug (Some "T")) (Some text_snapshot)).2
    !! "EMAIL_FORMAT_" = Some "T".
Proof.
  split.
  - apply (build_write_format_only_if_supplied
             (test_catalog (Some "39")) no_double_optin "2026-11-03"
             "Tue, 03 Nov 2026 10:10:00 GMT" "dude@example.com" "token" false
             (subscribe_slug None) (Some text_snapshot)).
    reflexivity.
  - apply (build_write_format_only_if_supplied
             (test_catalog (Some "39")) no_double_optin "2026-11-03"
             "Tue, 03 Nov 2026 10:10:00 GMT" "dude@example.com" "token" false
             (subscribe_slug (Some "T")) (Some text_snapshot)).
    + reflexivity.
    + reflexivity.
Defined.

Lemma select_messages_message_id_witness :
  (∃ nl w,
      nl ∈ test_catalog (Some "39") ∧ Reconcile.welcome_id nl = Some w
      ∧ "en_39_T"
        = Reconcile.language_code (subscribe_slug None) (Some text_snapshot)
          +:+ "_" +:+ w
          +:+ (if bool_decide
                    (Reconcile.resolved_format (subscribe_slug None)
                                               (Some text_snapshot) = "T")
               then "_T" else "")
      ∧ "T" = Reconcile.resolved_format (subscribe_slug None)
                                        (Some text_snapshot)
      ∧ "dude@example.com" = "dude@example.com" ∧ "token" = "token")
  ∧ Reconcile.resolved_format (subscribe_slug None) (Some text_snapshot)
    = Reconcile.Snapshot.format text_snapshot.
Proof.
  destruct (select_messages_message_id
              no_double_optin [] "dude@example.com" "token"
              (subscribe_slug None) (Some text_snapshot)
              (test_catalog (Some "39")))
    as (Hid & _ & Hpreference & _).
  split.
  - apply (Hid (Reconcile.mkMessage "en_39_T" "dude@example.com" "token" "T")).
    vm_compute. apply list_elem_of_here.
  - by apply Hpreference.
Defined.

(** ** The confirmation lag at a concrete subscriber *)

(** A subscriber who has clicked the confirmation link and has not been
    promoted yet: no row in master, the row of [dude@example.com] in
    opt-in, the token in confirmation. *)
Definition lagging : Platform.t :=
  Platform.mk [] [Demo.pending_row] ["token"].

Lemma get_user_data_confirmation_by_email_witness :
  (∃ d, (Demo.get_user_data (Platform.get_record Views.NoResults lagging)
                            None (Some "dude@example.com") false []).1
        = Return (Some (Views.UserData d))
        ∧ Views.confirmed d = false ∧ Views.master d = false)
  ∧ ∃ d, (Demo.get_user_data (Platform.get_record Views.NoResults lagging)
                             (Some "token") None false []).1
         = Return (Some (Views.UserData d))
         ∧ Views.confirmed d = true ∧ Views.master d = false.
Proof.
  assert (Hmaster : not_in_partition (Platform.master lagging)
                                     "dude@example.com" "token").
  { intros row Hin. by apply elem_of_nil in Hin. }
  assert (Hoptin : in_partition (Platform.optin lagging)
                                "dude@example.com" "token").
  { exists Demo.pending_row. split; [apply list_elem_of_here | done]. }
  assert (Hconfirmed : "token" ∈ Platform.confirmation lagging).
  { apply list_elem_of_here. }
  destruct (get_user_data_confirmation_by_email
              Demo.newsletter_names Demo.newsletter_fields
              Demo.slug_to_vendor_id Views.NoResults
              lagging "dude@example.com" "token" false []
              eq_refl Hmaster Hoptin Hconfirmed)
    as (_ & Hemail & Htoken).
  split; [by apply Hemail | exact Htoken].
Defined.

(** ** Case and failures *)
Lemma language_code_is_valid_case_witness :
  Views.language_code_is_valid Demo.newsletter_languages (VStr (upper "fr-ca"))
  = Views.language_code_is_valid Demo.newsletter_languages (VStr "fr-ca")
  ∧ Views.language_code_is_valid Demo.newsletter_languages (VStr (lower "fr-ca"))
    = Views.language_code_is_valid Demo.newsletter_languages (VStr "fr-ca")
  ∧ Views.language_code_is_valid (map upper Demo.newsletter_languages)
                                 (VStr "fr-ca")
    = Views.language_code_is_valid Demo.newsletter_languages (VStr "fr-ca").
Proof.
  destruct (language_code_is_valid_case Demo.newsletter_languages "fr-ca"
                                        eq_refl)
    as (Hupper & Hlower & Hlanguages).
  split; [exact Hupper |]. split; [exact Hlower |].
  apply Hlanguages. reflexivity.
Defined.
Lemma get_user_data_failures_witness :
  Demo.get_user_data Site.get_record_down None (Some "dude@example.com") true
                     [Demo.dude]
  = (Return (Some (Views.ErrorData 400 "Connection timed out"
                                   Views.BASKET_NETWORK_FAILURE)),
     [Demo.dude])
  ∧ Demo.get_user_data get_record_unreachable None (Some "dude@example.com")
                       true [Demo.dude]
    = (Raise (URLError "timed out"), [Demo.dude]).
Proof.
  split.
  - apply (get_user_data_failures
             Demo.newsletter_names Demo.newsletter_fields
             Demo.slug_to_vendor_id Site.get_record_down
             None (Some "dude@example.com") true [Demo.dude]).
    by left.
  - apply (get_user_data_failures
             Demo.newsletter_names Demo.newsletter_fields
             Demo.slug_to_vendor_id get_record_unreachable
             None (Some "dude@example.com") true [Demo.dude]).
    + by left.
    + reflexivity.
Defined.
